(** * AFNONet (network/afnonet.py): spectral filter, autoregressive driver
      and multi-encoder fusion, as a shallow embedding.

    Tensors are modelled by their shape and an index function into an
    arbitrary number type [R]; floating-point rounding, dtypes and devices
    are outside the model.  Library layers of torch (FFT, convolution,
    linear layers, cropping) enter as parameters. *)

From Stdlib Require Import ZArith QArith Qround Lia.
From stdpp Require Import base numbers list option strings.

Local Open Scope Z_scope.
Local Open Scope nat_scope.

(** ** Python exceptions and results *)

Inductive exn : Type :=
  | IndexError
  | RuntimeError
  | ValueError
  | TypeError
  | AssertionError
  | ZeroDivisionError
  | AttributeError
  | UnboundLocalError.

Inductive result (A : Type) : Type :=
  | Ok (a : A)
  | Raise (e : exn).
Arguments Ok {A} a.
Arguments Raise {A} e.

#[global] Instance result_ret : MRet result := fun _ a => Ok a.
#[global] Instance result_bind : MBind result := fun _ _ f m =>
  match m with Ok a => f a | Raise e => Raise e end.

(** ** Python sequence semantics *)

Module Py.

(** [PySlice_AdjustIndices] for step 1: a bound [i] on a sequence of
    length [n]; negative bounds count from the end, and everything is
    clipped to [0, n]. *)
Definition adjust (n : nat) (i : Z) : nat :=
  if (i <? 0)%Z then Z.to_nat (Z.max 0 (i + Z.of_nat n))
  else Z.to_nat (Z.min i (Z.of_nat n)).

(** [seq[start:stop]] selects positions [lo, lo+1, ..., hi-1]; the pair
    returned is [(lo, hi - lo)], the second component being 0 when
    [hi <= lo]. *)
Definition slice (n : nat) (start stop : option Z) : nat * nat :=
  let lo := from_option (adjust n) 0 start in
  let hi := from_option (adjust n) n stop in
  (lo, hi - lo).

(** [l[-1]] *)
Definition last_item {A} (l : list A) : result A :=
  match last l with Some a => Ok a | None => Raise IndexError end.

(** [l[i]] for a non-negative [i] *)
Definition item {A} (l : list A) (i : nat) : result A :=
  match l !! i with Some a => Ok a | None => Raise IndexError end.

End Py.

(** ** Numbers held by tensors *)

Class Num (R : Type) : Type := {
  rzero : R;
  radd : R -> R -> R;
  rsub : R -> R -> R;
  rmul : R -> R -> R;
  ropp : R -> R;
  rltb : R -> R -> bool
}.

(** The few laws of exact arithmetic that the statements below rely on. *)
Class NumLaws (R : Type) `{Num R} : Prop := {
  radd_0_l : forall x : R, radd rzero x = x;
  rltb_opp_nonneg : forall l : R, rltb l rzero = false -> rltb rzero (ropp l) = false
}.

#[global] Instance Z_Num : Num Z := {|
  rzero := 0%Z; radd := Z.add; rsub := Z.sub; rmul := Z.mul; ropp := Z.opp;
  rltb := Z.ltb
|}.


(** ** Tensors *)

Record tensor (R : Type) : Type := mkTensor {
  shape : list nat;
  data : list nat -> R
}.
Arguments mkTensor {R} shape data.
Arguments shape {R} t.
Arguments data {R} t idx.

(** Number of entries of a shape, and the row-major correspondence
    between an index and its position in the flattened tensor. *)
Definition numel (s : list nat) : nat := foldr Nat.mul 1 s.

Fixpoint ravel (s idx : list nat) : nat :=
  match s, idx with
  | _ :: s', i :: idx' => i * numel s' + ravel s' idx'
  | _, _ => 0
  end.

Fixpoint unravel (s : list nat) (n : nat) : list nat :=
  match s with
  | [] => []
  | _ :: s' => n / numel s' :: unravel s' (n mod numel s')
  end.

Section Tensor.
Context {R : Type} `{Num R}.

Definition in_bounds (s idx : list nat) : Prop := Forall2 lt idx s.

(** Two tensors are the same when shapes agree and entries agree at every
    index inside the shape. *)
Definition teq (a b : tensor R) : Prop :=
  shape a = shape b /\ forall idx, in_bounds (shape a) idx -> data a idx = data b idx.

Definition dim (t : tensor R) (ax : nat) : nat := default 0 (shape t !! ax).

Definition zeros (s : list nat) : tensor R := mkTensor s (fun _ => rzero).

Definition tmap (f : R -> R) (t : tensor R) : tensor R :=
  mkTensor (shape t) (fun idx => f (data t idx)).

(** [t[:, ..., start:stop]] with the slice on axis [ax] *)
Definition slice_axis (ax : nat) (start stop : option Z) (t : tensor R)
  : result (tensor R) :=
  match shape t !! ax with
  | None => Raise IndexError
  | Some n =>
      let '(lo, len) := Py.slice n start stop in
      Ok (mkTensor (<[ax := len]> (shape t))
                   (fun idx => data t (alter (fun i => i + lo) ax idx)))
  end.

(** Entry of the concatenation along [ax]: walk the operands, subtracting
    their extents from the index on [ax]. *)
Fixpoint cat_data (ts : list (tensor R)) (ax : nat) (idx : list nat) : R :=
  match ts with
  | [] => rzero
  | t :: ts' =>
      if bool_decide (default 0 (idx !! ax) < dim t ax) then data t idx
      else cat_data ts' ax (alter (fun i => i - dim t ax) ax idx)
  end.

(** Shapes that [torch.cat] accepts next to [s0]: equal except on [ax]. *)
Definition cat_compatible (ax : nat) (s0 s : list nat) : bool :=
  bool_decide (<[ax := 0]> s = <[ax := 0]> s0).

(** [torch.cat(ts, dim=ax)] *)
Definition cat (ts : list (tensor R)) (ax : nat) : result (tensor R) :=
  match ts with
  | [] => Raise RuntimeError
  | t0 :: _ =>
      if bool_decide (ax < length (shape t0)) then
        if forallb (fun t => cat_compatible ax (shape t0) (shape t)) ts then
          Ok (mkTensor (<[ax := sum_list (map (fun t => dim t ax) ts)]> (shape t0))
                       (cat_data ts ax))
        else Raise RuntimeError
      else Raise IndexError
  end.

Definition tzip (f : R -> R -> R) (a b : tensor R) : tensor R :=
  mkTensor (shape a) (fun idx => f (data a idx) (data b idx)).

(** [x.reshape(s')]: the same entries in row-major order under the new
    shape; the numbers of entries must agree. *)
Definition reshape (s' : list nat) (x : tensor R) : result (tensor R) :=
  if bool_decide (numel s' = numel (shape x)) then
    Ok (mkTensor s' (fun idx => data x (unravel (shape x) (ravel s' idx))))
  else Raise RuntimeError.

(** [x.permute(perm)]: axis [i] of the result is axis [perm[i]] of [x]. *)
Definition permute (perm : list nat) (x : tensor R) : tensor R :=
  mkTensor (map (dim x) perm)
    (fun idx =>
       data x (map (fun a => match list_find (fun p => p = a) perm with
                             | Some (i, _) => default 0 (idx !! i)
                             | None => 0
                             end)
                   (seq 0 (length perm)))).

(** Broadcasting, aligned from the last axis: two extents go together when
    they are equal or one of them is 1. *)
Definition broadcast_dim (d1 d2 : nat) : option nat :=
  if bool_decide (d1 = d2) then Some d1
  else if bool_decide (d1 = 1) then Some d2
  else if bool_decide (d2 = 1) then Some d1
  else None.

Fixpoint broadcast_rev (r1 r2 : list nat) : option (list nat) :=
  match r1, r2 with
  | [], r | r, [] => Some r
  | d1 :: r1', d2 :: r2' =>
      d ← broadcast_dim d1 d2; r ← broadcast_rev r1' r2'; Some (d :: r)
  end.

Definition broadcast_shapes (s1 s2 : list nat) : option (list nat) :=
  reverse <$> broadcast_rev (reverse s1) (reverse s2).

(** Shapes [s1] that torch broadcasts to [s0] without changing [s0]: each
    extent of [s1] equals the one of [s0] or is 1. *)
Definition broadcastable_to (s1 s0 : list nat) : bool :=
  bool_decide (length s1 <= length s0) &&
  forallb (fun p => bool_decide (p.1 = p.2) || bool_decide (p.1 = 1))
          (zip s1 (drop (length s0 - length s1) s0)).

(** The entry of a tensor of shape [s1] read at index [idx] of the
    broadcast result of rank [rank0]. *)
Definition broadcast_index (s1 : list nat) (rank0 : nat) (idx : list nat) : list nat :=
  zip_with (fun d i => if bool_decide (d = 1) then 0 else i)
           s1 (drop (rank0 - length s1) idx).

(** [a + b] *)
Definition tadd (a b : tensor R) : result (tensor R) :=
  match broadcast_shapes (shape a) (shape b) with
  | Some s =>
      Ok (mkTensor s
            (fun idx => radd (data a (broadcast_index (shape a) (length s) idx))
                             (data b (broadcast_index (shape b) (length s) idx))))
  | None => Raise RuntimeError
  end.

(** [x.flatten(2)] *)
Definition flatten2 (x : tensor R) : result (tensor R) :=
  match shape x with
  | d0 :: d1 :: d2 :: rest =>
      Ok (mkTensor [d0; d1; numel (d2 :: rest)]
            (fun idx => match idx with
                        | [a; b; n] => data x (a :: b :: unravel (d2 :: rest) n)
                        | _ => data x idx
                        end))
  | _ => Raise IndexError
  end.

(** [x.transpose(1, 2)] *)
Definition transpose12 (x : tensor R) : result (tensor R) :=
  match shape x with
  | _ :: _ :: _ :: _ =>
      Ok (permute ([0; 2; 1] ++ seq 3 (length (shape x) - 3)) x)
  | _ => Raise IndexError
  end.

End Tensor.

(** Two results agree when both raise the same exception or both return
    the same tensor. *)
Definition result_teq {R} `{Num R} (a b : result (tensor R)) : Prop :=
  match a, b with
  | Ok x, Ok y => teq x y
  | Raise e1, Raise e2 => e1 = e2
  | _, _ => False
  end.

(** ** Target selection *)

(** [target_variable_index]: an integer or a list of integers. *)
Inductive target_index : Type :=
  | TargetInt (i : Z)
  | TargetList (l : list Z).

(** [assert a % b == 0, ...] on non-negative integers *)
Definition assert_divisible (a b : nat) : result unit :=
  match b with
  | 0 => Raise ZeroDivisionError
  | S _ => if bool_decide (a mod b = 0) then Ok tt else Raise AssertionError
  end.

(** [a // b] on non-negative integers *)
Definition floordiv (a b : nat) : result nat :=
  match b with
  | 0 => Raise ZeroDivisionError
  | S _ => Ok (a / b)
  end.

Section Select.
Context {R : Type} `{Num R}.

(** [x[:, i]] for an integer [i] (the axis disappears) or a list of
    integers (the axis is re-indexed). *)
Definition norm_index (n : nat) (i : Z) : result nat :=
  if (i <? 0)%Z
  then (if (i + Z.of_nat n <? 0)%Z then Raise IndexError
        else Ok (Z.to_nat (i + Z.of_nat n)))
  else if (i <? Z.of_nat n)%Z then Ok (Z.to_nat i) else Raise IndexError.

Definition select_axis1 (ix : target_index) (x : tensor R) : result (tensor R) :=
  match shape x with
  | b :: c :: rest =>
      match ix with
      | TargetInt i =>
          j ← norm_index c i;
          Ok (mkTensor (b :: rest)
                (fun idx => match idx with
                            | [] => data x []
                            | ib :: irest => data x (ib :: j :: irest)
                            end))
      | TargetList l =>
          js ← mapM (norm_index c) l;
          Ok (mkTensor (b :: length js :: rest)
                (fun idx => data x (alter (fun k => default 0 (js !! k)) 1 idx)))
      end
  | _ => Raise IndexError
  end.

End Select.

(** ** The rearrangements of einops used by the network

    Each pattern is a reshape that splits axes, a permutation of axes and
    a reshape that merges axes; an input that does not fit the pattern is
    rejected ([EinopsError] is a [RuntimeError]). *)

Section Einops.
Context {R : Type} `{Num R}.

(** ['b c t h w -> (b t) c h w'] *)
Definition fuse_batch_time (x : tensor R) : result (tensor R) :=
  match shape x with
  | [b; c; t; h; w] => reshape [b * t; c; h; w] (permute [0; 2; 1; 3; 4] x)
  | _ => Raise RuntimeError
  end.

(** ['(b t) (h w) c -> b h w (c t)'] with [h], [w] and [t] given *)
Definition fold_time (h w t : nat) (x : tensor R) : result (tensor R) :=
  match shape x with
  | [bt; hw; c] =>
      if bool_decide (t = 0 \/ bt mod t <> 0 \/ hw <> h * w) then Raise RuntimeError
      else
        y ← reshape [bt / t; t; h; w; c] x;
        reshape [bt / t; h; w; c * t] (permute [0; 2; 3; 4; 1] y)
  | _ => Raise RuntimeError
  end.

(** ['b h w (c t) -> b t h w c'] with [t] given *)
Definition unfold_time (t : nat) (x : tensor R) : result (tensor R) :=
  match shape x with
  | [b; h; w; ct] =>
      if bool_decide (t = 0 \/ ct mod t <> 0) then Raise RuntimeError
      else
        y ← reshape [b; h; w; ct / t; t] x;
        Ok (permute [0; 4; 1; 2; 3] y)
  | _ => Raise RuntimeError
  end.

(** ["b t h w (p1 p2 c_out) -> b c_out t (h p1) (w p2)"] when [time], and
    ["b h w (p1 p2 c_out) -> b c_out (h p1) (w p2)"] otherwise, with [p1],
    [p2], [h] and [w] given *)
Definition unpatch (time : bool) (p1 p2 h w : nat) (x : tensor R) : result (tensor R) :=
  if time then
    match shape x with
    | [b; t; h'; w'; d] =>
        if bool_decide (p1 * p2 = 0 \/ d mod (p1 * p2) <> 0 \/ h' <> h \/ w' <> w)
        then Raise RuntimeError
        else
          let c_out := d / (p1 * p2) in
          y ← reshape [b; t; h; w; p1; p2; c_out] x;
          reshape [b; c_out; t; h * p1; w * p2] (permute [0; 6; 1; 2; 4; 3; 5] y)
    | _ => Raise RuntimeError
    end
  else
    match shape x with
    | [b; h'; w'; d] =>
        if bool_decide (p1 * p2 = 0 \/ d mod (p1 * p2) <> 0 \/ h' <> h \/ w' <> w)
        then Raise RuntimeError
        else
          let c_out := d / (p1 * p2) in
          y ← reshape [b; h; w; p1; p2; c_out] x;
          reshape [b; c_out; h * p1; w * p2] (permute [0; 5; 1; 3; 2; 4] y)
    | _ => Raise RuntimeError
    end.

End Einops.

(** ** AFNO2D: the spectral filter *)

(** A complex tensor: real and imaginary parts over one shape. *)
Record ctensor (R : Type) : Type := mkC {
  cshape : list nat;
  re : list nat -> R;
  im : list nat -> R
}.
Arguments mkC {R} cshape re im.
Arguments cshape {R} c.
Arguments re {R} c idx.
Arguments im {R} c idx.

Record AFNO2D (R : Type) : Type := mkAFNO2D {
  hidden_size : nat;
  num_blocks : nat;
  block_size : nat;
  sparsity_threshold : R;
  hard_thresholding_fraction : Q;
  hidden_size_factor : nat;
  w1 : tensor R;
  b1 : tensor R;
  w2 : tensor R;
  b2 : tensor R
}.
Arguments mkAFNO2D {R}.
Arguments hidden_size {R} a.
Arguments num_blocks {R} a.
Arguments block_size {R} a.
Arguments sparsity_threshold {R} a.
Arguments hard_thresholding_fraction {R} a.
Arguments hidden_size_factor {R} a.
Arguments w1 {R} a.
Arguments b1 {R} a.
Arguments w2 {R} a.
Arguments b2 {R} a.

(** [int(n * q)] for a non-negative integer [n] and a fraction [q]: the
    exact product, truncated toward zero. *)
Definition int_mul (n : nat) (q : Q) : Z :=
  Z.quot (Z.of_nat n * Qnum q) (Z.pos (Qden q)).

Section SpectralFilter.
Context {R : Type} `{Num R}.

(** [AFNO2D.__init__], lines 94-111.  The initial values of the four
    parameter tensors (scaled normal samples in the source) are given by
    their index functions. *)
Definition AFNO2D_init (hidden_size num_blocks : nat) (sparsity_threshold : R)
    (hard_thresholding_fraction : Q) (hidden_size_factor : nat)
    (w1 b1 w2 b2 : list nat -> R) : result (AFNO2D R) :=
  _ ← assert_divisible hidden_size num_blocks;
  let block_size := hidden_size / num_blocks in
  Ok (mkAFNO2D hidden_size num_blocks block_size sparsity_threshold
        hard_thresholding_fraction hidden_size_factor
        (mkTensor [2; num_blocks; block_size; block_size * hidden_size_factor] w1)
        (mkTensor [2; num_blocks; block_size * hidden_size_factor] b1)
        (mkTensor [2; num_blocks; block_size * hidden_size_factor; block_size] w2)
        (mkTensor [2; num_blocks; block_size] b2)).

(** Entries of [torch.fft.rfft2(x, dim=(1, 2), norm="ortho")] and of
    [torch.fft.irfft2(x, s=(H, W), dim=(1, 2), norm="ortho")]. *)
Variable rfft2_ortho : tensor R -> (list nat -> R) * (list nat -> R).
Variable irfft2_ortho : nat * nat -> ctensor R -> list nat -> R.

(** [f(0) + f(1) + ... + f(n-1)], accumulated from the left *)
Definition rsum (n : nat) (f : nat -> R) : R :=
  foldl (fun acc i => radd acc (f i)) rzero (seq 0 n).

Definition relu (v : R) : R := if rltb rzero v then v else rzero.

Definition softshrink1 (lambd v : R) : R :=
  if rltb lambd v then rsub v lambd
  else if rltb v (ropp lambd) then radd v lambd
  else rzero.

(** [t[i]] on the first axis *)
Definition select0 (i : nat) (t : tensor R) : tensor R :=
  mkTensor (tail (shape t)) (fun idx => data t (i :: idx)).

(** [t + b] where [b] has the two trailing axes of a 5-axis [t] *)
Definition tadd_bias (t b : tensor R) : tensor R :=
  mkTensor (shape t)
    (fun idx => radd (data t idx) (data b (drop 3 idx))).

(** [torch.einsum('...bi,bio->...bo', x, w)] on a 5-axis [x] *)
Definition einsum_bi_bio (x w : tensor R) : tensor R :=
  mkTensor (take 4 (shape x) ++ [dim w 2])
    (fun idx =>
       match idx with
       | [n; r; c; k; o] =>
           rsum (dim w 1) (fun i => rmul (data x [n; r; c; k; i]) (data w [k; i; o]))
       | _ => rzero
       end).

(** [t[:, a:b, :k]] where the two slices resolve to [rows] and [cols],
    each a pair (first position, number of positions) *)
Definition band (rows cols : nat * nat) (t : tensor R) : tensor R :=
  mkTensor (<[1 := rows.2]> (<[2 := cols.2]> (shape t)))
    (fun idx => data t (alter (fun r => r + rows.1) 1
                         (alter (fun c => c + cols.1) 2 idx))).

Definition in_range (rg : nat * nat) (i : nat) : bool :=
  bool_decide (rg.1 <= i) && bool_decide (i < rg.1 + rg.2).

(** [dst[:, a:b, :k] = rhs] *)
Definition assign_band (rows cols : nat * nat) (dst rhs : tensor R) : tensor R :=
  mkTensor (shape dst)
    (fun idx =>
       if in_range rows (default 0 (idx !! 1)) && in_range cols (default 0 (idx !! 2))
       then data rhs (alter (fun r => r - rows.1) 1
                        (alter (fun c => c - cols.1) 2 idx))
       else data dst idx).

(** [x.reshape(s')] of a complex tensor: the same entries in row-major
    order under the new shape; the numbers of entries must agree. *)
Definition creshape (s' : list nat) (x : ctensor R) : result (ctensor R) :=
  if bool_decide (numel s' = numel (cshape x)) then
    let ix idx := unravel (cshape x) (ravel s' idx) in
    Ok (mkC s' (fun idx => re x (ix idx)) (fun idx => im x (ix idx)))
  else Raise RuntimeError.

(** [F.softshrink(torch.stack([o_real, o_imag], dim=-1), lambd)] followed
    by [torch.view_as_complex]: the shrinkage acts on every real and
    every imaginary entry; a negative [lambd] is rejected. *)
Definition softshrink_stacked (lambd : R) (o_real o_imag : tensor R)
  : result (ctensor R) :=
  if rltb lambd rzero then Raise RuntimeError
  else Ok (mkC (shape o_real)
               (fun idx => softshrink1 lambd (data o_real idx))
               (fun idx => softshrink1 lambd (data o_imag idx))).

Definition real_part (x : ctensor R) : tensor R := mkTensor (cshape x) (re x).
Definition imag_part (x : ctensor R) : tensor R := mkTensor (cshape x) (im x).

(** Lines 130-131 *)
Definition total_modes (H : nat) : nat := H / 2 + 1.
Definition kept_modes (m : AFNO2D R) (H : nat) : Z :=
  int_mul (total_modes H) (hard_thresholding_fraction m).

(** The two slices [total_modes-kept_modes:total_modes+kept_modes] and
    [:kept_modes], resolved on axes of length [H] and [W // 2 + 1]. *)
Definition band_rows (m : AFNO2D R) (H : nat) : nat * nat :=
  Py.slice H (Some (Z.of_nat (total_modes H) - kept_modes m H)%Z)
             (Some (Z.of_nat (total_modes H) + kept_modes m H)%Z).
Definition band_cols (m : AFNO2D R) (H W : nat) : nat * nat :=
  Py.slice (W / 2 + 1) None (Some (kept_modes m H)).

(** Lines 120-167: the spectrum after the block MLP and the shrinkage,
    reshaped back to (B, H, W // 2 + 1, C). *)
Definition filtered_spectrum (m : AFNO2D R) (x : tensor R) : result (ctensor R) :=
  match shape x with
  | [B; H; W; C] =>
      if bool_decide (H = 0 \/ W = 0) then Raise RuntimeError else
      let xf := mkC [B; H; W / 2 + 1; C] (rfft2_ortho x).1 (rfft2_ortho x).2 in
      xf ← creshape [B; H; W / 2 + 1; num_blocks m; block_size m] xf;
      let hid := [B; H; W / 2 + 1; num_blocks m; block_size m * hidden_size_factor m] in
      let o1_real := zeros hid in
      let o1_imag := zeros hid in
      let o2_real := zeros (cshape xf) in
      let o2_imag := zeros (cshape xf) in
      let rows := band_rows m H in
      let cols := band_cols m H W in
      let sel := band rows cols in
      let o1_real := assign_band rows cols o1_real
        (tmap relu
           (tadd_bias
              (tzip rsub (einsum_bi_bio (sel (real_part xf)) (select0 0 (w1 m)))
                         (einsum_bi_bio (sel (imag_part xf)) (select0 1 (w1 m))))
              (select0 0 (b1 m)))) in
      let o1_imag := assign_band rows cols o1_imag
        (tmap relu
           (tadd_bias
              (tzip radd (einsum_bi_bio (sel (imag_part xf)) (select0 0 (w1 m)))
                         (einsum_bi_bio (sel (real_part xf)) (select0 1 (w1 m))))
              (select0 1 (b1 m)))) in
      let o2_real := assign_band rows cols o2_real
        (tadd_bias
           (tzip rsub (einsum_bi_bio (sel o1_real) (select0 0 (w2 m)))
                      (einsum_bi_bio (sel o1_imag) (select0 1 (w2 m))))
           (select0 0 (b2 m))) in
      let o2_imag := assign_band rows cols o2_imag
        (tadd_bias
           (tzip radd (einsum_bi_bio (sel o1_imag) (select0 0 (w2 m)))
                      (einsum_bi_bio (sel o1_real) (select0 1 (w2 m))))
           (select0 1 (b2 m))) in
      x ← softshrink_stacked (sparsity_threshold m) o2_real o2_imag;
      creshape [B; H; W / 2 + 1; C] x
  | _ => Raise ValueError
  end.

(** Lines 169-170: the learned correction, back on the grid. *)
Definition correction (m : AFNO2D R) (x : tensor R) : result (tensor R) :=
  match shape x with
  | [B; H; W; C] =>
      xs ← filtered_spectrum m x;
      Ok (mkTensor [B; H; W; C] (irfft2_ortho (H, W) xs))
  | _ => Raise ValueError
  end.

(** [AFNO2D.forward], lines 113-172 *)
Definition AFNO2D_forward (m : AFNO2D R) (x : tensor R) : result (tensor R) :=
  let bias := x in
  x ← correction m x;
  Ok (tzip radd x bias).

End SpectralFilter.

(** The block MLP, one frequency mode at a time, the way the specification
    words it: a complex product with a weight pair plus a bias, over [n]
    input channels. *)
Section ComplexLayer.
Context {R : Type} `{Num R}.

(** [out_real = in_real·w_real - in_imag·w_imag + b_real] *)
Definition cmul_real (n : nat) (in_real in_imag w_real w_imag : nat -> R)
    (b_real : R) : R :=
  radd (rsub (rsum n (fun i => rmul (in_real i) (w_real i)))
             (rsum n (fun i => rmul (in_imag i) (w_imag i))))
       b_real.

(** [out_imag = in_imag·w_real + in_real·w_imag + b_imag] *)
Definition cmul_imag (n : nat) (in_real in_imag w_real w_imag : nat -> R)
    (b_imag : R) : R :=
  radd (radd (rsum n (fun i => rmul (in_imag i) (w_real i)))
             (rsum n (fun i => rmul (in_real i) (w_imag i))))
       b_imag.

(** Real and imaginary parts after the first layer and its ReLU, at mode
    [(b, r, c)], block [k], hidden channel [j]; [xr] and [xi] are the
    spectrum with its channels split into blocks. *)
Definition hidden_real (m : AFNO2D R) (xr xi : list nat -> R) (b r c k j : nat) : R :=
  relu (cmul_real (block_size m)
          (fun i => xr [b; r; c; k; i]) (fun i => xi [b; r; c; k; i])
          (fun i => data (w1 m) [0; k; i; j]) (fun i => data (w1 m) [1; k; i; j])
          (data (b1 m) [0; k; j])).

Definition hidden_imag (m : AFNO2D R) (xr xi : list nat -> R) (b r c k j : nat) : R :=
  relu (cmul_imag (block_size m)
          (fun i => xr [b; r; c; k; i]) (fun i => xi [b; r; c; k; i])
          (fun i => data (w1 m) [0; k; i; j]) (fun i => data (w1 m) [1; k; i; j])
          (data (b1 m) [1; k; j])).

(** After the second layer (no nonlinearity) and the shrinkage *)
Definition mlp_real (m : AFNO2D R) (xr xi : list nat -> R) (b r c k o : nat) : R :=
  softshrink1 (sparsity_threshold m)
    (cmul_real (block_size m * hidden_size_factor m)
       (hidden_real m xr xi b r c k) (hidden_imag m xr xi b r c k)
       (fun j => data (w2 m) [0; k; j; o]) (fun j => data (w2 m) [1; k; j; o])
       (data (b2 m) [0; k; o])).

Definition mlp_imag (m : AFNO2D R) (xr xi : list nat -> R) (b r c k o : nat) : R :=
  softshrink1 (sparsity_threshold m)
    (cmul_imag (block_size m * hidden_size_factor m)
       (hidden_real m xr xi b r c k) (hidden_imag m xr xi b r c k)
       (fun j => data (w2 m) [0; k; j; o]) (fun j => data (w2 m) [1; k; j; o])
       (data (b2 m) [1; k; o])).

(** Channel [k * bs + i] of a spectrum, read as entry [(k, i)] *)
Definition blocks_of (bs : nat) (f : list nat -> R) (idx : list nat) : R :=
  match idx with
  | [b; r; c; k; i] => f [b; r; c; k * bs + i]
  | _ => f idx
  end.

End ComplexLayer.

(** ** Mlp, Block and PatchEmbed

    A library layer with its weights ([nn.Linear], [nn.Conv2d],
    [nn.LayerNorm], an activation, [nn.Dropout] or [DropPath] outside
    training) is a function on tensors that may reject its input. *)

Abbreviation layer R := (tensor R -> result (tensor R)).

Module Mlp.

Record t (R : Type) : Type := mk {
  fc1 : layer R;
  act : layer R;
  fc2 : layer R;
  drop : layer R
}.
Arguments mk {R}.
Arguments fc1 {R} _.
Arguments act {R} _.
Arguments fc2 {R} _.
Arguments drop {R} _.

(** [Mlp.forward], lines 81-87 *)
Definition forward {R} (m : t R) (x : tensor R) : result (tensor R) :=
  x ← fc1 m x;
  x ← act m x;
  x ← drop m x;
  x ← fc2 m x;
  x ← drop m x;
  Ok x.

End Mlp.

Module Block.

(** What the constructor of a block draws or builds from the library: the
    two norms, the stochastic depth, the layers of the MLP and the initial
    values of the filter's parameters. *)
Record parts (R : Type) : Type := mkParts {
  p_norm1 : layer R;
  p_norm2 : layer R;
  p_drop_path : layer R;
  p_fc1 : layer R;
  p_act : layer R;
  p_fc2 : layer R;
  p_drop : layer R;
  p_w1 : list nat -> R;
  p_b1 : list nat -> R;
  p_w2 : list nat -> R;
  p_b2 : list nat -> R
}.
Arguments mkParts {R}.
Arguments p_norm1 {R} p.
Arguments p_norm2 {R} p.
Arguments p_drop_path {R} p.
Arguments p_fc1 {R} p.
Arguments p_act {R} p.
Arguments p_fc2 {R} p.
Arguments p_drop {R} p.
Arguments p_w1 {R} p.
Arguments p_b1 {R} p.
Arguments p_w2 {R} p.
Arguments p_b2 {R} p.

Record t (R : Type) : Type := mk {
  norm1 : layer R;
  filter : AFNO2D R;
  drop_path : layer R;
  norm2 : layer R;
  mlp : Mlp.t R;
  double_skip : bool
}.
Arguments mk {R}.
Arguments norm1 {R} _.
Arguments filter {R} _.
Arguments drop_path {R} _.
Arguments norm2 {R} _.
Arguments mlp {R} _.
Arguments double_skip {R} _.

Section Methods.
Context {R : Type} `{Num R}.
Variable rfft2_ortho : tensor R -> (list nat -> R) * (list nat -> R).
Variable irfft2_ortho : nat * nat -> ctensor R -> list nat -> R.

(** [Block.__init__], lines 189-197, with [double_skip] at its default *)
Definition init (dim num_blocks : nat) (sparsity_threshold : R)
    (hard_thresholding_fraction : Q) (p : parts R) : result (t R) :=
  filter ← AFNO2D_init dim num_blocks sparsity_threshold hard_thresholding_fraction 1
             (p_w1 p) (p_b1 p) (p_w2 p) (p_b2 p);
  Ok (mk (p_norm1 p) filter (p_drop_path p) (p_norm2 p)
        (Mlp.mk (p_fc1 p) (p_act p) (p_fc2 p) (p_drop p)) true).

(** [Block.forward], lines 199-212 *)
Definition forward (blk : t R) (x : tensor R) : result (tensor R) :=
  let residual := x in
  x ← norm1 blk x;
  x ← AFNO2D_forward rfft2_ortho irfft2_ortho (filter blk) x;
  '(x, residual) ← (if double_skip blk
                    then x ← tadd x residual; Ok (x, x)
                    else Ok (x, residual));
  x ← norm2 blk x;
  x ← Mlp.forward (mlp blk) x;
  x ← drop_path blk x;
  tadd x residual.

End Methods.

End Block.

Module PatchEmbed.

Record t (R : Type) : Type := mk {
  img_size : nat * nat;
  patch_size : nat * nat;
  num_patches : nat;
  proj : layer R
}.
Arguments mk {R}.
Arguments img_size {R} _.
Arguments patch_size {R} _.
Arguments num_patches {R} _.
Arguments proj {R} _.

Section Methods.
Context {R : Type} `{Num R}.

(** [PatchEmbed.__init__], lines 216-221 *)
Definition init (img_size patch_size : nat * nat) (proj : layer R) : result (t R) :=
  nw ← floordiv img_size.2 patch_size.2;
  nh ← floordiv img_size.1 patch_size.1;
  Ok (mk img_size patch_size (nw * nh) proj).

(** [PatchEmbed.forward], lines 223-228 *)
Definition forward (p : t R) (x : tensor R) : result (tensor R) :=
  match shape x with
  | [B; C; H; W] =>
      if bool_decide (H = (img_size p).1 /\ W = (img_size p).2) then
        x ← proj p x;
        x ← flatten2 x;
        transpose12 x
      else Raise AssertionError
  | _ => Raise ValueError
  end.

End Methods.

End PatchEmbed.

(** ** AFNONet *)

Module AFNONet.

(** The arguments of the constructor, the values of [params] that
    override them, and what it draws or builds from the library: the
    convolution of the patch embedding, the initial position embedding,
    the dropout, the parts of each of the [depth] blocks, the head and the
    crop layer of [params['target_size']]. *)
Record args (R : Type) : Type := mkArgs {
  a_params_patch_size : option nat;
  a_params_N_in_channels : option nat;
  a_params_N_out_channels : option nat;
  a_img_size : nat * nat;
  a_patch_size : nat * nat;
  a_in_chans : nat;
  a_out_chans : nat;
  a_input_time_dim : option nat;
  a_output_time_dim : option nat;
  a_embed_dim : nat;
  a_num_blocks : nat;
  a_sparsity_threshold : R;
  a_hard_thresholding_fraction : Q;
  a_autoregressive_steps : nat;
  a_use_dilated_conv_blocks : bool;
  a_output_only_last : bool;
  a_target_variable_index : option target_index;
  a_proj : layer R;
  a_pos_embed : list nat -> R;
  a_pos_drop : layer R;
  a_blocks : list (Block.parts R);
  a_head : layer R;
  a_crop_layer : layer R
}.
Arguments mkArgs {R}.
Arguments a_params_patch_size {R} a.
Arguments a_params_N_in_channels {R} a.
Arguments a_params_N_out_channels {R} a.
Arguments a_img_size {R} a.
Arguments a_patch_size {R} a.
Arguments a_in_chans {R} a.
Arguments a_out_chans {R} a.
Arguments a_input_time_dim {R} a.
Arguments a_output_time_dim {R} a.
Arguments a_embed_dim {R} a.
Arguments a_num_blocks {R} a.
Arguments a_sparsity_threshold {R} a.
Arguments a_hard_thresholding_fraction {R} a.
Arguments a_autoregressive_steps {R} a.
Arguments a_use_dilated_conv_blocks {R} a.
Arguments a_output_only_last {R} a.
Arguments a_target_variable_index {R} a.
Arguments a_proj {R} a.
Arguments a_pos_embed {R} a.
Arguments a_pos_drop {R} a.
Arguments a_blocks {R} a.
Arguments a_head {R} a.
Arguments a_crop_layer {R} a.

Record t (R : Type) : Type := mk {
  img_size : nat * nat;
  patch_size : nat * nat;
  in_chans : nat;
  out_chans : nat;
  input_time_dim : option nat;
  output_time_dim : option nat;
  has_time_dim : bool;
  embed_dim : nat;
  num_blocks : nat;
  use_dilated_conv_blocks : bool;
  autoregressive_steps : nat;
  output_only_last : bool;
  target_variable_index : option target_index;
  output_patch_embed_dim : nat;
  patch_embed : PatchEmbed.t R;
  pos_embed : tensor R;
  pos_drop : layer R;
  h : nat;
  w : nat;
  blocks : list (Block.t R);
  head : layer R;
  crop_layer : option (layer R)
}.
Arguments mk {R}.
Arguments img_size {R} _.
Arguments patch_size {R} _.
Arguments in_chans {R} _.
Arguments out_chans {R} _.
Arguments input_time_dim {R} _.
Arguments output_time_dim {R} _.
Arguments has_time_dim {R} _.
Arguments embed_dim {R} _.
Arguments num_blocks {R} _.
Arguments use_dilated_conv_blocks {R} _.
Arguments autoregressive_steps {R} _.
Arguments output_only_last {R} _.
Arguments target_variable_index {R} _.
Arguments output_patch_embed_dim {R} _.
Arguments patch_embed {R} _.
Arguments pos_embed {R} _.
Arguments pos_drop {R} _.
Arguments h {R} _.
Arguments w {R} _.
Arguments blocks {R} _.
Arguments head {R} _.
Arguments crop_layer {R} _.

Section Methods.
Context {R : Type} `{Num R}.
Variable rfft2_ortho : tensor R -> (list nat -> R) * (list nat -> R).
Variable irfft2_ortho : nat * nat -> ctensor R -> list nat -> R.

(** [AFNONet.__init__], lines 281-332 *)
Definition init (a : args R) : result (t R) :=
  let patch_size :=
    (default (a_patch_size a).1 (a_params_patch_size a),
     default (a_patch_size a).2 (a_params_patch_size a)) in
  let in_chans := default (a_in_chans a) (a_params_N_in_channels a) in
  let out_chans := default (a_out_chans a) (a_params_N_out_channels a) in
  let input_time_dim := a_input_time_dim a in
  let output_time_dim :=
    match a_output_time_dim a with Some o => Some o | None => input_time_dim end in
  let has_time_dim := bool_decide (input_time_dim <> None) in
  let embed_dim := a_embed_dim a in
  '(input_patch_embed_dim, output_patch_embed_dim) ←
    (if has_time_dim then
       match input_time_dim, output_time_dim with
       | Some i, Some o =>
           _ ← assert_divisible embed_dim i;
           _ ← assert_divisible embed_dim o;
           Ok (embed_dim / i, embed_dim / o)
       | _, _ => Raise TypeError
       end
     else Ok (embed_dim, embed_dim));
  patch_embed ← PatchEmbed.init (a_img_size a) patch_size (a_proj a);
  let pos_embed :=
    mkTensor [1; PatchEmbed.num_patches patch_embed; input_patch_embed_dim]
             (a_pos_embed a) in
  h ← floordiv (a_img_size a).1 patch_size.1;
  w ← floordiv (a_img_size a).2 patch_size.2;
  blocks ← mapM (Block.init embed_dim (a_num_blocks a) (a_sparsity_threshold a)
                   (a_hard_thresholding_fraction a)) (a_blocks a);
  Ok (mk (a_img_size a) patch_size in_chans out_chans input_time_dim output_time_dim
        has_time_dim embed_dim (a_num_blocks a) (a_use_dilated_conv_blocks a)
        (a_autoregressive_steps a) (a_output_only_last a) (a_target_variable_index a)
        output_patch_embed_dim patch_embed pos_embed (a_pos_drop a) h w blocks
        (a_head a)
        (if a_use_dilated_conv_blocks a then Some (a_crop_layer a) else None)).

(** The loop over [self.blocks], lines 359-360 *)
Fixpoint apply_blocks (blks : list (Block.t R)) (x : tensor R) : result (tensor R) :=
  match blks with
  | [] => Ok x
  | blk :: blks' =>
      x ← Block.forward rfft2_ortho irfft2_ortho blk x; apply_blocks blks' x
  end.

(** [AFNONet.forward_features], lines 347-364 *)
Definition forward_features (m : t R) (x : tensor R) : result (tensor R) :=
  B ← Py.item (shape x) 0;
  x ← (if has_time_dim m then fuse_batch_time x else Ok x);
  x ← PatchEmbed.forward (patch_embed m) x;
  x ← tadd x (pos_embed m);
  x ← pos_drop m x;
  x ← (if has_time_dim m then
         match input_time_dim m with
         | Some t => fold_time (h m) (w m) t x
         | None => Raise TypeError
         end
       else reshape [B; h m; w m; embed_dim m] x);
  x ← apply_blocks (blocks m) x;
  if has_time_dim m then
    match output_time_dim m with
    | Some t => unfold_time t x
    | None => Raise TypeError
    end
  else Ok x.

(** [AFNONet.forward_head], lines 366-377 *)
Definition forward_head (m : t R) (x : tensor R) : result (tensor R) :=
  x ← head m x;
  h ← floordiv (img_size m).1 (patch_size m).1;
  w ← floordiv (img_size m).2 (patch_size m).2;
  unpatch (has_time_dim m) (patch_size m).1 (patch_size m).2 h w x.

(** [AFNONet.forward_step], lines 379-382 *)
Definition forward_step (m : t R) (x : tensor R) : result (tensor R) :=
  x ← forward_features m x;
  forward_head m x.

(** [AFNONet.get_next_input], lines 384-390 *)
Definition get_next_input (m : t R) (inputs : tensor R)
    (outputs : list (tensor R)) : result (tensor R) :=
  if negb (has_time_dim m) then Py.last_item outputs
  else
    match input_time_dim m, output_time_dim m with
    | Some itd, Some otd =>
        if bool_decide (itd <= otd) then
          o ← Py.last_item outputs;
          slice_axis 2 (Some (- Z.of_nat itd)%Z) None o
        else
          tail ← slice_axis 2 (Some (Z.of_nat otd)) None inputs;
          o ← Py.last_item outputs;
          cat [tail; o] 2
    | _, _ => Raise TypeError
    end.

(** The loop of [forward], lines 393-398: [n] iterations remain, [step]
    is the loop variable. *)
Fixpoint run_steps (m : t R) (n step : nat) (inputs : tensor R)
    (output_list : list (tensor R)) : result (list (tensor R)) :=
  match n with
  | 0 => Ok output_list
  | S n' =>
      inputs ← (if bool_decide (0 < step) then get_next_input m inputs output_list
                else Ok inputs);
      x ← forward_step m inputs;
      run_steps m n' (S step) inputs (output_list ++ [x])
  end.

(** Lines 399-403 *)
Definition assemble (m : t R) (output_list : list (tensor R)) : result (tensor R) :=
  if has_time_dim m && negb (output_only_last m) then cat output_list 2
  else Py.last_item output_list.

(** [self.crop_layer(x)]; the attribute exists when the model was built
    with [use_dilated_conv_blocks]. *)
Definition crop (m : t R) (x : tensor R) : result (tensor R) :=
  match crop_layer m with
  | Some c => c x
  | None => Raise AttributeError
  end.

(** Lines 404-407 *)
Definition postprocess (m : t R) (x : tensor R) : result (tensor R) :=
  x ← (if use_dilated_conv_blocks m then crop m x else Ok x);
  match target_variable_index m with
  | Some ix => select_axis1 ix x
  | None => Ok x
  end.

(** [AFNONet.forward], lines 392-408 *)
Definition forward (m : t R) (inputs : tensor R) : result (tensor R) :=
  output_list ← run_steps m (autoregressive_steps m) 0 inputs [];
  x ← assemble m output_list;
  postprocess m x.

(** The single step applied [n] times in a row, each time to the result
    of the previous application. *)
Fixpoint iterate_step (m : t R) (n : nat) (x : tensor R) : result (tensor R) :=
  match n with
  | 0 => Ok x
  | S n' => y ← forward_step m x; iterate_step m n' y
  end.

End Methods.

End AFNONet.

(** ** Tensor objects

    [add] updates a tensor in place, so the fusion wrapper is modelled over
    a store of tensor objects addressed by location; a list of tensors is a
    list of locations, and two entries may name the same object. *)

Abbreviation loc := nat.
Abbreviation store R := (list (tensor R)).
Definition M (R A : Type) : Type := store R -> result A * store R.

#[global] Instance M_ret {R} : MRet (M R) := fun _ a s => (Ok a, s).
#[global] Instance M_bind {R} : MBind (M R) := fun _ _ f m s =>
  match m s with
  | (Ok a, s') => f a s'
  | (Raise e, s') => (Raise e, s')
  end.

Definition lift {R A} (r : result A) : M R A := fun s => (r, s).

Definition read {R} (l : loc) : M R (tensor R) := fun s =>
  match s !! l with
  | Some t => (Ok t, s)
  | None => (Raise RuntimeError, s)
  end.

Definition write {R} (l : loc) (t : tensor R) : M R unit := fun s =>
  (Ok tt, <[l := t]> s).

(** A new object is placed after all existing ones. *)
Definition alloc {R} (t : tensor R) : M R loc := fun s =>
  (Ok (length s), s ++ [t]).

(** A Python value handed to [forward]: a tensor, or a list of tensors. *)
Inductive pyval : Type :=
  | VTensor (l : loc)
  | VList (ls : list loc).

Section InPlace.
Context {R : Type} `{Num R}.

(** [a += b] on tensor objects: [a] is overwritten, [b] is broadcast to
    the shape of [a], and a shape that does not broadcast is an error. *)
Definition iadd (a b : loc) : M R unit :=
  ta ← read a;
  tb ← read b;
  if broadcastable_to (shape tb) (shape ta) then
    write a (mkTensor (shape ta)
               (fun idx => radd (data ta idx)
                             (data tb (broadcast_index (shape tb) (length (shape ta)) idx))))
  else lift (Raise RuntimeError).

(** The loop of [add], lines 56-57, over the remaining items of
    [x_list[1:]] *)
Fixpoint add_loop (x_list rest : list loc) : M R unit :=
  match rest with
  | [] => mret tt
  | _x :: rest' =>
      x0 ← lift (Py.item x_list 0);
      _ ← iadd x0 _x;
      add_loop x_list rest'
  end.

(** [add], lines 55-58 *)
Definition add (x_list : list loc) : M R loc :=
  _ ← add_loop x_list (drop 1 x_list);
  lift (Py.item x_list 0).

(** [process_input], lines 67-68; the keyword arguments are part of
    [func]. *)
Definition process_input {A B} (inputs : A) (func : A -> B) : B := func inputs.

(** [torch.concat(xs, dim=-1)] on tensor objects *)
Definition concat_last (xs : list loc) : M R loc :=
  ts ← mapM read xs;
  match ts with
  | [] => lift (Raise RuntimeError)
  | t0 :: _ =>
      match length (shape t0) with
      | 0 => lift (Raise RuntimeError)
      | S r => t ← lift (cat ts r); alloc t
      end
  end.

(** The value [a] holds after [a += b] *)
Definition plus_broadcast (a b : tensor R) : tensor R :=
  mkTensor (shape a)
    (fun idx => radd (data a idx)
                  (data b (broadcast_index (shape b) (length (shape a)) idx))).

(** The value the first tensor holds after the others were added to it,
    one after the other *)
Definition accumulate (t0 : tensor R) (ts : list (tensor R)) : tensor R :=
  foldl plus_broadcast t0 ts.

End InPlace.

(** ** MultiEncoderAFNONet: the fusion wrapper *)

Inductive act_name : Type := Tanh | ReLU | LeakyReLU | ReLU6 | Sigmoid.

Module MultiEncoder.

(** One entry of [multi_params], with what the constructor of its encoder
    draws or builds from the library. *)
Record params (R : Type) : Type := mkParams {
  p_img_size : nat * nat;
  p_patch_size : nat;
  p_N_in_channels : nat;
  p_N_out_channels : nat;
  p_input_time_dim : option nat;
  p_output_time_dim : option nat;
  p_embed_dim : nat;
  p_num_blocks : nat;
  p_sparsity_threshold : R;
  p_hard_thresholding_fraction : Q;
  p_autoregressive_steps : nat;
  p_use_dilated_conv_blocks : bool;
  p_output_only_last : bool;
  p_target_variable_index : option target_index;
  p_proj : layer R;
  p_pos_embed : list nat -> R;
  p_pos_drop : layer R;
  p_blocks : list (Block.parts R);
  p_head : layer R;
  p_crop_layer : layer R
}.
Arguments mkParams {R}.
Arguments p_img_size {R} p.
Arguments p_patch_size {R} p.
Arguments p_N_in_channels {R} p.
Arguments p_N_out_channels {R} p.
Arguments p_input_time_dim {R} p.
Arguments p_output_time_dim {R} p.
Arguments p_embed_dim {R} p.
Arguments p_num_blocks {R} p.
Arguments p_sparsity_threshold {R} p.
Arguments p_hard_thresholding_fraction {R} p.
Arguments p_autoregressive_steps {R} p.
Arguments p_use_dilated_conv_blocks {R} p.
Arguments p_output_only_last {R} p.
Arguments p_target_variable_index {R} p.
Arguments p_proj {R} p.
Arguments p_pos_embed {R} p.
Arguments p_pos_drop {R} p.
Arguments p_blocks {R} p.
Arguments p_head {R} p.
Arguments p_crop_layer {R} p.

Record t (R : Type) : Type := mk {
  encoders : list (AFNONet.t R);
  output_patch_embed_list : list nat;
  crop_layer : option (layer R);
  out_chans : nat;
  autoregressive_steps : nat;
  patch_size : nat * nat;
  embed_dim : nat;
  input_time_dim : option nat;
  output_time_dim : option nat;
  has_time_dim : bool;
  output_only_last : bool;
  target_variable_index : option target_index;
  img_size : nat * nat;
  action : string;
  head : layer R;
  act_final : option act_name
}.
Arguments mk {R}.
Arguments encoders {R} _.
Arguments output_patch_embed_list {R} _.
Arguments crop_layer {R} _.
Arguments out_chans {R} _.
Arguments autoregressive_steps {R} _.
Arguments patch_size {R} _.
Arguments embed_dim {R} _.
Arguments input_time_dim {R} _.
Arguments output_time_dim {R} _.
Arguments has_time_dim {R} _.
Arguments output_only_last {R} _.
Arguments target_variable_index {R} _.
Arguments img_size {R} _.
Arguments action {R} _.
Arguments head {R} _.
Arguments act_final {R} _.

Definition parse_act (name : string) : result act_name :=
  if bool_decide (name = "Tanh") then Ok Tanh
  else if bool_decide (name = "ReLU") then Ok ReLU
  else if bool_decide (name = "LeakyReLU") then Ok LeakyReLU
  else if bool_decide (name = "ReLU6") then Ok ReLU6
  else if bool_decide (name = "Sigmoid") then Ok Sigmoid
  else Raise ValueError.

(** The in-place activation modules of lines 517-526 *)
Definition inplace (a : act_name) : bool :=
  match a with
  | ReLU | LeakyReLU | ReLU6 => true
  | Tanh | Sigmoid => false
  end.

Section Methods.
Context {R : Type} `{Num R}.
Variable rfft2_ortho : tensor R -> (list nat -> R) * (list nat -> R).
Variable irfft2_ortho : nat * nat -> ctensor R -> list nat -> R.

(** [nn.Linear(in_features, out_features, bias=False)] with its weights,
    the activation functions of [torch.nn], and the division of an entry
    by 6. *)
Variable linear : nat -> nat -> layer R.
Variable activation : act_name -> R -> R.
Variable div6 : R -> R.

(** The keyword arguments of [EncoderAFNONet] at lines 468-487 *)
Definition encoder_args (p : params R) : AFNONet.args R :=
  AFNONet.mkArgs (Some (p_patch_size p)) (Some (p_N_in_channels p))
    (Some (p_N_out_channels p)) (p_img_size p) (p_patch_size p, p_patch_size p)
    (p_N_in_channels p) (p_N_out_channels p) (p_input_time_dim p)
    (p_output_time_dim p) (p_embed_dim p) (p_num_blocks p) (p_sparsity_threshold p)
    (p_hard_thresholding_fraction p) (p_autoregressive_steps p)
    (p_use_dilated_conv_blocks p) (p_output_only_last p) (p_target_variable_index p)
    (p_proj p) (p_pos_embed p) (p_pos_drop p) (p_blocks p) (p_head p) (p_crop_layer p).

(** [MultiEncoderAFNONet.__init__], lines 455-528 *)
Definition init (multi_params : list (params R))
    (kw_use_dilated_conv_blocks : bool) (kw_autoregressive_steps : nat)
    (kw_target_variable_index : option target_index) (kw_action : string)
    (kw_act_final : option string) : result (t R) :=
  encoders ← mapM (fun p => AFNONet.init (encoder_args p)) multi_params;
  let output_patch_embed_list := map AFNONet.output_patch_embed_dim encoders in
  crop_layer ←
    (if kw_use_dilated_conv_blocks then
       e0 ← Py.item encoders 0;
       match AFNONet.crop_layer e0 with
       | Some c => Ok (Some c)
       | None => Raise AttributeError
       end
     else Ok None);
  e0 ← Py.item encoders 0;
  let out_chans := AFNONet.out_chans e0 in
  p0 ← Py.item multi_params 0;
  let patch_size := (p_patch_size p0, p_patch_size p0) in
  let input_time_dim := p_input_time_dim p0 in
  let output_time_dim :=
    match p_output_time_dim p0 with
    | None => input_time_dim
    | Some o => Some o
    end in
  let has_time_dim := bool_decide (input_time_dim <> None) in
  head ←
    (if bool_decide (kw_action = "concat")
     then Ok (linear (sum_list output_patch_embed_list)
                (out_chans * patch_size.1 * patch_size.2))
     else d ← Py.item output_patch_embed_list 0;
          Ok (linear d (out_chans * patch_size.1 * patch_size.2)));
  act_final ←
    match kw_act_final with
    | None => Ok None
    | Some name => a ← parse_act name; Ok (Some a)
    end;
  Ok (mk encoders output_patch_embed_list crop_layer out_chans kw_autoregressive_steps
        patch_size (p_embed_dim p0) input_time_dim output_time_dim has_time_dim
        (p_output_only_last p0) kw_target_variable_index (p_img_size p0) kw_action
        head act_final).

(** [module(v)] for an encoder, whose [forward] is [forward_features]: a
    list has no [shape] (line 348); the features of a tensor are a new
    tensor object. *)
Definition call_encoder (e : AFNONet.t R) (v : pyval) : M R loc :=
  match v with
  | VList _ => lift (Raise AttributeError)
  | VTensor l =>
      x ← read l;
      y ← lift (AFNONet.forward_features rfft2_ortho irfft2_ortho e x);
      alloc y
  end.

(** The loop of [forward_step], lines 540-543; [i] is the position of
    the first encoder of [encs] in [self.encoders]. *)
Fixpoint run_encoders (encs : list (AFNONet.t R)) (i : nat)
    (input_list : list pyval) (input_encoder_list : list loc) : M R (list loc) :=
  match encs with
  | [] => mret input_encoder_list
  | module :: encs' =>
      v ← lift (Py.item input_list i);
      x ← call_encoder module v;
      run_encoders encs' (S i) input_list (input_encoder_list ++ [x])
  end.

(** Lines 544-547: the fused feature tensor *)
Definition fuse (m : t R) (input_encoder_list : list loc) : M R loc :=
  if bool_decide (action m = "add") then process_input input_encoder_list add
  else if bool_decide (action m = "concat")
       then process_input input_encoder_list concat_last
  else
    match last input_encoder_list with
    | Some x => mret x
    | None => lift (Raise UnboundLocalError)
    end.

(** Lines 548-559 *)
Definition project (m : t R) (x : loc) : M R loc :=
  tx ← read x;
  y ← lift (head m tx);
  h ← lift (floordiv (img_size m).1 (patch_size m).1);
  w ← lift (floordiv (img_size m).2 (patch_size m).2);
  z ← lift (unpatch (has_time_dim m) (patch_size m).1 (patch_size m).2 h w y);
  alloc z.

(** [MultiEncoderAFNONet.forward_step], lines 539-559 *)
Definition forward_step (m : t R) (input_list : list pyval) : M R loc :=
  input_encoder_list ← run_encoders (encoders m) 0 input_list [];
  x ← fuse m input_encoder_list;
  project m x.

(** [inputs[:, :, k:]]: a list cannot be indexed by a tuple. *)
Definition slice_time (start : Z) (v : pyval) : M R (tensor R) :=
  match v with
  | VList _ => lift (Raise TypeError)
  | VTensor l => x ← read l; lift (slice_axis 2 (Some start) None x)
  end.

(** [MultiEncoderAFNONet.get_next_input], lines 561-567 *)
Definition get_next_input (m : t R) (inputs : pyval) (outputs : list loc)
  : M R pyval :=
  if negb (has_time_dim m) then
    o ← lift (Py.last_item outputs); mret (VTensor o)
  else
    match input_time_dim m, output_time_dim m with
    | Some itd, Some otd =>
        if bool_decide (itd <= otd) then
          o ← lift (Py.last_item outputs);
          x ← slice_time (- Z.of_nat itd)%Z (VTensor o);
          r ← alloc x;
          mret (VTensor r)
        else
          tail ← slice_time (Z.of_nat otd) inputs;
          o ← lift (Py.last_item outputs);
          to ← read o;
          x ← lift (cat [tail; to] 2);
          r ← alloc x;
          mret (VTensor r)
    | _, _ => lift (Raise TypeError)
    end.

(** The loop of [forward], lines 570-575 *)
Fixpoint run_steps (m : t R) (n step : nat) (inputs : pyval)
    (output_list : list loc) : M R (list loc) :=
  match n with
  | 0 => mret output_list
  | S n' =>
      inputs ← (if bool_decide (0 < step) then get_next_input m inputs output_list
                else mret inputs);
      x ← forward_step m [inputs];
      run_steps m n' (S step) inputs (output_list ++ [x])
  end.

(** Lines 577-581 *)
Definition assemble (m : t R) (output_list : list loc) : M R loc :=
  if has_time_dim m && negb (output_only_last m) then
    ts ← mapM read output_list;
    x ← lift (cat ts 2);
    alloc x
  else lift (Py.last_item output_list).

(** Lines 582-585 *)
Definition postprocess (m : t R) (x : loc) : M R loc :=
  x ← match crop_layer m with
      | Some crop => tx ← read x; y ← lift (crop tx); alloc y
      | None => mret x
      end;
  match target_variable_index m with
  | Some ix => tx ← read x; y ← lift (select_axis1 ix tx); alloc y
  | None => mret x
  end.

(** Lines 587-589 *)
Definition activate (m : t R) (x : loc) : M R loc :=
  match act_final m with
  | None => mret x
  | Some a =>
      tx ← read x;
      y ← (if inplace a then _ ← write x (tmap (activation a) tx); mret x
           else alloc (tmap (activation a) tx));
      match a with
      | ReLU6 => ty ← read y; alloc (tmap div6 ty)
      | _ => mret y
      end
  end.

(** [MultiEncoderAFNONet.forward], lines 569-591 *)
Definition forward (m : t R) (inputs : pyval) : M R loc :=
  output_list ← run_steps m (autoregressive_steps m) 0 inputs [];
  x ← assemble m output_list;
  x ← postprocess m x;
  activate m x.

(** The encoders, applied position by position to the tensor objects of
    [input_list] in store [s], return the feature tensors [ys]. *)
Definition encoder_outputs (encs : list (AFNONet.t R))
    (input_list : list pyval) (s : store R) (ys : list (tensor R)) : Prop :=
  Forall3 (fun e v y => exists l x,
             v = VTensor l /\ s !! l = Some x /\
             AFNONet.forward_features rfft2_ortho irfft2_ortho e x = Ok y)
          encs input_list ys.

End Methods.

End MultiEncoder.

(** ** Library layers, written out

    Used to build concrete networks. *)

Section Layers.
Context {R : Type} `{Num R}.

(** [nn.Conv2d(C, E, kernel_size=(p1, p2), stride=(p1, p2))] with weight
    [wt] of shape (E, C, p1, p2) and bias [bias] of shape (E) *)
Definition conv2d_patch (E C p1 p2 : nat) (wt bias : list nat -> R) : layer R := fun x =>
  match shape x with
  | [B; C'; H; W] =>
      if bool_decide (C' = C /\ 0 < p1 <= H /\ 0 < p2 <= W) then
        Ok (mkTensor [B; E; H / p1; W / p2]
              (fun idx =>
                 match idx with
                 | [b; e; i; j] =>
                     radd (rsum C (fun c => rsum p1 (fun u => rsum p2 (fun v =>
                             rmul (data x [b; c; i * p1 + u; j * p2 + v])
                                  (wt [e; c; u; v])))))
                          (bias [e])
                 | _ => rzero
                 end))
      else Raise RuntimeError
  | _ => Raise RuntimeError
  end.

(** [nn.Linear(n_in, n_out, bias=False)] with weight [wt] of shape
    (n_out, n_in), acting on the last axis *)
Definition linear_nobias (n_in n_out : nat) (wt : list nat -> R) : layer R := fun x =>
  match reverse (shape x) with
  | d :: rest =>
      if bool_decide (d = n_in) then
        Ok (mkTensor (reverse (n_out :: rest))
              (fun idx =>
                 match reverse idx with
                 | o :: ridx =>
                     rsum n_in (fun i => rmul (data x (reverse (i :: ridx))) (wt [o; i]))
                 | [] => rzero
                 end))
      else Raise RuntimeError
  | [] => Raise RuntimeError
  end.

(** [nn.Identity()], and [nn.Dropout] outside training or with rate 0 *)
Definition identity : layer R := fun x => Ok x.

End Layers.

(** ** Concrete instances over the integers *)

(** Shape and one entry of a returned tensor *)
Definition entry {R} (r : result (tensor R)) (idx : list nat) : option (list nat * R) :=
  match r with
  | Ok y => Some (shape y, data y idx)
  | Raise _ => None
  end.

Definition const_tensor (s : list nat) (v : Z) : tensor Z := mkTensor s (fun _ => v).

(** A tensor whose entry is the position on the time axis (axis 2),
    shifted by [k] *)
Definition time_ramp (s : list nat) (k : Z) : tensor Z :=
  mkTensor s (fun idx => Z.add k (Z.of_nat (default 0 (idx !! 2)))).

(** The transforms of a 1x1 grid: the spectrum of a grid is the grid
    itself (no imaginary part), and back. *)
Definition rfft2_point (x : tensor Z) : (list nat -> Z) * (list nat -> Z) :=
  (data x, fun _ => 0%Z).
Definition irfft2_point (s : nat * nat) (xs : ctensor Z) : list nat -> Z := re xs.

(** A network without blocks on a 1x1 grid with 1x1 patches and one input
    and output channel: the patch embedding multiplies by [k] into
    [embed_dim] channels, the position embedding is zero, the head sums
    the channels of one output patch. *)
Definition point_args (k : Z) (embed_dim : nat) (input_time_dim output_time_dim : option nat)
    (autoregressive_steps : nat) (output_only_last : bool) : AFNONet.args Z :=
  AFNONet.mkArgs None None None (1, 1) (1, 1) 1 1 input_time_dim output_time_dim
    embed_dim 1 0%Z 1 autoregressive_steps false output_only_last None
    (conv2d_patch
       (embed_dim / default 1 input_time_dim) 1 1 1 (fun _ => k) (fun _ => 0%Z))
    (fun _ => 0%Z) identity []
    (linear_nobias
       (embed_dim / default 1 (from_option Some input_time_dim output_time_dim)) 1
       (fun _ => 1%Z))
    identity.

(** The same arguments with another number of steps and another
    [output_only_last] *)
Definition set_steps {R} (n : nat) (only_last : bool) (a : AFNONet.args R)
  : AFNONet.args R :=
  AFNONet.mkArgs (AFNONet.a_params_patch_size a) (AFNONet.a_params_N_in_channels a)
    (AFNONet.a_params_N_out_channels a) (AFNONet.a_img_size a) (AFNONet.a_patch_size a)
    (AFNONet.a_in_chans a) (AFNONet.a_out_chans a) (AFNONet.a_input_time_dim a)
    (AFNONet.a_output_time_dim a) (AFNONet.a_embed_dim a) (AFNONet.a_num_blocks a)
    (AFNONet.a_sparsity_threshold a) (AFNONet.a_hard_thresholding_fraction a)
    n (AFNONet.a_use_dilated_conv_blocks a) only_last
    (AFNONet.a_target_variable_index a) (AFNONet.a_proj a) (AFNONet.a_pos_embed a)
    (AFNONet.a_pos_drop a) (AFNONet.a_blocks a) (AFNONet.a_head a)
    (AFNONet.a_crop_layer a).

(** A spectrum with every entry 1, whatever the grid: enough to see which
    modes the filter touches. *)
Definition flat_spectrum (x : tensor Z) : (list nat -> Z) * (list nat -> Z) :=
  (fun _ => 1%Z, fun _ => 0%Z).

(** One channel, one block, zero weights, second-layer bias 5, threshold
    0: the filtered spectrum is 5 where the block MLP runs and 0 elsewhere. *)
Definition marker_filter (frac : Q) : AFNO2D Z :=
  mkAFNO2D 1 1 1 0%Z frac 1
    (mkTensor [2; 1; 1; 1] (fun _ => 0%Z)) (mkTensor [2; 1; 1] (fun _ => 0%Z))
    (mkTensor [2; 1; 1; 1] (fun _ => 0%Z)) (mkTensor [2; 1; 1] (fun _ => 5%Z)).

(** One channel, one block, threshold 1, weights: first layer 2 + 0i with
    bias 1 + 1i, second layer 3 + 1i with bias 1 + 0i. *)
Definition w1_small (idx : list nat) : Z := match idx with 0 :: _ => 2 | _ => 0 end.
Definition b1_small (idx : list nat) : Z := 1.
Definition w2_small (idx : list nat) : Z := match idx with 0 :: _ => 3 | _ => 1 end.
Definition b2_small (idx : list nat) : Z := match idx with 0 :: _ => 1 | _ => 0 end.

Definition small_filter (frac : Q) : AFNO2D Z :=
  mkAFNO2D 1 1 1 1%Z frac 1
    (mkTensor [2; 1; 1; 1] w1_small) (mkTensor [2; 1; 1] b1_small)
    (mkTensor [2; 1; 1; 1] w2_small) (mkTensor [2; 1; 1] b2_small).

(** A fusion wrapper with action 'add' over two encoders of the kind
    above (embedding weight 1, one channel), with a head of weight 1. *)
Definition linear_ones (n_in n_out : nat) : layer Z :=
  linear_nobias n_in n_out (fun _ => 1%Z).
Definition activation_id (a : act_name) (v : Z) : Z := v.
Definition div6_Z (v : Z) : Z := (v / 6)%Z.

Definition plain_params : MultiEncoder.params Z :=
  MultiEncoder.mkParams (1, 1) 1 1 1 None None 1 1 0%Z 1 1 false false None
    (conv2d_patch 1 1 1 1 (fun _ => 1%Z) (fun _ => 0%Z)) (fun _ => 0%Z) identity []
    (linear_ones 1 1) identity.

Definition plain_encoder : AFNONet.t Z :=
  AFNONet.mk (1, 1) (1, 1) 1 1 None None false 1 1 false 1 false None 1
    (PatchEmbed.mk (1, 1) (1, 1) 1
       (conv2d_patch 1 1 1 1 (fun _ => 1%Z) (fun _ => 0%Z)))
    (mkTensor [1; 1; 1] (fun _ => 0%Z)) identity 1 1 [] (linear_ones 1 1) None.

Definition add_wrapper : MultiEncoder.t Z :=
  MultiEncoder.mk [plain_encoder; plain_encoder] [1; 1] None 1 1 (1, 1) 1 None None
    false false None (1, 1) "add" (linear_ones 1 1) None.

(** ** Class centres *)

(** [torch.linspace(start, end, steps)] in exact arithmetic: [steps]
    values from [start] to [end] at equal distances; one step gives
    [start], and a negative number of steps is rejected. *)
Definition linspace (start stop : Q) (steps : Z) : result (list Q) :=
  if (steps <? 0)%Z then Raise RuntimeError
  else if (steps =? 1)%Z then Ok [start]
  else
    let step := ((stop - start) / inject_Z (steps - 1))%Q in
    Ok (map (fun i => (start + inject_Z (Z.of_nat i) * step)%Q)
            (seq 0 (Z.to_nat steps))).

(** [calculate_original_values], lines 61-64, on Python numbers *)
Definition calculate_original_values (min_orig max_orig : Q) (num_classes : Z)
  : result (list Q) :=
  if (num_classes =? 0)%Z then Raise ZeroDivisionError
  else
    let interval_width := ((max_orig - min_orig) / inject_Z num_classes)%Q in
    linspace (min_orig + interval_width / 2) (max_orig - interval_width / 2)
             num_classes.

(** ** PeriodicPad2d *)

Section Padding.
Context {R : Type} `{Num R}.

(** [F.pad(x, (p, p, 0, 0), mode="circular")] on a batch of images
    (N, C, H, W): the last axis is extended on both sides with the entries
    found by going around; a pad wider than the axis is rejected. *)
Definition pad_circular_w (p : nat) (x : tensor R) : result (tensor R) :=
  match shape x with
  | [N; C; H; W] =>
      if bool_decide (p <= W) then
        Ok (mkTensor [N; C; H; W + p + p]
              (fun idx =>
                 match idx with
                 | [n; c; i; j] => data x [n; c; i; (j + W - p) mod W]
                 | _ => rzero
                 end))
      else Raise RuntimeError
  | _ => Raise RuntimeError
  end.

(** [F.pad(x, (0, 0, p, p), mode="constant", value=0)] on (N, C, H, W) *)
Definition pad_zero_h (p : nat) (x : tensor R) : result (tensor R) :=
  match shape x with
  | [N; C; H; W] =>
      Ok (mkTensor [N; C; H + p + p; W]
            (fun idx =>
               match idx with
               | [n; c; i; j] =>
                   if bool_decide (p <= i < p + H) then data x [n; c; i - p; j]
                   else rzero
               | _ => rzero
               end))
  | _ => Raise RuntimeError
  end.

(** [PeriodicPad2d.forward], lines 240-245, for a pad width that is a
    natural number and a batch of images *)
Definition PeriodicPad2d_forward (pad_width : nat) (x : tensor R) : result (tensor R) :=
  out ← pad_circular_w pad_width x;
  out ← pad_zero_h pad_width out;
  Ok out.

End Padding.

(** ** AFNONetOneStep and EncoderAFNONet *)

Module AFNONetOneStep.

(** [AFNONetOneStep.forward], lines 418-420 *)
Definition forward {R} `{Num R}
    (rfft2_ortho : tensor R -> (list nat -> R) * (list nat -> R))
    (irfft2_ortho : nat * nat -> ctensor R -> list nat -> R)
    (m : AFNONet.t R) (x : tensor R) : result (tensor R) :=
  AFNONet.forward_step rfft2_ortho irfft2_ortho m x.

End AFNONetOneStep.

Module EncoderAFNONet.

(** [EncoderAFNONet.forward], lines 430-432 *)
Definition forward {R} `{Num R}
    (rfft2_ortho : tensor R -> (list nat -> R) * (list nat -> R))
    (irfft2_ortho : nat * nat -> ctensor R -> list nat -> R)
    (m : AFNONet.t R) (x : tensor R) : result (tensor R) :=
  AFNONet.forward_features rfft2_ortho irfft2_ortho m x.

End EncoderAFNONet.

(** ** What the library layers guarantee about shapes *)

Section Contracts.
Context {R : Type}.

(** A layer that accepts every tensor and keeps its shape: a norm over
    the last axis, an activation, dropout. *)
Definition shape_preserving (l : layer R) : Prop :=
  forall x, exists y, l x = Ok y /\ shape y = shape x.

(** [nn.Conv2d(C, E, kernel_size=(p1, p2), stride=(p1, p2))] on images
    at least as large as the kernel *)
Definition conv_shapes (l : layer R) (C E p1 p2 : nat) : Prop :=
  forall x B H W, shape x = [B; C; H; W] -> p1 <= H -> p2 <= W ->
    exists y, l x = Ok y /\ shape y = [B; E; H / p1; W / p2].

(** [nn.Linear(n_in, n_out)] on the last axis *)
Definition linear_shapes (l : layer R) (n_in n_out : nat) : Prop :=
  forall x pre, shape x = pre ++ [n_in] ->
    exists y, l x = Ok y /\ shape y = pre ++ [n_out].

(** The library parts of a block: norms, stochastic depth and the MLP as
    a whole keep shapes. *)
Definition block_parts_shapes (p : Block.parts R) : Prop :=
  shape_preserving (Block.p_norm1 p) /\
  shape_preserving (Block.p_norm2 p) /\
  shape_preserving (Block.p_drop_path p) /\
  shape_preserving
    (Mlp.forward (Mlp.mk (Block.p_fc1 p) (Block.p_act p) (Block.p_fc2 p)
                    (Block.p_drop p))).

End Contracts.

(** ** More concrete instances over the integers *)

(** The parts of a block on one channel whose norms, MLP and stochastic
    depth are the identity, with the weights of [small_filter] *)
Definition plain_block_parts : Block.parts Z :=
  Block.mkParts identity identity identity identity identity identity identity
    w1_small b1_small w2_small b2_small.

Definition plain_block : Block.t Z :=
  Block.mk identity (small_filter 1) identity identity
    (Mlp.mk identity identity identity identity) true.

(** A tensor whose entry is its row-major position *)
Definition index_image (s : list nat) : tensor Z :=
  mkTensor s (fun idx => Z.of_nat (ravel s idx)).

(** The patch embedding of 2x4 images of one channel by 1x2 patches into
    one channel, summing each patch *)
Definition sum_embed : PatchEmbed.t Z :=
  PatchEmbed.mk (2, 4) (1, 2) 4
    (conv2d_patch 1 1 1 2 (fun _ => 1%Z) (fun _ => 0%Z)).

Section ArgsContracts.
Context {R : Type} `{Num R}.

(** The library layers handed to [AFNONet.__init__] have the shapes the
    constructor asks for: the patch convolution from [in_chans] to the
    width of the patch embedding, the head from the width of its input to
    [out_chans * patch_size[0] * patch_size[1]], a dropout and blocks
    that keep shapes, and, when there are blocks, a sparsity threshold
    that is not negative. *)
Definition args_layers_shapes (a : AFNONet.args R) : Prop :=
  let p1 := default (AFNONet.a_patch_size a).1 (AFNONet.a_params_patch_size a) in
  let p2 := default (AFNONet.a_patch_size a).2 (AFNONet.a_params_patch_size a) in
  let in_chans := default (AFNONet.a_in_chans a) (AFNONet.a_params_N_in_channels a) in
  let out_chans :=
    default (AFNONet.a_out_chans a) (AFNONet.a_params_N_out_channels a) in
  let output_time_dim :=
    match AFNONet.a_output_time_dim a with
    | Some o => Some o
    | None => AFNONet.a_input_time_dim a
    end in
  let input_patch_embed_dim :=
    AFNONet.a_embed_dim a / default 1 (AFNONet.a_input_time_dim a) in
  let output_patch_embed_dim :=
    match AFNONet.a_input_time_dim a with
    | Some _ => AFNONet.a_embed_dim a / default 1 output_time_dim
    | None => AFNONet.a_embed_dim a
    end in
  conv_shapes (AFNONet.a_proj a) in_chans input_patch_embed_dim p1 p2 /\
  shape_preserving (AFNONet.a_pos_drop a) /\
  Forall block_parts_shapes (AFNONet.a_blocks a) /\
  (AFNONet.a_blocks a <> [] -> rltb (AFNONet.a_sparsity_threshold a) rzero = false) /\
  linear_shapes (AFNONet.a_head a) output_patch_embed_dim (out_chans * p1 * p2).

End ArgsContracts.

(** A network without blocks on images of size [img] cut into patches of
    size [patch], with as many output as input channels: the patch
    embedding sums each patch into every channel of the embedding, the
    head sums the channels of a token into every entry of the output
    patch. *)
Definition grid_args (img patch : nat * nat) (chans embed_dim : nat)
    (input_time_dim output_time_dim : option nat)
    (autoregressive_steps : nat) (output_only_last : bool) : AFNONet.args Z :=
  AFNONet.mkArgs None None None img patch chans chans input_time_dim output_time_dim
    embed_dim 1 0%Z 1 autoregressive_steps false output_only_last None
    (conv2d_patch (embed_dim / default 1 input_time_dim) chans patch.1 patch.2
       (fun _ => 1%Z) (fun _ => 0%Z))
    (fun _ => 0%Z) identity []
    (linear_nobias
       match input_time_dim with
       | Some _ =>
           embed_dim / default 1 match output_time_dim with
                                 | Some o => Some o
                                 | None => input_time_dim
                                 end
       | None => embed_dim
       end
       (chans * patch.1 * patch.2) (fun _ => 1%Z))
    identity.

(** The model that [AFNONet.__init__] builds from [grid_args], with a
    target selection *)
Definition grid_net (img patch : nat * nat) (chans embed_dim : nat)
    (input_time_dim output_time_dim : option nat)
    (autoregressive_steps : nat) (output_only_last : bool)
    (target_variable_index : option target_index) : AFNONet.t Z :=
  let out_time :=
    match output_time_dim with Some o => Some o | None => input_time_dim end in
  let input_patch_embed_dim := embed_dim / default 1 input_time_dim in
  let output_patch_embed_dim :=
    match input_time_dim with
    | Some _ => embed_dim / default 1 out_time
    | None => embed_dim
    end in
  let num_patches := img.2 / patch.2 * (img.1 / patch.1) in
  AFNONet.mk img patch chans chans input_time_dim out_time
    (bool_decide (input_time_dim <> None)) embed_dim 1 false autoregressive_steps
    output_only_last target_variable_index output_patch_embed_dim
    (PatchEmbed.mk img patch num_patches
       (conv2d_patch input_patch_embed_dim chans patch.1 patch.2
          (fun _ => 1%Z) (fun _ => 0%Z)))
    (mkTensor [1; num_patches; input_patch_embed_dim] (fun _ => 0%Z))
    identity (img.1 / patch.1) (img.2 / patch.2) []
    (linear_nobias output_patch_embed_dim (chans * patch.1 * patch.2) (fun _ => 1%Z))
    None.

(** The fusion wrapper over [n] encoders of the kind of [add_wrapper],
    with a given action and a head of weight 1 over [head_in] channels *)
Definition wrapper_with (n : nat) (action : string) (head_in : nat)
  : MultiEncoder.t Z :=
  MultiEncoder.mk (replicate n plain_encoder) (replicate n 1) None 1 1 (1, 1) 1
    None None false false None (1, 1) action (linear_ones head_in 1) None.

(** * Properties *)

#[global] Instance Z_NumLaws : NumLaws Z.
Proof.
  split.
  - intros x. reflexivity.
  - intros l Hl. cbn in *. apply Z.ltb_ge in Hl. apply Z.ltb_ge. lia.
Qed.

(** ** Results and Python sequences *)

Lemma bind_Ok {A B} (m : result A) (f : A -> result B) (b : B) :
  m ≫= f = Ok b <-> exists a, m = Ok a /\ f a = Ok b.
Proof.
  destruct m as [a|e]; cbn.
  - split; [intros Hf; exists a; auto | intros (a' & [= <-] & Hf); exact Hf].
  - split; [discriminate | intros (a' & Hd & _); discriminate].
Qed.

Lemma adjust_neg (n k : nat) :
  0 < k -> Py.adjust n (- Z.of_nat k) = n - k.
Proof. intros Hk. unfold Py.adjust. case_match; lia. Qed.

Lemma adjust_nonneg (n k : nat) : Py.adjust n (Z.of_nat k) = k `min` n.
Proof. unfold Py.adjust. case_match; lia. Qed.

Lemma slice_tail (n k : nat) :
  0 < k -> k <= n -> Py.slice n (Some (- Z.of_nat k)%Z) None = (n - k, k).
Proof.
  intros Hk Hn. unfold Py.slice. cbn. rewrite adjust_neg by done. f_equal. lia.
Qed.

Lemma slice_from (n k : nat) :
  k <= n -> Py.slice n (Some (Z.of_nat k)) None = (k, n - k).
Proof.
  intros Hn. unfold Py.slice. cbn. rewrite adjust_nonneg.
  replace (k `min` n) with k by lia. done.
Qed.



(** ** Row-major indexing *)

Lemma numel_app (s1 s2 : list nat) : numel (s1 ++ s2) = numel s1 * numel s2.
Proof.
  unfold numel. induction s1 as [|d s1 IH]; cbn; [lia|]. rewrite IH. lia.
Qed.

Lemma ravel_lt (s idx : list nat) : in_bounds s idx -> ravel s idx < numel s.
Proof.
  unfold in_bounds. intros Hb.
  induction Hb as [|i d idx s Hlt Hb IH]; cbn; [lia|].
  fold (numel s). nia.
Qed.

Lemma unravel_ravel (s idx : list nat) :
  in_bounds s idx -> unravel s (ravel s idx) = idx.
Proof.
  unfold in_bounds. intros Hb.
  induction Hb as [|i d idx s Hlt Hb IH]; cbn; [done|].
  pose proof (ravel_lt s idx Hb) as Hr. fold (numel s).
  assert (Hd : (i * numel s + ravel s idx) / numel s = i).
  { rewrite Nat.div_add_l by lia. rewrite Nat.div_small by done. lia. }
  assert (Hm : (i * numel s + ravel s idx) mod numel s = ravel s idx).
  { rewrite Nat.add_comm, Nat.Div0.mod_add. by apply Nat.mod_small. }
  rewrite Hd, Hm, IH. done.
Qed.

(** Splitting the last axis in two leaves positions unchanged. *)
Lemma ravel_split_last (pre ipre : list nat) (a b k i : nat) :
  length pre = length ipre ->
  ravel (pre ++ [a; b]) (ipre ++ [k; i]) = ravel (pre ++ [a * b]) (ipre ++ [k * b + i]).
Proof.
  revert ipre. induction pre as [|d pre IH]; intros [|j ipre] Hlen; try discriminate.
  - cbn. lia.
  - cbn [app ravel]. rewrite (IH ipre) by (cbn in Hlen; lia).
    rewrite !numel_app. cbn. lia.
Qed.

Lemma unravel_split (n h w nb bs b r c k i : nat) :
  b < n -> r < h -> c < w -> k < nb -> i < bs ->
  unravel [n; h; w; nb * bs] (ravel [n; h; w; nb; bs] [b; r; c; k; i])
  = [b; r; c; k * bs + i].
Proof.
  intros Hb Hr Hc Hk Hi.
  pose proof (ravel_split_last [n; h; w] [b; r; c] nb bs k i eq_refl) as Hs.
  cbn [app] in Hs. rewrite Hs.
  apply unravel_ravel. unfold in_bounds. repeat constructor; try done. nia.
Qed.

Lemma unravel_merge (n h w nb bs b r c ch : nat) :
  b < n -> r < h -> c < w -> ch < nb * bs ->
  unravel [n; h; w; nb; bs] (ravel [n; h; w; nb * bs] [b; r; c; ch])
  = [b; r; c; ch / bs; ch mod bs].
Proof.
  intros Hb Hr Hc Hch.
  assert (Hbs : 0 < bs) by nia.
  pose proof (Nat.div_mod ch bs ltac:(lia)) as Hdm.
  pose proof (Nat.mod_upper_bound ch bs ltac:(lia)) as Hmod.
  assert (Hdiv : ch / bs < nb) by (apply Nat.Div0.div_lt_upper_bound; lia).
  replace (ravel [n; h; w; nb * bs] [b; r; c; ch])
    with (ravel [n; h; w; nb; bs] [b; r; c; ch / bs; ch mod bs]).
  - apply unravel_ravel. unfold in_bounds. repeat constructor; done.
  - pose proof (ravel_split_last [n; h; w] [b; r; c] nb bs (ch / bs) (ch mod bs)
                  eq_refl) as Hs.
    cbn [app] in Hs. rewrite Hs. do 5 f_equal. lia.
Qed.

(** ** Construction of an AFNONet *)

Lemma assert_divisible_Ok (a b : nat) (u : unit) :
  assert_divisible a b = Ok u -> 0 < b /\ a mod b = 0.
Proof.
  destruct b as [|b]; cbn; [discriminate|].
  case_bool_decide; [|discriminate]. intros _. split; [lia|done].
Qed.

Lemma AFNONet_init_time {R} `{Num R} (a : AFNONet.args R) (m : AFNONet.t R) :
  AFNONet.init a = Ok m ->
  AFNONet.has_time_dim m = bool_decide (AFNONet.input_time_dim m <> None) /\
  forall i, AFNONet.input_time_dim m = Some i ->
    0 < i /\ exists o, AFNONet.output_time_dim m = Some o /\ 0 < o.
Proof.
  unfold AFNONet.init. intros Hinit.
  apply bind_Ok in Hinit as ([d1 d2] & Hd & Hinit).
  apply bind_Ok in Hinit as (pe & _ & Hinit).
  apply bind_Ok in Hinit as (h & _ & Hinit).
  apply bind_Ok in Hinit as (w & _ & Hinit).
  apply bind_Ok in Hinit as (blks & _ & [= <-]). cbn. split; [done|].
  intros i Hi. rewrite Hi in Hd. rewrite bool_decide_true in Hd by done.
  destruct (AFNONet.a_output_time_dim a) as [o|].
  - apply bind_Ok in Hd as (u1 & H1 & Hd). apply bind_Ok in Hd as (u2 & H2 & _).
    apply assert_divisible_Ok in H1, H2. split; [lia|]. exists o. split; [done|lia].
  - apply bind_Ok in Hd as (u1 & H1 & _). apply assert_divisible_Ok in H1.
    split; [lia|]. exists i. split; [done|lia].
Qed.

(** ** The next input of an autoregressive step *)

Section NextInput.
Context {R : Type} `{Num R}.

Lemma last_item_Some (outputs : list (tensor R)) (o : tensor R) :
  last outputs = Some o -> Py.last_item outputs = Ok o.
Proof. unfold Py.last_item. intros ->. done. Qed.


End NextInput.

(** ** The autoregressive driver *)

Section DriverFacts.
Context {R : Type} `{Num R}.
Variable rfft2_ortho : tensor R -> (list nat -> R) * (list nat -> R).
Variable irfft2_ortho : nat * nat -> ctensor R -> list nat -> R.

Local Abbreviation forward_step := (AFNONet.forward_step rfft2_ortho irfft2_ortho).
Local Abbreviation run_steps := (AFNONet.run_steps rfft2_ortho irfft2_ortho).
Local Abbreviation forward := (AFNONet.forward rfft2_ortho irfft2_ortho).
Local Abbreviation iterate_step := (AFNONet.iterate_step rfft2_ortho irfft2_ortho).



Lemma run_steps_no_time (m : AFNONet.t R) (n step : nat) (inputs a : tensor R)
    (acc : list (tensor R)) :
  AFNONet.has_time_dim m = false -> 0 < step -> last acc = Some a ->
  run_steps m n step inputs acc ≫= Py.last_item = iterate_step m n a.
Proof.
  intros Hno. revert step inputs a acc.
  induction n as [|n IH]; intros step inputs a acc Hstep Hlast; cbn.
  - unfold mbind, result_bind, Py.last_item. by rewrite Hlast.
  - rewrite bool_decide_true by done. unfold AFNONet.get_next_input. rewrite Hno. cbn.
    rewrite (last_item_Some acc a Hlast). cbn.
    destruct (forward_step m a) as [x|e]; cbn; [|done].
    apply IH; [lia|]. by rewrite last_snoc.
Qed.

(** C7, as amended: without a time dimension and with at least one
    step, [forward] returns the post-processed result of applying the
    single step [autoregressive_steps] times in a row, each time to the
    previous result, whatever [output_only_last] is. *)
Theorem forward_no_time_dim (m : AFNONet.t R) (inputs : tensor R) :
  AFNONet.has_time_dim m = false ->
  1 <= AFNONet.autoregressive_steps m ->
  forward m inputs
  = iterate_step m (AFNONet.autoregressive_steps m) inputs ≫= AFNONet.postprocess m.
Proof.
  intros Hno Hsteps. unfold AFNONet.forward, AFNONet.assemble. rewrite Hno. cbn.
  destruct (AFNONet.autoregressive_steps m) as [|n]; [lia|]. cbn.
  rewrite bool_decide_false by lia. cbn.
  destruct (forward_step m inputs) as [x|e]; cbn; [|done].
  pose proof (run_steps_no_time m n 1 inputs x [x] Hno) as Hrun.
  rewrite <- Hrun by (done || lia).
  destruct (run_steps m n 1 inputs [x]); done.
Qed.

End DriverFacts.

(** ** The spectral filter *)


Section FilterFacts.
Context {R : Type} {NR : Num R} {NL : NumLaws R}.
Variable rfft2_ortho : tensor R -> (list nat -> R) * (list nat -> R).
Variable irfft2_ortho : nat * nat -> ctensor R -> list nat -> R.

Lemma rsum_ext (n : nat) (f g : nat -> R) :
  (forall i, i < n -> f i = g i) -> rsum n f = rsum n g.
Proof.
  unfold rsum. intros Hfg. generalize (rzero : R).
  assert (Hin : forall i, i ∈ seq 0 n -> f i = g i).
  { intros i Hi. apply Hfg. apply elem_of_seq in Hi. lia. }
  clear Hfg. induction (seq 0 n) as [|a l IH]; intros acc; cbn; [done|].
  rewrite (Hin a) by apply list_elem_of_here. apply IH.
  intros i Hi. apply Hin. by apply list_elem_of_further.
Qed.

Lemma AFNO2D_init_fields hs nb lam frac f w1v b1v w2v b2v (m : AFNO2D R) :
  AFNO2D_init hs nb lam frac f w1v b1v w2v b2v = Ok m ->
  hidden_size m = hs /\ num_blocks m = nb /\ block_size m = hs / nb /\
  num_blocks m * block_size m = hs /\
  sparsity_threshold m = lam /\ hard_thresholding_fraction m = frac /\
  hidden_size_factor m = f /\
  w1 m = mkTensor [2; nb; hs / nb; hs / nb * f] w1v /\
  b1 m = mkTensor [2; nb; hs / nb * f] b1v /\
  w2 m = mkTensor [2; nb; hs / nb * f; hs / nb] w2v /\
  b2 m = mkTensor [2; nb; hs / nb] b2v.
Proof.
  unfold AFNO2D_init. intros Hinit. apply bind_Ok in Hinit as (u & Hdiv & [= <-]).
  apply assert_divisible_Ok in Hdiv as [Hnb Hmod]. cbn.
  repeat split; try done.
  pose proof (Nat.div_mod hs nb ltac:(lia)). lia.
Qed.

Lemma cmul_real_ext (n : nat) (a a' b b' wr wi : nat -> R) (c : R) :
  (forall i, i < n -> a i = a' i) -> (forall i, i < n -> b i = b' i) ->
  cmul_real n a b wr wi c = cmul_real n a' b' wr wi c.
Proof.
  intros Ha Hb. unfold cmul_real.
  rewrite (rsum_ext n (fun i => rmul (a i) (wr i)) (fun i => rmul (a' i) (wr i)))
    by (intros i Hi; by rewrite Ha).
  rewrite (rsum_ext n (fun i => rmul (b i) (wi i)) (fun i => rmul (b' i) (wi i)))
    by (intros i Hi; by rewrite Hb).
  done.
Qed.

Lemma cmul_imag_ext (n : nat) (a a' b b' wr wi : nat -> R) (c : R) :
  (forall i, i < n -> a i = a' i) -> (forall i, i < n -> b i = b' i) ->
  cmul_imag n a b wr wi c = cmul_imag n a' b' wr wi c.
Proof.
  intros Ha Hb. unfold cmul_imag.
  rewrite (rsum_ext n (fun i => rmul (b i) (wr i)) (fun i => rmul (b' i) (wr i)))
    by (intros i Hi; by rewrite Hb).
  rewrite (rsum_ext n (fun i => rmul (a i) (wi i)) (fun i => rmul (a' i) (wi i)))
    by (intros i Hi; by rewrite Ha).
  done.
Qed.

(** The block MLP at a mode reads the spectrum at that mode and block only. *)
Lemma mlp_ext (m : AFNO2D R) (xr xi xr' xi' : list nat -> R) (b r c k o : nat) :
  (forall i, i < block_size m -> xr [b; r; c; k; i] = xr' [b; r; c; k; i]) ->
  (forall i, i < block_size m -> xi [b; r; c; k; i] = xi' [b; r; c; k; i]) ->
  mlp_real m xr xi b r c k o = mlp_real m xr' xi' b r c k o /\
  mlp_imag m xr xi b r c k o = mlp_imag m xr' xi' b r c k o.
Proof.
  intros Hr Hi.
  assert (Hhr : forall j, hidden_real m xr xi b r c k j = hidden_real m xr' xi' b r c k j).
  { intros j. unfold hidden_real. f_equal. by apply cmul_real_ext. }
  assert (Hhi : forall j, hidden_imag m xr xi b r c k j = hidden_imag m xr' xi' b r c k j).
  { intros j. unfold hidden_imag. f_equal. by apply cmul_imag_ext. }
  unfold mlp_real, mlp_imag. split; f_equal.
  - apply cmul_real_ext; intros j _; [apply Hhr|apply Hhi].
  - apply cmul_imag_ext; intros j _; [apply Hhr|apply Hhi].
Qed.

Lemma filtered_spectrum_entries hs nb lam frac f w1v b1v w2v b2v (m : AFNO2D R)
    (x : tensor R) (B H W : nat) :
  AFNO2D_init hs nb lam frac f w1v b1v w2v b2v = Ok m ->
  rltb lam rzero = false ->
  shape x = [B; H; W; hs] -> 0 < H -> 0 < W ->
  exists xs, filtered_spectrum rfft2_ortho m x = Ok xs /\
    cshape xs = [B; H; W / 2 + 1; hs] /\
    (forall idx, (forall i, in_range (band_rows m H) i = false) ->
       re xs idx = softshrink1 lam rzero /\ im xs idx = softshrink1 lam rzero) /\
    forall b r c ch,
      b < B -> r < H -> c < W / 2 + 1 -> ch < hs ->
      let xr := blocks_of (block_size m) (rfft2_ortho x).1 in
      let xi := blocks_of (block_size m) (rfft2_ortho x).2 in
      re xs [b; r; c; ch] =
        (if in_range (band_rows m H) r && in_range (band_cols m H W) c
         then mlp_real m xr xi b r c (ch / block_size m) (ch mod block_size m)
         else softshrink1 lam rzero) /\
      im xs [b; r; c; ch] =
        (if in_range (band_rows m H) r && in_range (band_cols m H W) c
         then mlp_imag m xr xi b r c (ch / block_size m) (ch mod block_size m)
         else softshrink1 lam rzero).
Proof.
  intros Hinit Hlam Hshape HH HW.
  destruct (AFNO2D_init_fields _ _ _ _ _ _ _ _ _ _ Hinit)
    as (Hhs & Hnb & Hbs & Hprod & Hl & Hfrac & Hf & Hw1 & Hb1 & Hw2 & Hb2).
  unfold filtered_spectrum. rewrite Hshape.
  rewrite bool_decide_false by lia.
  unfold creshape at 2. cbn [cshape].
  rewrite bool_decide_true by (cbn; rewrite <- Hprod; lia).
  cbn [mbind result_bind cshape]. unfold softshrink_stacked.
  rewrite Hl, Hlam. cbn [mbind result_bind]. unfold creshape.
  cbn [cshape assign_band zeros shape].
  rewrite bool_decide_true by (cbn; rewrite <- Hprod; lia).
  remember (band_rows m H) as rows eqn:Erows.
  remember (band_cols m H W) as cols eqn:Ecols.
  remember (W / 2 + 1) as Wf eqn:EWf.
  eexists. split; [reflexivity|]. split; [reflexivity|]. split.
  - intros idx Hrows. cbn -[ravel unravel]. rewrite !Hrows. done.
  - intros b r c ch Hb Hr Hc Hch. cbn [re im].
    assert (Hbs0 : 0 < block_size m) by nia.
    assert (Hk : ch / block_size m < num_blocks m).
    { apply Nat.Div0.div_lt_upper_bound. lia. }
    pose proof (Nat.mod_upper_bound ch (block_size m) ltac:(lia)) as Ho.
    rewrite <- Hprod. rewrite unravel_merge by (done || lia).
    set (xf5 := mkC [B; H; Wf; num_blocks m; block_size m] _ _).
    assert (Hxf : forall i, i < block_size m ->
              re xf5 [b; r; c; ch / block_size m; i]
              = blocks_of (block_size m) (rfft2_ortho x).1 [b; r; c; ch / block_size m; i] /\
              im xf5 [b; r; c; ch / block_size m; i]
              = blocks_of (block_size m) (rfft2_ortho x).2 [b; r; c; ch / block_size m; i]).
    { intros i Hi. subst xf5. cbn [re im blocks_of].
      rewrite unravel_split by done. done. }
    destruct (mlp_ext m (re xf5) (im xf5)
                (blocks_of (block_size m) (rfft2_ortho x).1)
                (blocks_of (block_size m) (rfft2_ortho x).2)
                b r c (ch / block_size m) (ch mod block_size m)
                (fun i Hi => proj1 (Hxf i Hi)) (fun i Hi => proj2 (Hxf i Hi)))
      as [<- <-].
    clearbody xf5. cbn.
    destruct (in_range rows r && in_range cols c) eqn:Eband; [|done].
    apply andb_prop in Eband as Eband'. destruct Eband' as [Er Ec].
    unfold in_range in Er, Ec.
    apply andb_prop in Er as [Er _]. apply andb_prop in Ec as [Ec _].
    apply bool_decide_eq_true in Er, Ec.
    rewrite !Nat.sub_add by lia. rewrite Eband.
    unfold mlp_real, mlp_imag, cmul_real, cmul_imag, hidden_real, hidden_imag.
    rewrite Hw1, Hw2, Hb1, Hb2, Hbs, Hf, Hl. cbn. split; reflexivity.
Qed.

(** *** The retained band *)



Lemma int_mul_0 (n : nat) (q : Q) : (q == 0)%Q -> int_mul n q = 0%Z.
Proof.
  unfold Qeq, int_mul. cbn. intros Hq.
  replace (Qnum q) with 0%Z by lia. rewrite Z.mul_0_r. done.
Qed.






Lemma band_rows_empty (m : AFNO2D R) (H i : nat) :
  kept_modes m H = 0%Z -> in_range (band_rows m H) i = false.
Proof.
  intros HK. unfold in_range, band_rows, Py.slice. rewrite HK.
  cbn [from_option fst snd]. rewrite !Z.add_0_r, !Z.sub_0_r.
  apply andb_false_iff. rewrite !bool_decide_eq_false. lia.
Qed.

Lemma softshrink1_zero (lam : R) :
  rltb lam rzero = false -> softshrink1 lam rzero = rzero.
Proof using NL.
  intros Hlam. unfold softshrink1. rewrite Hlam.
  rewrite (rltb_opp_nonneg lam Hlam). done.
Qed.





(** C8: on a filter that [AFNO2D_init] accepts (with a non-negative
    threshold) and an input of shape (B, H, W, hidden_size) over a
    non-empty grid, [forward] returns a tensor of the shape of the input
    whose entries are those of the learned correction plus those of the
    input. *)
Theorem filter_shape_and_residual hs nb lam frac f w1v b1v w2v b2v
    (m : AFNO2D R) (x : tensor R) (B H W : nat) :
  AFNO2D_init hs nb lam frac f w1v b1v w2v b2v = Ok m ->
  rltb lam rzero = false ->
  shape x = [B; H; W; hs] -> 0 < H -> 0 < W ->
  exists corr y,
    correction rfft2_ortho irfft2_ortho m x = Ok corr /\
    AFNO2D_forward rfft2_ortho irfft2_ortho m x = Ok y /\
    shape corr = shape x /\
    shape y = shape x /\
    forall idx, data y idx = radd (data corr idx) (data x idx).
Proof.
  intros Hinit Hlam Hshape HH HW.
  destruct (filtered_spectrum_entries _ _ _ _ _ _ _ _ _ m x B H W
              Hinit Hlam Hshape HH HW) as (xs & Hxs & _).
  unfold AFNO2D_forward, correction. rewrite Hshape, Hxs. cbn.
  eexists _, _. repeat split; done.
Qed.

(** C5: with [hard_thresholding_fraction] equal to 0, under exact
    arithmetic ([0 + v = v]) and an inverse transform that maps the zero
    spectrum to the zero grid, the filter returns its input: same shape,
    same entries. *)
Theorem zero_fraction_is_identity hs nb lam frac f w1v b1v w2v b2v
    (m : AFNO2D R) (x : tensor R) (B H W : nat) :
  AFNO2D_init hs nb lam frac f w1v b1v w2v b2v = Ok m ->
  rltb lam rzero = false ->
  shape x = [B; H; W; hs] -> 0 < H -> 0 < W ->
  (frac == 0)%Q ->
  (forall s (xs : ctensor R),
     (forall idx, re xs idx = rzero /\ im xs idx = rzero) ->
     forall idx, irfft2_ortho s xs idx = rzero) ->
  exists y,
    AFNO2D_forward rfft2_ortho irfft2_ortho m x = Ok y /\
    kept_modes m H = 0%Z /\
    shape y = shape x /\
    forall idx, data y idx = data x idx.
Proof using NL.
  intros Hinit Hlam Hshape HH HW Hzero Hlin.
  destruct (AFNO2D_init_fields _ _ _ _ _ _ _ _ _ _ Hinit)
    as (_ & _ & _ & _ & _ & Hfrac & _).
  assert (HK : kept_modes m H = 0%Z).
  { unfold kept_modes. rewrite Hfrac. by apply int_mul_0. }
  destruct (filtered_spectrum_entries _ _ _ _ _ _ _ _ _ m x B H W
              Hinit Hlam Hshape HH HW) as (xs & Hxs & _ & Hall & _).
  unfold AFNO2D_forward, correction. rewrite Hshape, Hxs. cbn.
  eexists. split; [done|]. split; [done|]. split; [done|]. cbn.
  intros idx. rewrite Hlin; [apply radd_0_l|].
  intros j. destruct (Hall j) as [Hre Him].
  { intros i. by apply band_rows_empty. }
  rewrite Hre, Him. by rewrite softshrink1_zero.
Qed.

End FilterFacts.

(** ** In-place accumulation *)

Section Accumulate.
Context {R : Type} {NR : Num R}.


Lemma accumulate_shape (t0 : tensor R) (ts : list (tensor R)) :
  shape (accumulate t0 ts) = shape t0.
Proof.
  unfold accumulate. revert t0. induction ts as [|t ts IH]; intros t0; cbn; [done|].
  by rewrite IH.
Qed.

Lemma broadcast_index_same (s idx : list nat) :
  in_bounds s idx -> broadcast_index s (length s) idx = idx.
Proof.
  unfold broadcast_index, in_bounds. rewrite Nat.sub_diag, drop_0.
  intros Hb. induction Hb as [|i d idx s Hlt Hb IH]; cbn; [done|].
  rewrite IH. case_bool_decide; [|done]. f_equal. lia.
Qed.

Lemma broadcastable_to_refl (s : list nat) : broadcastable_to s s = true.
Proof.
  unfold broadcastable_to. rewrite bool_decide_true by done.
  rewrite Nat.sub_diag. cbn. induction s as [|d s IH]; cbn; [done|].
  rewrite bool_decide_true by done. done.
Qed.

(** With equal shapes, the accumulated entry is the sum of the entries,
    taken from the left. *)
Lemma accumulate_same_shape (t0 : tensor R) (ts : list (tensor R)) (idx : list nat) :
  Forall (fun t => shape t = shape t0) ts ->
  in_bounds (shape t0) idx ->
  data (accumulate t0 ts) idx
  = foldl radd (data t0 idx) (map (fun t => data t idx) ts).
Proof.
  unfold accumulate. revert t0.
  induction ts as [|t ts IH]; intros t0 Hsh Hidx; cbn; [done|].
  apply Forall_cons in Hsh as [Ht Hts].
  rewrite IH; [|done|done]. cbn. rewrite Ht.
  by rewrite broadcast_index_same.
Qed.

Lemma iadd_Ok (a b : loc) (ta tb : tensor R) (s : store R) :
  s !! a = Some ta -> s !! b = Some tb ->
  broadcastable_to (shape tb) (shape ta) = true ->
  iadd a b s = (Ok tt, <[a := plus_broadcast ta tb]> s).
Proof.
  intros Ha Hb Hbc. unfold iadd, read, mbind, M_bind. rewrite Ha, Hb, Hbc. done.
Qed.

Lemma iadd_mismatch (a b : loc) (ta tb : tensor R) (s : store R) :
  s !! a = Some ta -> s !! b = Some tb ->
  broadcastable_to (shape tb) (shape ta) = false ->
  iadd a b s = (Raise RuntimeError, s).
Proof.
  intros Ha Hb Hbc. unfold iadd, read, mbind, M_bind. rewrite Ha, Hb, Hbc. done.
Qed.

Lemma M_bind_Ok {A B} (c : M R A) (k : A -> M R B) (s s' : store R) (a : A) :
  c s = (Ok a, s') -> (c ≫= k) s = k a s'.
Proof. intros Hc. unfold mbind, M_bind. by rewrite Hc. Qed.

Lemma M_bind_Raise {A B} (c : M R A) (k : A -> M R B) (s s' : store R) (e : exn) :
  c s = (Raise e, s') -> (c ≫= k) s = (Raise e, s').
Proof. intros Hc. unfold mbind, M_bind. by rewrite Hc. Qed.

Lemma add_loop_Ok (l0 : loc) (xs rest : list loc) (ts : list (tensor R))
    (t0 : tensor R) (s : store R) :
  l0 ∉ rest ->
  s !! l0 = Some t0 ->
  Forall2 (fun l t => s !! l = Some t) rest ts ->
  Forall (fun t => broadcastable_to (shape t) (shape t0) = true) ts ->
  add_loop (l0 :: xs) rest s = (Ok tt, <[l0 := accumulate t0 ts]> s).
Proof.
  revert ts t0 s. induction rest as [|l rest IH]; intros ts t0 s Hnot Hl0 Hrest Hbc.
  - apply Forall2_nil_inv_l in Hrest as ->. cbn [add_loop].
    unfold mret, M_ret, accumulate. cbn [foldl]. by rewrite list_insert_id.
  - apply Forall2_cons_inv_l in Hrest as (t & ts' & Hl & Hrest & ->).
    apply Forall_cons in Hbc as [Ht Hbc].
    apply not_elem_of_cons in Hnot as [Hne Hnot].
    assert (Hlt : l0 < length s) by (eapply lookup_lt_Some; done).
    cbn [add_loop].
    rewrite (M_bind_Ok _ _ s s l0) by done.
    rewrite (M_bind_Ok _ _ s _ tt (iadd_Ok l0 l t0 t s Hl0 Hl Ht)).
    rewrite (IH ts' (plus_broadcast t0 t)); try done.
    + by rewrite list_insert_insert_eq.
    + by apply list_lookup_insert_eq.
    + apply Forall2_same_length_lookup.
      apply Forall2_same_length_lookup in Hrest as [Hlen Hlook].
      split; [done|]. intros i l' t' Hi Hi'.
      rewrite list_lookup_insert_ne; [by eapply Hlook|].
      intros <-. apply Hnot. by eapply list_elem_of_lookup_2.
Qed.

Lemma add_loop_mismatch (l0 : loc) (xs rest : list loc) (ts : list (tensor R))
    (t0 : tensor R) (s : store R) :
  l0 ∉ rest ->
  s !! l0 = Some t0 ->
  Forall2 (fun l t => s !! l = Some t) rest ts ->
  Exists (fun t => broadcastable_to (shape t) (shape t0) = false) ts ->
  exists s', add_loop (l0 :: xs) rest s = (Raise RuntimeError, s').
Proof.
  revert ts t0 s. induction rest as [|l rest IH]; intros ts t0 s Hnot Hl0 Hrest Hex.
  - apply Forall2_nil_inv_l in Hrest as ->. by apply Exists_nil in Hex.
  - apply Forall2_cons_inv_l in Hrest as (t & ts' & Hl & Hrest & ->).
    apply not_elem_of_cons in Hnot as [Hne Hnot].
    assert (Hlt : l0 < length s) by (eapply lookup_lt_Some; done).
    cbn [add_loop]. rewrite (M_bind_Ok _ _ s s l0) by done.
    destruct (broadcastable_to (shape t) (shape t0)) eqn:Ht.
    + rewrite (M_bind_Ok _ _ s _ tt (iadd_Ok l0 l t0 t s Hl0 Hl Ht)).
      apply (IH ts' (plus_broadcast t0 t)); try done.
      * by apply list_lookup_insert_eq.
      * apply Forall2_same_length_lookup.
        apply Forall2_same_length_lookup in Hrest as [Hlen Hlook].
        split; [done|]. intros i l' t' Hi Hi'.
        rewrite list_lookup_insert_ne; [by eapply Hlook|].
        intros <-. apply Hnot. by eapply list_elem_of_lookup_2.
      * apply Exists_cons in Hex as [Hex|Hex]; [congruence|done].
    + exists s. by rewrite (M_bind_Raise _ _ s s _ (iadd_mismatch l0 l t0 t s Hl0 Hl Ht)).
Qed.

Lemma add_Ok (l0 : loc) (rest : list loc) (ts : list (tensor R))
    (t0 : tensor R) (s : store R) :
  l0 ∉ rest ->
  s !! l0 = Some t0 ->
  Forall2 (fun l t => s !! l = Some t) rest ts ->
  Forall (fun t => broadcastable_to (shape t) (shape t0) = true) ts ->
  add (l0 :: rest) s = (Ok l0, <[l0 := accumulate t0 ts]> s).
Proof.
  intros Hnot Hl0 Hrest Hbc. unfold add. cbn [drop].
  by rewrite (M_bind_Ok _ _ s _ tt (add_loop_Ok l0 rest rest ts t0 s Hnot Hl0 Hrest Hbc)).
Qed.

Lemma add_mismatch (l0 : loc) (rest : list loc) (ts : list (tensor R))
    (t0 : tensor R) (s : store R) :
  l0 ∉ rest ->
  s !! l0 = Some t0 ->
  Forall2 (fun l t => s !! l = Some t) rest ts ->
  Exists (fun t => broadcastable_to (shape t) (shape t0) = false) ts ->
  exists s', add (l0 :: rest) s = (Raise RuntimeError, s').
Proof.
  intros Hnot Hl0 Hrest Hex. unfold add. cbn [drop].
  destruct (add_loop_mismatch l0 rest rest ts t0 s Hnot Hl0 Hrest Hex) as [s' Hs'].
  exists s'. by rewrite (M_bind_Raise _ _ s s' _ Hs').
Qed.

(** C10: [add] on a list whose first tensor object is not among the
    others returns that first object, and leaves it holding the
    accumulated sum: the store is updated at the first location and
    nowhere else.  The fusion step with action 'add' is this call, so
    the first encoder's output is overwritten by it. *)
Theorem add_overwrites_first (l0 : loc) (rest : list loc) (ts : list (tensor R))
    (t0 : tensor R) (s : store R) :
  l0 ∉ rest ->
  s !! l0 = Some t0 ->
  Forall2 (fun l t => s !! l = Some t) rest ts ->
  Forall (fun t => broadcastable_to (shape t) (shape t0) = true) ts ->
  exists s',
    add (l0 :: rest) s = (Ok l0, s') /\
    (forall m : MultiEncoder.t R,
       MultiEncoder.action m = "add" ->
       MultiEncoder.fuse m (l0 :: rest) s = (Ok l0, s')) /\
    s' !! l0 = Some (accumulate t0 ts) /\
    (forall l, l <> l0 -> s' !! l = s !! l) /\
    (Forall (fun t => shape t = shape t0) ts ->
     forall idx, in_bounds (shape t0) idx ->
       data (accumulate t0 ts) idx
       = foldl radd (data t0 idx) (map (fun t => data t idx) ts)).
Proof.
  intros Hnot Hl0 Hrest Hbc.
  pose proof (add_Ok l0 rest ts t0 s Hnot Hl0 Hrest Hbc) as Hadd.
  exists (<[l0 := accumulate t0 ts]> s). split; [done|]. split.
  { intros m Ha. unfold MultiEncoder.fuse, process_input.
    by rewrite bool_decide_true by done. }
  split.
  { apply list_lookup_insert_eq. by eapply lookup_lt_Some. }
  split.
  { intros l Hl. by apply list_lookup_insert_ne. }
  intros Hsame idx Hidx. by apply accumulate_same_shape.
Qed.

End Accumulate.

(** ** The fusion wrapper *)

Section FusionFacts.
Context {R : Type} {NR : Num R}.
Variable rfft2_ortho : tensor R -> (list nat -> R) * (list nat -> R).
Variable irfft2_ortho : nat * nat -> ctensor R -> list nat -> R.
Variable activation : act_name -> R -> R.
Variable div6 : R -> R.

Local Abbreviation encoder_outputs :=
  (MultiEncoder.encoder_outputs rfft2_ortho irfft2_ortho).
Local Abbreviation call_encoder := (MultiEncoder.call_encoder rfft2_ortho irfft2_ortho).
Local Abbreviation run_encoders := (MultiEncoder.run_encoders rfft2_ortho irfft2_ortho).
Local Abbreviation forward_step := (MultiEncoder.forward_step rfft2_ortho irfft2_ortho).
Local Abbreviation forward :=
  (MultiEncoder.forward rfft2_ortho irfft2_ortho activation div6).


Lemma call_encoder_Ok (e : AFNONet.t R) (l : loc) (x y : tensor R)
    (s : store R) :
  s !! l = Some x -> AFNONet.forward_features rfft2_ortho irfft2_ortho e x = Ok y ->
  call_encoder e (VTensor l) s = (Ok (length s), s ++ [y]).
Proof.
  intros Hl He. unfold MultiEncoder.call_encoder.
  rewrite (M_bind_Ok _ _ s s x) by (unfold read; by rewrite Hl).
  rewrite (M_bind_Ok _ _ s s y) by (unfold lift; by rewrite He).
  done.
Qed.

Lemma run_encoders_Ok (encs : list (AFNONet.t R)) (i : nat)
    (input_list : list pyval) (acc : list loc) (s : store R) (ys : list (tensor R)) :
  encoder_outputs encs (drop i input_list) s ys ->
  run_encoders encs i input_list acc s
  = (Ok (acc ++ seq (length s) (length encs)), s ++ ys).
Proof.
  unfold MultiEncoder.encoder_outputs. revert i acc s ys.
  induction encs as [|e encs IH]; intros i acc s ys Hout.
  - inversion Hout; subst. cbn. by rewrite !app_nil_r.
  - inversion Hout as [|e' v y encs' vs ys' (l & x & -> & Hl & He) Hrest Heq1 Heq2 Heq3];
      subst.
    assert (Hi : input_list !! i = Some (VTensor l)).
    { rewrite <- (Nat.add_0_r i), <- lookup_drop, <- Heq2. done. }
    assert (Hd : drop (S i) input_list = vs).
    { erewrite drop_S in Heq2 by done. by injection Heq2. }
    cbn [MultiEncoder.run_encoders].
    rewrite (M_bind_Ok _ _ s s (VTensor l)) by (unfold lift, Py.item; by rewrite Hi).
    rewrite (M_bind_Ok _ _ s _ _ (call_encoder_Ok e l x y s Hl He)).
    cbn beta. rewrite (IH (S i) (acc ++ [length s]) (s ++ [y]) ys').
    + rewrite length_app. cbn. rewrite <- !app_assoc. cbn.
      replace (length s + 1) with (S (length s)) by lia. done.
    + rewrite Hd. eapply Forall3_impl; [exact Hrest|]. cbn.
      intros e0 v0 y0 (l0 & x0 & -> & Hl0 & He0). exists l0, x0.
      split; [done|]. split; [|done]. by apply lookup_app_l_Some.
Qed.

Lemma fresh_outputs_lookup (s : store R) (y0 : tensor R) (ys : list (tensor R)) :
  (length s ∉ seq (S (length s)) (length ys)) /\
  (s ++ y0 :: ys) !! length s = Some y0 /\
  Forall2 (fun l t => (s ++ y0 :: ys) !! l = Some t) (seq (S (length s)) (length ys)) ys.
Proof.
  split; [rewrite elem_of_seq; lia|]. split; [by apply list_lookup_middle|].
  apply Forall2_same_length_lookup. split; [by rewrite length_seq|].
  intros i l t Hl Ht. apply lookup_seq in Hl as [-> Hi].
  rewrite lookup_app_r by lia.
  replace (S (length s) + i - length s) with (S i) by lia. done.
Qed.

(** C9, as amended: in a fusion step with action 'add' whose encoders
    return the feature tensors [y0 :: ys], (1) when every later output
    broadcasts to the shape of the first, the head is applied to the
    first output, overwritten with the accumulated sum; (2) when all
    shapes are equal this sum is the element-wise sum of the outputs;
    (3) when some later output does not broadcast to the shape of the
    first, the fusion raises an error and the step ends with it, the
    head not being applied. *)
Theorem add_fusion_step (m : MultiEncoder.t R) (input_list : list pyval)
    (s : store R) (y0 : tensor R) (ys : list (tensor R)) :
  MultiEncoder.action m = "add" ->
  encoder_outputs (MultiEncoder.encoders m) input_list s (y0 :: ys) ->
  (Forall (fun y => broadcastable_to (shape y) (shape y0) = true) ys ->
     forward_step m input_list s
     = MultiEncoder.project m (length s)
         (<[length s := accumulate y0 ys]> (s ++ y0 :: ys))) /\
  (Forall (fun y => shape y = shape y0) ys ->
     Forall (fun y => broadcastable_to (shape y) (shape y0) = true) ys /\
     forall idx, in_bounds (shape y0) idx ->
       data (accumulate y0 ys) idx
       = foldl radd (data y0 idx) (map (fun y => data y idx) ys)) /\
  (Exists (fun y => broadcastable_to (shape y) (shape y0) = false) ys ->
     exists s',
       MultiEncoder.fuse m (seq (length s) (S (length ys))) (s ++ y0 :: ys)
       = (Raise RuntimeError, s') /\
       forward_step m input_list s = (Raise RuntimeError, s')).
Proof.
  intros Hact Hout.
  assert (Hlen : length (MultiEncoder.encoders m) = S (length ys)).
  { unfold MultiEncoder.encoder_outputs in Hout. apply Forall3_length_lr in Hout. done. }
  pose proof (run_encoders_Ok (MultiEncoder.encoders m) 0 input_list [] s (y0 :: ys) Hout)
    as Hrun.
  rewrite Hlen in Hrun. cbn [app] in Hrun.
  destruct (fresh_outputs_lookup s y0 ys) as (Hnot & Hl0 & Hrest).
  repeat split.
  - intros Hbc. unfold MultiEncoder.forward_step.
    rewrite (M_bind_Ok _ _ _ _ _ Hrun).
    unfold MultiEncoder.fuse, process_input. rewrite bool_decide_true by done.
    cbn [seq].
    by rewrite (M_bind_Ok _ _ _ _ _ (add_Ok _ _ ys y0 _ Hnot Hl0 Hrest Hbc)).
  - eapply Forall_impl; [done|]. cbn. intros y ->. apply broadcastable_to_refl.
  - intros idx Hidx. by apply accumulate_same_shape.
  - intros Hex. unfold MultiEncoder.forward_step, MultiEncoder.fuse, process_input.
    rewrite bool_decide_true by done. cbn [seq].
    destruct (add_mismatch _ _ ys y0 _ Hnot Hl0 Hrest Hex) as [s' Hs'].
    exists s'. split; [done|].
    rewrite (M_bind_Ok _ _ _ _ _ Hrun). cbn [seq].
    by rewrite (M_bind_Raise _ _ _ _ _ Hs').
Qed.

(** [forward_step] on a list with one tensor per encoder: encoder [i]
    runs on tensor [i], and the fresh feature tensors, in order, are what
    is fused and handed to the head. *)
Lemma forward_step_runs_encoders (m : MultiEncoder.t R) (input_list : list pyval)
    (s : store R) (ys : list (tensor R)) :
  encoder_outputs (MultiEncoder.encoders m) input_list s ys ->
  forward_step m input_list s
  = (MultiEncoder.fuse m (seq (length s) (length ys))
       ≫= MultiEncoder.project m) (s ++ ys).
Proof.
  intros Hout.
  pose proof (run_encoders_Ok (MultiEncoder.encoders m) 0 input_list [] s ys Hout)
    as Hrun.
  assert (Hlen : length (MultiEncoder.encoders m) = length ys).
  { unfold MultiEncoder.encoder_outputs in Hout. by apply Forall3_length_lr in Hout. }
  rewrite Hlen in Hrun. cbn [app] in Hrun.
  unfold MultiEncoder.forward_step. by rewrite (M_bind_Ok _ _ _ _ _ Hrun).
Qed.

(** With two encoders or more, a step on the one-element list that
    [forward] builds cannot succeed: the second encoder finds no input. *)
Lemma forward_step_singleton_raises (m : MultiEncoder.t R) (v : pyval) (s : store R) :
  2 <= length (MultiEncoder.encoders m) ->
  exists e s', forward_step m [v] s = (Raise e, s') /\
    (forall x s1, (exists e0, MultiEncoder.encoders m !! 0 = Some e0 /\
                     call_encoder e0 v s = (Ok x, s1)) ->
       e = IndexError).
Proof.
  intros Hlen. unfold MultiEncoder.forward_step.
  destruct (MultiEncoder.encoders m) as [|e0 [|e1 encs]]; cbn in Hlen; [lia|lia|].
  cbn [MultiEncoder.run_encoders].
  destruct (call_encoder e0 v s) as [[x|e] s1] eqn:Hcall.
  - exists IndexError, s1. split; [|done].
    rewrite (M_bind_Raise _ _ s s1 IndexError); [done|].
    rewrite (M_bind_Ok _ _ s s v) by done.
    rewrite (M_bind_Ok _ _ _ _ _ Hcall). cbn beta.
    by rewrite (M_bind_Raise _ _ s1 s1 IndexError).
  - exists e, s1. split.
    + rewrite (M_bind_Raise _ _ s s1 e); [done|].
      rewrite (M_bind_Ok _ _ s s v) by done.
      by rewrite (M_bind_Raise _ _ _ _ _ Hcall).
    + intros x s2 (e0' & [= <-] & Hok). congruence.
Qed.

Lemma forward_never_returns (m : MultiEncoder.t R) (inputs : pyval) (s : store R) :
  2 <= length (MultiEncoder.encoders m) ->
  1 <= MultiEncoder.autoregressive_steps m ->
  exists e s',
    forward m inputs s = (Raise e, s').
Proof.
  intros Hlen Hsteps. unfold MultiEncoder.forward.
  destruct (MultiEncoder.autoregressive_steps m) as [|n]; [lia|].
  destruct (forward_step_singleton_raises m inputs s Hlen) as (e & s' & Hstep & _).
  exists e, s'. rewrite (M_bind_Raise _ _ s s' e); [done|].
  cbn [MultiEncoder.run_steps]. rewrite bool_decide_false by lia.
  rewrite (M_bind_Ok _ _ s s inputs) by done.
  by rewrite (M_bind_Raise _ _ _ _ _ Hstep).
Qed.

End FusionFacts.

(** ** Concrete instances *)


(** C7 fails as stated.  The network without blocks on a 1x1 grid whose
    patch embedding has weight 2 and whose head has weight 1 doubles its
    input at each step: on the grid holding 1, [autoregressive_steps = 1]
    returns 2, and [autoregressive_steps = 2] with [output_only_last]
    returns 4. *)
Lemma rollout_differs_from_single_step :
  ~ (forall (a : AFNONet.args Z) (N : nat) (m1 mN : AFNONet.t Z) (x : tensor Z),
       AFNONet.init (set_steps 1 (AFNONet.a_output_only_last a) a) = Ok m1 ->
       AFNONet.init (set_steps N true a) = Ok mN ->
       AFNONet.has_time_dim m1 = false ->
       1 <= N ->
       result_teq (AFNONet.forward rfft2_point irfft2_point m1 x)
                  (AFNONet.forward rfft2_point irfft2_point mN x)).
Proof.
  intros Hclaim.
  destruct (AFNONet.init (point_args 2 1 None None 1 false)) as [m1|e1] eqn:Hm1;
    [|vm_compute in Hm1; discriminate Hm1].
  destruct (AFNONet.init (point_args 2 1 None None 2 true)) as [mN|eN] eqn:HmN;
    [|vm_compute in HmN; discriminate HmN].
  assert (Ht : AFNONet.has_time_dim m1 = false).
  { pose proof Hm1 as E. vm_compute in E. by injection E as <-. }
  specialize (Hclaim (point_args 2 1 None None 1 false) 2 m1 mN
                (const_tensor [1; 1; 1; 1] 1) Hm1 HmN Ht ltac:(lia)).
  vm_compute in Hm1, HmN. injection Hm1 as <-. injection HmN as <-.
  match type of Hclaim with
  | result_teq ?r1 ?rN =>
      assert (H1 : entry r1 [0; 0; 0; 0] = Some ([1; 1; 1; 1], 2%Z))
        by (vm_compute; reflexivity);
      assert (HN : entry rN [0; 0; 0; 0] = Some ([1; 1; 1; 1], 4%Z))
        by (vm_compute; reflexivity);
      destruct r1 as [y1|e1]; [|discriminate H1];
      destruct rN as [yN|eN]; [|discriminate HN]
  end.
  destruct Hclaim as [_ Hdata]. cbn in H1, HN.
  injection H1 as Hs1 Hd1. injection HN as _ HdN.
  specialize (Hdata [0; 0; 0; 0]). rewrite Hs1 in Hdata.
  assert (Hb : in_bounds [1; 1; 1; 1] [0; 0; 0; 0]).
  { unfold in_bounds. repeat constructor. }
  specialize (Hdata Hb). rewrite Hd1, HdN in Hdata. discriminate Hdata.
Qed.

(** C7 as amended, at two steps of that network on the grid holding 1 *)
Lemma forward_no_time_dim_witness :
  exists m, AFNONet.init (point_args 2 1 None None 2 true) = Ok m /\
    AFNONet.has_time_dim m = false /\
    1 <= AFNONet.autoregressive_steps m /\
    entry (AFNONet.forward rfft2_point irfft2_point m (const_tensor [1; 1; 1; 1] 1))
      [0; 0; 0; 0] = Some ([1; 1; 1; 1], 4%Z).
Proof.
  eexists. split; [reflexivity|]. split; [reflexivity|]. split; [cbn; lia|].
  match goal with
  | |- entry (AFNONet.forward _ _ ?m _) _ = _ =>
      rewrite (forward_no_time_dim rfft2_point irfft2_point m
                 (const_tensor [1; 1; 1; 1] 1) eq_refl ltac:(cbn; lia))
  end.
  vm_compute. reflexivity.
Defined.

Lemma marker_filter_init (frac : Q) :
  AFNO2D_init 1 1 0%Z frac 1 (fun _ => 0%Z) (fun _ => 0%Z) (fun _ => 0%Z) (fun _ => 5%Z)
  = Ok (marker_filter frac).
Proof. reflexivity. Qed.


Lemma small_filter_init (frac : Q) :
  AFNO2D_init 1 1 1%Z frac 1 w1_small b1_small w2_small b2_small
  = Ok (small_filter frac).
Proof. reflexivity. Qed.



(** C8 on the same filter and grid *)
Lemma filter_shape_and_residual_witness :
  exists y,
    AFNO2D_forward rfft2_point irfft2_point (small_filter 1) (const_tensor [1; 1; 1; 1] 4)
      = Ok y /\
    shape y = [1; 1; 1; 1] /\ data y [0; 0; 0; 0] = 30%Z.
Proof.
  destruct (filter_shape_and_residual (NR:=Z_Num) rfft2_point irfft2_point 1 1 1%Z 1 1
              w1_small b1_small w2_small b2_small (small_filter 1)
              (const_tensor [1; 1; 1; 1] 4) 1 1 1
              eq_refl eq_refl eq_refl ltac:(lia) ltac:(lia))
    as (corr & y & Hcorr & Hy & _ & Hshape & Hdata).
  exists y. split; [exact Hy|]. split; [exact Hshape|].
  rewrite Hdata. injection Hcorr as <-. reflexivity.
Defined.

(** C5 on the same grid, fraction 0: the output is the input. *)
Lemma zero_fraction_is_identity_witness :
  exists y,
    AFNO2D_forward rfft2_point irfft2_point (small_filter 0) (const_tensor [1; 1; 1; 1] 4)
      = Ok y /\
    shape y = [1; 1; 1; 1] /\ data y [0; 0; 0; 0] = 4%Z.
Proof.
  destruct (zero_fraction_is_identity (NR:=Z_Num) (NL:=Z_NumLaws) rfft2_point irfft2_point 1 1 1%Z 0 1
              w1_small b1_small w2_small b2_small (small_filter 0)
              (const_tensor [1; 1; 1; 1] 4) 1 1 1
              eq_refl eq_refl eq_refl ltac:(lia) ltac:(lia) ltac:(reflexivity)
              (fun s xs Hz idx => proj1 (Hz idx)))
    as (y & Hy & _ & Hshape & Hdata).
  exists y. split; [exact Hy|]. split; [exact Hshape|].
  rewrite Hdata. reflexivity.
Defined.

Lemma plain_encoder_init :
  AFNONet.init (MultiEncoder.encoder_args plain_params) = Ok plain_encoder.
Proof. reflexivity. Qed.

(** C1 fails on the code: the wrapper built over two encoder
    configurations raises on every call of [forward].  With a tensor as
    input the second encoder finds no second element in the one-element
    list that [forward] passes to [forward_step] ([IndexError]); with a
    list of two tensors the first encoder receives the list itself
    ([AttributeError]).  [forward_step], called directly on the list of two
    tensors, runs both encoders and returns. *)
Theorem forward_with_two_encoders_raises :
  MultiEncoder.init linear_ones [plain_params; plain_params] false 1 None "add" None
    = Ok add_wrapper /\
  length (MultiEncoder.encoders add_wrapper) = 2 /\
  (MultiEncoder.forward rfft2_point irfft2_point activation_id div6_Z add_wrapper
     (VTensor 0) [const_tensor [1; 1; 1; 1] 1; const_tensor [1; 1; 1; 1] 10]).1
    = Raise IndexError /\
  (MultiEncoder.forward rfft2_point irfft2_point activation_id div6_Z add_wrapper
     (VList [0; 1]) [const_tensor [1; 1; 1; 1] 1; const_tensor [1; 1; 1; 1] 10]).1
    = Raise AttributeError /\
  (MultiEncoder.forward_step rfft2_point irfft2_point add_wrapper
     [VTensor 0; VTensor 1]
     [const_tensor [1; 1; 1; 1] 1; const_tensor [1; 1; 1; 1] 10]).1
    = Ok 4.
Proof. repeat split; vm_compute; reflexivity. Qed.

(** The features that the two encoders of [add_wrapper] return on two
    one-channel 1x1 grids are these grids, with the channel axis last. *)
(** C9 fails as stated: on batches of 2 and of 1 grids the two encoders
    of [add_wrapper] return feature tensors of shapes (2,1,1,1) and
    (1,1,1,1), which are not of identical shape, and the 'add' fusion step
    returns: the second is broadcast over the first. *)
Lemma add_fusion_broadcasts_silently :
  ~ (forall (m : MultiEncoder.t Z) (input_list : list pyval) (s : store Z)
            (y0 : tensor Z) (ys : list (tensor Z)),
       MultiEncoder.action m = "add" ->
       MultiEncoder.encoder_outputs rfft2_point irfft2_point
         (MultiEncoder.encoders m) input_list s (y0 :: ys) ->
       ~ Forall (fun y => shape y = shape y0) ys ->
       exists e s',
         MultiEncoder.forward_step rfft2_point irfft2_point m input_list s
         = (Raise e, s')).
Proof.
  intros Hclaim.
  destruct (AFNONet.forward_features rfft2_point irfft2_point plain_encoder
              (const_tensor [2; 1; 1; 1] 1)) as [y0|e0] eqn:H0;
    [|vm_compute in H0; discriminate H0].
  destruct (AFNONet.forward_features rfft2_point irfft2_point plain_encoder
              (const_tensor [1; 1; 1; 1] 10)) as [y1|e1] eqn:H1;
    [|vm_compute in H1; discriminate H1].
  assert (Hs0 : shape y0 = [2; 1; 1; 1]).
  { pose proof (f_equal (fun r => entry r []) H0) as E. vm_compute in E.
    by injection E. }
  assert (Hs1 : shape y1 = [1; 1; 1; 1]).
  { pose proof (f_equal (fun r => entry r []) H1) as E. vm_compute in E.
    by injection E. }
  destruct (Hclaim add_wrapper [VTensor 0; VTensor 1]
              [const_tensor [2; 1; 1; 1] 1; const_tensor [1; 1; 1; 1] 10]
              y0 [y1] eq_refl) as (e & s' & Hraise).
  - unfold MultiEncoder.encoder_outputs. cbn [MultiEncoder.encoders add_wrapper].
    constructor; [by eexists 0, _|]. constructor; [by eexists 1, _|]. constructor.
  - intros Hsame. apply Forall_cons in Hsame as [Hshape _].
    rewrite Hs0, Hs1 in Hshape. discriminate Hshape.
  - apply (f_equal fst) in Hraise. vm_compute in Hraise. discriminate Hraise.
Qed.

(** C9 as amended, at two grids holding 1 and 10, and at batches of 2
    and of 3 such grids. *)
Lemma add_fusion_step_witness :
  (exists s',
     MultiEncoder.forward_step rfft2_point irfft2_point add_wrapper
       [VTensor 0; VTensor 1]
       [const_tensor [1; 1; 1; 1] 1; const_tensor [1; 1; 1; 1] 10] = (Ok 4, s') /\
     (fun t => data t [0; 0; 0; 0]) <$> s' !! 2 = Some 11%Z /\
     (fun t => data t [0; 0; 0; 0]) <$> s' !! 4 = Some 11%Z) /\
  (exists s',
     MultiEncoder.forward_step rfft2_point irfft2_point add_wrapper
       [VTensor 0; VTensor 1]
       [const_tensor [2; 1; 1; 1] 1; const_tensor [3; 1; 1; 1] 10]
     = (Raise RuntimeError, s')).
Proof.
  split.
  - destruct (AFNONet.forward_features rfft2_point irfft2_point plain_encoder
                (const_tensor [1; 1; 1; 1] 1)) as [y0|e0] eqn:H0;
      [|vm_compute in H0; discriminate H0].
    destruct (AFNONet.forward_features rfft2_point irfft2_point plain_encoder
                (const_tensor [1; 1; 1; 1] 10)) as [y1|e1] eqn:H1;
      [|vm_compute in H1; discriminate H1].
    pose proof H0 as E0. pose proof H1 as E1.
    vm_compute in E0, E1. injection E0 as E0. injection E1 as E1.
    assert (Hout : MultiEncoder.encoder_outputs rfft2_point irfft2_point
                     (MultiEncoder.encoders add_wrapper) [VTensor 0; VTensor 1]
                     [const_tensor [1; 1; 1; 1] 1; const_tensor [1; 1; 1; 1] 10]
                     [y0; y1]).
    { constructor; [by eexists 0, _|]. constructor; [by eexists 1, _|]. constructor. }
    rewrite (proj1 (add_fusion_step rfft2_point irfft2_point add_wrapper
                      [VTensor 0; VTensor 1] _ y0 [y1] eq_refl Hout)).
    + subst y0 y1. eexists. split; [vm_compute; reflexivity|].
      split; vm_compute; reflexivity.
    + subst y0 y1. repeat constructor.
  - destruct (AFNONet.forward_features rfft2_point irfft2_point plain_encoder
                (const_tensor [2; 1; 1; 1] 1)) as [y0|e0] eqn:H0;
      [|vm_compute in H0; discriminate H0].
    destruct (AFNONet.forward_features rfft2_point irfft2_point plain_encoder
                (const_tensor [3; 1; 1; 1] 10)) as [y1|e1] eqn:H1;
      [|vm_compute in H1; discriminate H1].
    pose proof H0 as E0. pose proof H1 as E1.
    vm_compute in E0, E1. injection E0 as E0. injection E1 as E1.
    assert (Hout : MultiEncoder.encoder_outputs rfft2_point irfft2_point
                     (MultiEncoder.encoders add_wrapper) [VTensor 0; VTensor 1]
                     [const_tensor [2; 1; 1; 1] 1; const_tensor [3; 1; 1; 1] 10]
                     [y0; y1]).
    { constructor; [by eexists 0, _|]. constructor; [by eexists 1, _|]. constructor. }
    destruct (proj2 (proj2 (add_fusion_step rfft2_point irfft2_point add_wrapper
                      [VTensor 0; VTensor 1] _ y0 [y1] eq_refl Hout)))
      as (s' & _ & Hraise).
    { apply Exists_cons_hd. subst y0 y1. reflexivity. }
    exists s'. exact Hraise.
Defined.

(** C10 at two tensor objects of shape (1,1,1,1) holding 1 and 10 *)
Lemma add_overwrites_first_witness :
  exists s',
    add [0; 1] [const_tensor [1; 1; 1; 1] 1; const_tensor [1; 1; 1; 1] 10] = (Ok 0, s') /\
    (fun t => data t [0; 0; 0; 0]) <$> s' !! 0 = Some 11%Z /\
    (fun t => data t [0; 0; 0; 0]) <$> s' !! 1 = Some 10%Z.
Proof.
  destruct (add_overwrites_first 0 [1] [const_tensor [1; 1; 1; 1] 10]
              (const_tensor [1; 1; 1; 1] 1)
              [const_tensor [1; 1; 1; 1] 1; const_tensor [1; 1; 1; 1] 10])
    as (s' & Hadd & _ & Hfirst & Hother & _).
  - intros Hin. apply list_elem_of_singleton in Hin. discriminate Hin.
  - reflexivity.
  - repeat constructor.
  - repeat constructor.
  - exists s'. split; [exact Hadd|]. split.
    + rewrite Hfirst. reflexivity.
    + rewrite Hother by lia. reflexivity.
Defined.

(** * Further properties *)

(** ** Class centres *)

(** [calculate_original_values]: division by a zero number of classes
    raises, a negative number of classes is rejected by [linspace], and
    for [n > 0] classes the result has [n] values, the value at position
    [i] being the centre of the [i]-th of [n] intervals of equal width
    that divide [min_orig, max_orig]. *)
Theorem calculate_original_values_centres (lo hi : Q) (n : Z) :
  (n = 0%Z -> calculate_original_values lo hi n = Raise ZeroDivisionError) /\
  ((n < 0)%Z -> calculate_original_values lo hi n = Raise RuntimeError) /\
  ((0 < n)%Z ->
     exists vs, calculate_original_values lo hi n = Ok vs /\
       length vs = Z.to_nat n /\
       forall i v, vs !! i = Some v ->
         (v == lo + (hi - lo) * (inject_Z (2 * Z.of_nat i + 1) / inject_Z (2 * n)))%Q).
Proof.
  unfold calculate_original_values, linspace. repeat split.
  - intros ->. reflexivity.
  - intros Hn. destruct (Z.eqb_spec n 0); [lia|].
    destruct (Z.ltb_spec n 0); [done|lia].
  - intros Hn. destruct (Z.eqb_spec n 0); [lia|].
    destruct (Z.ltb_spec n 0); [lia|].
    destruct (Z.eqb_spec n 1) as [->|Hn1].
    + eexists. split; [reflexivity|]. split; [reflexivity|].
      intros [|i] v Hv; [|done]. injection Hv as <-.
      change (inject_Z (2 * Z.of_nat 0 + 1)) with 1%Q.
      change (inject_Z (2 * 1)) with 2%Q. change (inject_Z 1) with 1%Q. field.
    + eexists. split; [reflexivity|]. split; [by rewrite length_map, length_seq|].
      intros i v Hv. apply list_lookup_fmap_Some in Hv as (k & -> & Hk).
      apply lookup_seq in Hk as [-> Hk]. cbn [Nat.add].
      assert (Hn' : ~ (inject_Z n == 0)%Q).
      { unfold Qeq. cbn. lia. }
      assert (Hn1' : ~ (inject_Z (n - 1) == 0)%Q).
      { unfold Qeq. cbn. lia. }
      unfold Z.sub in *. rewrite !inject_Z_plus, !inject_Z_mult, inject_Z_opp in *.
      change (inject_Z 2) with 2%Q. change (inject_Z 1) with 1%Q in *.
      field. auto.
Qed.

(** Five classes on [0, 10]: the centres 1, 3, 5, 7, 9. *)
Lemma calculate_original_values_centres_witness :
  exists vs, calculate_original_values 0 10 5 = Ok vs /\
    length vs = 5 /\
    forall i v, vs !! i = Some v ->
      (v == 0 + (10 - 0) * (inject_Z (2 * Z.of_nat i + 1) / inject_Z (2 * 5)))%Q.
Proof.
  exact (proj2 (proj2 (calculate_original_values_centres 0 10 5)) ltac:(lia)).
Defined.

(** ** Periodic padding *)

Section PaddingFacts.
Context {R : Type} {NR : Num R}.

Lemma PeriodicPad2d_forward_Ok (p : nat) (x : tensor R) (N C H W : nat) :
  shape x = [N; C; H; W] -> p <= W ->
  PeriodicPad2d_forward p x
  = Ok (mkTensor [N; C; H + p + p; W + p + p]
          (fun idx =>
             match idx with
             | [n; c; i; j] =>
                 if bool_decide (p <= i < p + H)
                 then data x [n; c; i - p; (j + W - p) mod W]
                 else rzero
             | _ => rzero
             end)).
Proof.
  intros Hs Hp. unfold PeriodicPad2d_forward, pad_circular_w. rewrite Hs.
  rewrite bool_decide_true by done. reflexivity.
Qed.

(** [PeriodicPad2d.forward] on a batch of images (N, C, H, W) with a pad
    width [p <= W]: the result has shape (N, C, H + 2p, W + 2p); its
    centre is the input; the [p] rows above and the [p] rows below are
    zero; and along the last axis it is periodic with period [W]. *)
Theorem PeriodicPad2d_pads_periodically (p : nat) (x : tensor R) (N C H W : nat) :
  shape x = [N; C; H; W] -> p <= W ->
  exists y, PeriodicPad2d_forward p x = Ok y /\
    shape y = [N; C; H + 2 * p; W + 2 * p] /\
    (forall n c i j, i < H -> j < W ->
       data y [n; c; p + i; p + j] = data x [n; c; i; j]) /\
    (forall n c i j, i < p \/ p + H <= i -> data y [n; c; i; j] = rzero) /\
    (forall n c i j, j + W < W + 2 * p ->
       data y [n; c; i; j + W] = data y [n; c; i; j]).
Proof.
  intros Hs Hp. eexists. split; [exact (PeriodicPad2d_forward_Ok p x N C H W Hs Hp)|].
  cbn [shape data]. split; [repeat (f_equal; try lia)|].
  split; [|split].
  - intros n c i j Hi Hj. rewrite bool_decide_true by lia.
    replace (p + i - p) with i by lia.
    replace (p + j + W - p) with (j + 1 * W) by lia.
    rewrite Nat.Div0.mod_add. by rewrite Nat.mod_small.
  - intros n c i j Hi. rewrite bool_decide_false by lia. done.
  - intros n c i j Hj. case_bool_decide; [|done].
    replace (j + W + W - p) with (j + W - p + 1 * W) by lia.
    by rewrite Nat.Div0.mod_add.
Qed.

(** A pad wider than the last axis is rejected: going around more than
    once is an error, also for the zero padding that would follow. *)
Theorem PeriodicPad2d_rejects_wide_pad (p : nat) (x : tensor R) (N C H W : nat) :
  shape x = [N; C; H; W] -> W < p ->
  PeriodicPad2d_forward p x = Raise RuntimeError.
Proof.
  intros Hs Hp. unfold PeriodicPad2d_forward, pad_circular_w. rewrite Hs.
  rewrite bool_decide_false by lia. reflexivity.
Qed.

End PaddingFacts.

(** A pad of 1 around one 2x3 image whose entry is its column *)
Lemma PeriodicPad2d_pads_periodically_witness :
  exists y,
    PeriodicPad2d_forward 1
      (mkTensor [1; 1; 2; 3] (fun idx => Z.of_nat (default 0 (idx !! 3)))) = Ok y /\
    shape y = [1; 1; 2 + 2 * 1; 3 + 2 * 1] /\
    (forall n c i j, i < 2 -> j < 3 ->
       data y [n; c; 1 + i; 1 + j] = Z.of_nat j) /\
    (forall n c i j, i < 1 \/ 1 + 2 <= i -> data y [n; c; i; j] = 0%Z) /\
    (forall n c i j, j + 3 < 3 + 2 * 1 ->
       data y [n; c; i; j + 3] = data y [n; c; i; j]).
Proof.
  exact (PeriodicPad2d_pads_periodically (NR:=Z_Num) 1
           (mkTensor [1; 1; 2; 3] (fun idx => Z.of_nat (default 0 (idx !! 3))))
           1 1 2 3 eq_refl ltac:(lia)).
Defined.

Lemma PeriodicPad2d_rejects_wide_pad_witness :
  PeriodicPad2d_forward 4 (const_tensor [1; 1; 2; 3] 7) = Raise RuntimeError.
Proof.
  exact (PeriodicPad2d_rejects_wide_pad (NR:=Z_Num) 4 (const_tensor [1; 1; 2; 3] 7)
           1 1 2 3 eq_refl ltac:(lia)).
Defined.

(** ** The spectral filter: rejected inputs and locality *)

Section FilterMore.
Context {R : Type} {NR : Num R}.
Variable rfft2_ortho : tensor R -> (list nat -> R) * (list nat -> R).
Variable irfft2_ortho : nat * nat -> ctensor R -> list nat -> R.

(** [AFNO2D.forward] rejects what it cannot reshape: an input that does
    not have four axes fails at the unpacking of its shape, a non-empty
    input whose last axis is not [hidden_size] fails at the reshape into
    blocks, and a negative sparsity threshold fails at the shrinkage. *)
Theorem AFNO2D_forward_rejects hs nb lam frac f w1v b1v w2v b2v
    (m : AFNO2D R) (x : tensor R) :
  AFNO2D_init hs nb lam frac f w1v b1v w2v b2v = Ok m ->
  (length (shape x) <> 4 ->
     AFNO2D_forward rfft2_ortho irfft2_ortho m x = Raise ValueError) /\
  (forall B H W C, shape x = [B; H; W; C] -> 0 < B -> 0 < H -> 0 < W -> C <> hs ->
     AFNO2D_forward rfft2_ortho irfft2_ortho m x = Raise RuntimeError) /\
  (forall B H W, shape x = [B; H; W; hs] -> 0 < H -> 0 < W ->
     rltb lam rzero = true ->
     AFNO2D_forward rfft2_ortho irfft2_ortho m x = Raise RuntimeError).
Proof.
  intros Hinit.
  destruct (AFNO2D_init_fields _ _ _ _ _ _ _ _ _ _ Hinit)
    as (Hhs & Hnb & Hbs & Hprod & Hl & _).
  unfold AFNO2D_forward, correction. repeat split.
  - intros Hlen. destruct (shape x) as [|B [|H [|W [|C [|]]]]]; cbn in Hlen; done.
  - intros B H W C Hs HB HH HW HC. rewrite Hs. unfold filtered_spectrum. rewrite Hs.
    rewrite bool_decide_false by lia. unfold creshape at 2. cbn [cshape].
    rewrite bool_decide_false; [done|].
    cbn. rewrite !Nat.mul_1_r, Hprod. intros Heq.
    apply Nat.mul_cancel_l in Heq; [|lia].
    apply Nat.mul_cancel_l in Heq; [|lia].
    apply Nat.mul_cancel_l in Heq; [|lia]. lia.
  - intros B H W Hs HH HW Hlam. rewrite Hs. unfold filtered_spectrum. rewrite Hs.
    rewrite bool_decide_false by lia. unfold creshape at 2. cbn [cshape].
    rewrite bool_decide_true by (cbn; rewrite <- Hprod; lia).
    cbn [mbind result_bind]. unfold softshrink_stacked. rewrite Hl, Hlam. done.
Qed.

(** The filter mixes channels inside one block of one mode only: two
    inputs whose spectra agree on the channels of block [k] at mode
    [(b, r, c)] have filtered spectra that agree there, whatever the
    inputs are elsewhere. *)
Theorem filter_acts_blockwise hs nb lam frac f w1v b1v w2v b2v
    (m : AFNO2D R) (x x' : tensor R) (B H W b r c k : nat) :
  AFNO2D_init hs nb lam frac f w1v b1v w2v b2v = Ok m ->
  rltb lam rzero = false ->
  shape x = [B; H; W; hs] -> shape x' = [B; H; W; hs] -> 0 < H -> 0 < W ->
  b < B -> r < H -> c < W / 2 + 1 -> k < num_blocks m ->
  (forall i, i < block_size m ->
     (rfft2_ortho x).1 [b; r; c; k * block_size m + i]
     = (rfft2_ortho x').1 [b; r; c; k * block_size m + i] /\
     (rfft2_ortho x).2 [b; r; c; k * block_size m + i]
     = (rfft2_ortho x').2 [b; r; c; k * block_size m + i]) ->
  exists xs xs',
    filtered_spectrum rfft2_ortho m x = Ok xs /\
    filtered_spectrum rfft2_ortho m x' = Ok xs' /\
    forall o, o < block_size m ->
      re xs [b; r; c; k * block_size m + o] = re xs' [b; r; c; k * block_size m + o] /\
      im xs [b; r; c; k * block_size m + o] = im xs' [b; r; c; k * block_size m + o].
Proof.
  intros Hinit Hlam Hs Hs' HH HW Hb Hr Hc Hk Hagree.
  destruct (AFNO2D_init_fields _ _ _ _ _ _ _ _ _ _ Hinit)
    as (Hhs & Hnb & Hbs & Hprod & _).
  destruct (filtered_spectrum_entries rfft2_ortho _ _ _ _ _ _ _ _ _ m x B H W
              Hinit Hlam Hs HH HW) as (xs & Hxs & _ & _ & Hent).
  destruct (filtered_spectrum_entries rfft2_ortho _ _ _ _ _ _ _ _ _ m x' B H W
              Hinit Hlam Hs' HH HW) as (xs' & Hxs' & _ & _ & Hent').
  exists xs, xs'. split; [done|]. split; [done|].
  intros o Ho.
  assert (Hch : k * block_size m + o < hs) by (rewrite <- Hprod; nia).
  destruct (Hent b r c _ Hb Hr Hc Hch) as [-> ->].
  destruct (Hent' b r c _ Hb Hr Hc Hch) as [-> ->].
  assert (Hd : (k * block_size m + o) / block_size m = k).
  { rewrite Nat.add_comm, Nat.div_add by lia. rewrite Nat.div_small by done. done. }
  assert (Hm : (k * block_size m + o) mod block_size m = o).
  { rewrite Nat.add_comm, Nat.Div0.mod_add. by apply Nat.mod_small. }
  rewrite Hd, Hm.
  destruct (mlp_ext m
              (blocks_of (block_size m) (rfft2_ortho x).1)
              (blocks_of (block_size m) (rfft2_ortho x).2)
              (blocks_of (block_size m) (rfft2_ortho x').1)
              (blocks_of (block_size m) (rfft2_ortho x').2) b r c k o)
    as [-> ->].
  - intros i Hi. cbn. apply Hagree, Hi.
  - intros i Hi. cbn. apply Hagree, Hi.
  - done.
Qed.

End FilterMore.

(** The one-channel filter on a tensor with three axes, on a 2x2 grid
    with three channels, and, with threshold -1, on a 1x1 grid *)
Lemma AFNO2D_forward_rejects_witness :
  AFNO2D_forward flat_spectrum irfft2_point (small_filter 1)
    (const_tensor [1; 2; 2] 1) = Raise ValueError /\
  AFNO2D_forward flat_spectrum irfft2_point (small_filter 1)
    (const_tensor [1; 2; 2; 3] 1) = Raise RuntimeError /\
  AFNO2D_forward flat_spectrum irfft2_point
    (mkAFNO2D 1 1 1 (-1)%Z 1 1
       (mkTensor [2; 1; 1; 1] w1_small) (mkTensor [2; 1; 1] b1_small)
       (mkTensor [2; 1; 1; 1] w2_small) (mkTensor [2; 1; 1] b2_small))
    (const_tensor [1; 1; 1; 1] 1) = Raise RuntimeError.
Proof.
  split; [|split].
  - exact (proj1 (AFNO2D_forward_rejects (NR:=Z_Num) flat_spectrum irfft2_point
                    1 1 1%Z 1 1 w1_small b1_small w2_small b2_small (small_filter 1)
                    (const_tensor [1; 2; 2] 1) eq_refl)
             ltac:(cbn; lia)).
  - exact (proj1 (proj2 (AFNO2D_forward_rejects (NR:=Z_Num) flat_spectrum irfft2_point
                    1 1 1%Z 1 1 w1_small b1_small w2_small b2_small (small_filter 1)
                    (const_tensor [1; 2; 2; 3] 1) eq_refl))
             1 2 2 3 eq_refl ltac:(lia) ltac:(lia) ltac:(lia) ltac:(lia)).
  - exact (proj2 (proj2 (AFNO2D_forward_rejects (NR:=Z_Num) flat_spectrum irfft2_point
                    1 1 (-1)%Z 1 1 w1_small b1_small w2_small b2_small _
                    (const_tensor [1; 1; 1; 1] 1) eq_refl))
             1 1 1 eq_refl ltac:(lia) ltac:(lia) eq_refl).
Defined.

(** Two batches of two 1x1 grids that agree in the first grid only *)
Lemma filter_acts_blockwise_witness :
  exists xs xs',
    filtered_spectrum rfft2_point (small_filter 1)
      (mkTensor [2; 1; 1; 1] (fun idx => Z.of_nat (default 0 (idx !! 0)))) = Ok xs /\
    filtered_spectrum rfft2_point (small_filter 1) (const_tensor [2; 1; 1; 1] 0)
      = Ok xs' /\
    forall o, o < block_size (small_filter 1) ->
      re xs [0; 0; 0; 0 * block_size (small_filter 1) + o]
      = re xs' [0; 0; 0; 0 * block_size (small_filter 1) + o] /\
      im xs [0; 0; 0; 0 * block_size (small_filter 1) + o]
      = im xs' [0; 0; 0; 0 * block_size (small_filter 1) + o].
Proof.
  apply (filter_acts_blockwise (NR:=Z_Num) rfft2_point
           1 1 1%Z 1 1 w1_small b1_small w2_small b2_small (small_filter 1)
           (mkTensor [2; 1; 1; 1] (fun idx => Z.of_nat (default 0 (idx !! 0))))
           (const_tensor [2; 1; 1; 1] 0) 2 1 1 0 0 0 0
           eq_refl eq_refl eq_refl eq_refl ltac:(lia) ltac:(lia)
           ltac:(lia) ltac:(lia) ltac:(cbn; lia) ltac:(cbn; lia)).
  intros i Hi. split; reflexivity.
Defined.

(** ** Shapes of tensor operations *)

Section ShapeFacts.
Context {R : Type} {NR : Num R}.

Lemma broadcast_rev_same (r : list nat) : broadcast_rev r r = Some r.
Proof.
  induction r as [|d r IH]; [done|]. cbn. unfold broadcast_dim.
  rewrite bool_decide_true by done. cbn. by rewrite IH.
Qed.

Lemma broadcast_shapes_same (s : list nat) : broadcast_shapes s s = Some s.
Proof.
  unfold broadcast_shapes. rewrite broadcast_rev_same. cbn. by rewrite reverse_involutive.
Qed.

Lemma broadcast_rev_batch (r : list nat) (B : nat) :
  broadcast_rev (r ++ [B]) (r ++ [1]) = Some (r ++ [B]).
Proof.
  induction r as [|d r IH].
  - cbn. unfold broadcast_dim. repeat case_bool_decide; subst; done.
  - cbn. unfold broadcast_dim at 1. rewrite bool_decide_true by done. cbn.
    by rewrite IH.
Qed.

Lemma broadcast_shapes_batch (s : list nat) (B : nat) :
  broadcast_shapes (B :: s) (1 :: s) = Some (B :: s).
Proof.
  unfold broadcast_shapes. rewrite !reverse_cons, broadcast_rev_batch. cbn.
  by rewrite reverse_app, reverse_involutive.
Qed.

Lemma tadd_same_shape (a b : tensor R) :
  shape a = shape b ->
  exists y, tadd a b = Ok y /\ shape y = shape a /\
    forall idx, in_bounds (shape a) idx -> data y idx = radd (data a idx) (data b idx).
Proof.
  intros Hs. unfold tadd. rewrite <- Hs, broadcast_shapes_same.
  eexists. split; [done|]. split; [done|]. intros idx Hidx. cbn.
  by rewrite broadcast_index_same.
Qed.

Lemma tadd_batch (a b : tensor R) (B : nat) (s : list nat) :
  shape a = B :: s -> shape b = 1 :: s ->
  exists y, tadd a b = Ok y /\ shape y = B :: s.
Proof.
  intros Ha Hb. unfold tadd. rewrite Ha, Hb, broadcast_shapes_batch.
  eexists. split; done.
Qed.

Lemma reshape_Ok (s' : list nat) (x : tensor R) :
  numel s' = numel (shape x) ->
  exists y, reshape s' x = Ok y /\ shape y = s'.
Proof.
  intros Hn. unfold reshape. rewrite bool_decide_true by done. by eexists.
Qed.

Lemma reshape_shape (s' : list nat) (x y : tensor R) :
  reshape s' x = Ok y -> shape y = s'.
Proof. unfold reshape. case_bool_decide; [|done]. by intros [= <-]. Qed.

End ShapeFacts.

(** ** Blocks *)

Section BlockFacts.
Context {R : Type} {NR : Num R}.
Variable rfft2_ortho : tensor R -> (list nat -> R) * (list nat -> R).
Variable irfft2_ortho : nat * nat -> ctensor R -> list nat -> R.

Lemma AFNO2D_forward_Ok hs nb lam frac f w1v b1v w2v b2v
    (m : AFNO2D R) (x : tensor R) (B H W : nat) :
  AFNO2D_init hs nb lam frac f w1v b1v w2v b2v = Ok m ->
  rltb lam rzero = false ->
  shape x = [B; H; W; hs] -> 0 < H -> 0 < W ->
  exists y, AFNO2D_forward rfft2_ortho irfft2_ortho m x = Ok y /\ shape y = shape x.
Proof.
  intros Hinit Hlam Hs HH HW.
  destruct (filtered_spectrum_entries rfft2_ortho _ _ _ _ _ _ _ _ _ m x B H W
              Hinit Hlam Hs HH HW) as (xs & Hxs & _).
  unfold AFNO2D_forward, correction. rewrite Hs, Hxs. cbn. by eexists.
Qed.

Lemma Block_forward_Ok dim nb lam frac (p : Block.parts R) (blk : Block.t R)
    (x : tensor R) (B H W : nat) :
  Block.init dim nb lam frac p = Ok blk ->
  rltb lam rzero = false ->
  block_parts_shapes p ->
  shape x = [B; H; W; dim] -> 0 < H -> 0 < W ->
  exists f s d y,
    Block.norm1 blk x ≫= AFNO2D_forward rfft2_ortho irfft2_ortho (Block.filter blk)
      = Ok f /\
    tadd f x = Ok s /\
    (Block.norm2 blk s ≫= Mlp.forward (Block.mlp blk)) ≫= Block.drop_path blk = Ok d /\
    Block.forward rfft2_ortho irfft2_ortho blk x = Ok y /\
    shape y = shape x /\
    forall idx, in_bounds (shape x) idx ->
      data s idx = radd (data f idx) (data x idx) /\
      data y idx = radd (data d idx) (data s idx).
Proof.
  intros Hinit Hlam (Hn1 & Hn2 & Hdp & Hmlp) Hs HH HW.
  unfold Block.init in Hinit.
  destruct (AFNO2D_init dim nb lam frac 1 (Block.p_w1 p) (Block.p_b1 p)
              (Block.p_w2 p) (Block.p_b2 p)) as [flt|e] eqn:Hflt; [|done].
  cbn in Hinit. injection Hinit as <-. cbn [Block.norm1 Block.filter Block.norm2
    Block.mlp Block.drop_path].
  destruct (Hn1 x) as (n1 & Hn1x & Hsn1).
  destruct (AFNO2D_forward_Ok _ _ _ _ _ _ _ _ _ flt n1 B H W Hflt Hlam
              ltac:(by rewrite Hsn1) HH HW) as (f & Hf & Hsf).
  destruct (tadd_same_shape f x ltac:(by rewrite Hsf)) as (s & Hadd & Hss & Hds).
  destruct (Hn2 s) as (n2 & Hn2s & Hsn2).
  destruct (Hmlp n2) as (g & Hg & Hsg).
  destruct (Hdp g) as (d & Hd & Hsd).
  destruct (tadd_same_shape d s ltac:(congruence)) as (y & Hy & Hsy & Hdy).
  exists f, s, d, y. unfold Block.forward.
  cbn [Block.norm1 Block.filter Block.norm2 Block.mlp Block.drop_path
       Block.double_skip].
  rewrite Hn1x. cbn [mbind result_bind]. rewrite Hf. cbn [mbind result_bind].
  rewrite Hadd. cbn [mbind result_bind]. rewrite Hn2s. cbn [mbind result_bind].
  rewrite Hg. cbn [mbind result_bind]. rewrite Hd. cbn [mbind result_bind].
  rewrite Hy. repeat split; try done.
  - congruence.
  - apply Hds. congruence.
  - apply Hdy. congruence.
Qed.

(** [Block.forward] with both skip connections: for a block built by the
    constructor whose library parts keep shapes, on tokens of shape
    (B, H, W, dim), the filter branch [f] is added to the input, giving
    [s = f + x]; the MLP branch [d] is computed from [s] and added to it;
    the result [d + s] has the shape of the input. *)
Theorem Block_forward_double_skip dim nb lam frac (p : Block.parts R)
    (blk : Block.t R) (x : tensor R) (B H W : nat) :
  Block.init dim nb lam frac p = Ok blk ->
  rltb lam rzero = false ->
  block_parts_shapes p ->
  shape x = [B; H; W; dim] -> 0 < H -> 0 < W ->
  Block.double_skip blk = true /\
  exists f s d y,
    Block.norm1 blk x ≫= AFNO2D_forward rfft2_ortho irfft2_ortho (Block.filter blk)
      = Ok f /\
    tadd f x = Ok s /\
    (Block.norm2 blk s ≫= Mlp.forward (Block.mlp blk)) ≫= Block.drop_path blk = Ok d /\
    Block.forward rfft2_ortho irfft2_ortho blk x = Ok y /\
    shape y = shape x /\
    forall idx, in_bounds (shape x) idx ->
      data y idx = radd (data d idx) (radd (data f idx) (data x idx)).
Proof.
  intros Hinit Hlam Hparts Hs HH HW. split.
  - unfold Block.init in Hinit.
    destruct (AFNO2D_init _ _ _ _ _ _ _ _ _) as [flt|e]; [|done].
    cbn in Hinit. by injection Hinit as <-.
  - destruct (Block_forward_Ok dim nb lam frac p blk x B H W
                Hinit Hlam Hparts Hs HH HW) as (f & s & d & y & Hf & Hadd & Hd & Hy & Hsy & Hdata).
    exists f, s, d, y. repeat split; try done.
    intros idx Hidx. destruct (Hdata idx Hidx) as [Hds Hdy]. by rewrite Hdy, Hds.
Qed.

End BlockFacts.

(** The block with identity norms and MLP over [small_filter], on a 1x1
    grid holding 3 *)
Lemma Block_forward_double_skip_witness :
  Block.double_skip plain_block = true /\
  exists f s d y,
    Block.norm1 plain_block (const_tensor [1; 1; 1; 1] 3)
      ≫= AFNO2D_forward rfft2_point irfft2_point (Block.filter plain_block) = Ok f /\
    tadd f (const_tensor [1; 1; 1; 1] 3) = Ok s /\
    (Block.norm2 plain_block s ≫= Mlp.forward (Block.mlp plain_block))
      ≫= Block.drop_path plain_block = Ok d /\
    Block.forward rfft2_point irfft2_point plain_block (const_tensor [1; 1; 1; 1] 3)
      = Ok y /\
    shape y = shape (const_tensor [1; 1; 1; 1] 3) /\
    forall idx, in_bounds (shape (const_tensor [1; 1; 1; 1] 3)) idx ->
      data y idx = radd (data d idx) (radd (data f idx)
                                        (data (const_tensor [1; 1; 1; 1] 3) idx)).
Proof.
  apply (Block_forward_double_skip (NR:=Z_Num) rfft2_point irfft2_point
           1 1 1%Z 1 plain_block_parts plain_block (const_tensor [1; 1; 1; 1] 3)
           1 1 1 eq_refl eq_refl).
  - repeat split; intros x; exists x; split; reflexivity.
  - reflexivity.
  - lia.
  - lia.
Defined.

(** ** Patch embedding *)

Section PatchEmbedFacts.
Context {R : Type} {NR : Num R}.

Lemma floordiv_Ok (a b q : nat) : floordiv a b = Ok q -> 0 < b /\ q = a / b.
Proof. destruct b; [done|]. cbn. intros [= <-]. split; [lia|done]. Qed.

Lemma PatchEmbed_init_fields (img patch : nat * nat) (proj : layer R)
    (pe : PatchEmbed.t R) :
  PatchEmbed.init img patch proj = Ok pe ->
  0 < patch.1 /\ 0 < patch.2 /\
  pe = PatchEmbed.mk img patch (img.2 / patch.2 * (img.1 / patch.1)) proj.
Proof.
  unfold PatchEmbed.init. intros Hinit.
  destruct (floordiv img.2 patch.2) as [nw|] eqn:Hw; [|done].
  destruct (floordiv img.1 patch.1) as [nh|] eqn:Hh; [|done].
  apply floordiv_Ok in Hw as [? ->]. apply floordiv_Ok in Hh as [? ->].
  cbn in Hinit. by injection Hinit as <-.
Qed.

Lemma conv2d_patch_shapes (E C p1 p2 : nat) (wt bias : list nat -> R) :
  0 < p1 -> 0 < p2 -> conv_shapes (conv2d_patch E C p1 p2 wt bias) C E p1 p2.
Proof.
  intros Hp1 Hp2 x B H W Hs H1 H2. unfold conv2d_patch. rewrite Hs.
  rewrite bool_decide_true by lia. by eexists.
Qed.

Lemma permute_021 (x : tensor R) (b n e : nat) :
  data (permute [0; 2; 1] x) [b; n; e] = data x [b; e; n].
Proof. reflexivity. Qed.

Lemma flatten_transpose_shape (z : tensor R) (B E h w : nat) :
  shape z = [B; E; h; w] ->
  exists y, flatten2 z ≫= transpose12 = Ok y /\
    shape y = [B; h * w; E] /\
    forall b n e, data y [b; n; e] = data z [b; e; n / w; n mod w].
Proof.
  intros Hs. unfold flatten2. rewrite Hs. cbn [mbind result_bind].
  unfold transpose12. cbn [shape length Nat.sub seq app].
  eexists. split; [reflexivity|]. split.
  - cbn. by rewrite Nat.mul_1_r.
  - intros b n e. rewrite permute_021. cbn [data unravel numel foldr].
    by rewrite Nat.mul_1_r, Nat.div_1_r.
Qed.

Lemma PatchEmbed_forward_Ok (img patch : nat * nat) (proj : layer R)
    (pe : PatchEmbed.t R) (C E B : nat) (x : tensor R) :
  PatchEmbed.init img patch proj = Ok pe ->
  conv_shapes proj C E patch.1 patch.2 ->
  shape x = [B; C; img.1; img.2] -> patch.1 <= img.1 -> patch.2 <= img.2 ->
  exists y, PatchEmbed.forward pe x = Ok y /\
    shape y = [B; PatchEmbed.num_patches pe; E].
Proof.
  intros Hinit Hconv Hs H1 H2.
  destruct (PatchEmbed_init_fields _ _ _ _ Hinit) as (Hp1 & Hp2 & ->).
  unfold PatchEmbed.forward. rewrite Hs. cbn [PatchEmbed.img_size PatchEmbed.proj].
  rewrite bool_decide_true by done.
  destruct (Hconv x B _ _ Hs H1 H2) as (z & -> & Hz). cbn [mbind result_bind].
  destruct (flatten_transpose_shape z _ _ _ _ Hz) as (y & Hy & Hsy & _).
  exists y. split; [exact Hy|]. rewrite Hsy. cbn. f_equal. f_equal. lia.
Qed.

(** [PatchEmbed.forward] over the patch convolution.  A tensor without
    four axes fails at the unpacking of its shape, and an image of
    another size than [img_size] fails the assertion, before the
    convolution is applied.  An image of the configured size gives
    [num_patches] tokens of [E] channels, token [n] being the patch in
    row [n / (W / p2)] and column [n mod (W / p2)] of the patch grid. *)
Theorem PatchEmbed_tokens (img patch : nat * nat) (E C : nat)
    (wt bias : list nat -> R) (pe : PatchEmbed.t R) (x : tensor R) :
  PatchEmbed.init img patch (conv2d_patch E C patch.1 patch.2 wt bias) = Ok pe ->
  (length (shape x) <> 4 -> PatchEmbed.forward pe x = Raise ValueError) /\
  (forall B C' H W, shape x = [B; C'; H; W] -> (H, W) <> img ->
     PatchEmbed.forward pe x = Raise AssertionError) /\
  (forall B, shape x = [B; C; img.1; img.2] ->
     patch.1 <= img.1 -> patch.2 <= img.2 ->
     exists z y,
       conv2d_patch E C patch.1 patch.2 wt bias x = Ok z /\
       PatchEmbed.forward pe x = Ok y /\
       shape y = [B; PatchEmbed.num_patches pe; E] /\
       forall b n e,
         data y [b; n; e]
         = data z [b; e; n / (img.2 / patch.2); n mod (img.2 / patch.2)]).
Proof.
  intros Hinit.
  destruct (PatchEmbed_init_fields _ _ _ _ Hinit) as (Hp1 & Hp2 & ->).
  unfold PatchEmbed.forward. cbn [PatchEmbed.img_size PatchEmbed.proj
    PatchEmbed.num_patches]. repeat split.
  - intros Hlen. destruct (shape x) as [|? [|? [|? [|? [|]]]]]; cbn in Hlen; done.
  - intros B C' H W Hs Hne. rewrite Hs. rewrite bool_decide_false; [done|].
    intros [-> ->]. by destruct img.
  - intros B Hs H1 H2. rewrite Hs. rewrite bool_decide_true by done.
    destruct (conv2d_patch_shapes E C patch.1 patch.2 wt bias Hp1 Hp2 x B _ _ Hs H1 H2)
      as (z & Hz & Hsz).
    rewrite Hz. cbn [mbind result_bind].
    destruct (flatten_transpose_shape z _ _ _ _ Hsz) as (y & Hy & Hsy & Hdy).
    exists z, y. split; [done|]. split; [exact Hy|]. split; [|done].
    rewrite Hsy. f_equal. f_equal. lia.
Qed.

End PatchEmbedFacts.

(** One 4x4 image, and one 2x4 image, through [sum_embed] *)
Lemma PatchEmbed_tokens_witness :
  PatchEmbed.forward sum_embed (index_image [1; 1; 4; 4]) = Raise AssertionError /\
  exists z y,
    conv2d_patch 1 1 1 2 (fun _ => 1%Z) (fun _ => 0%Z) (index_image [1; 1; 2; 4])
      = Ok z /\
    PatchEmbed.forward sum_embed (index_image [1; 1; 2; 4]) = Ok y /\
    shape y = [1; 4; 1] /\
    forall b n e, data y [b; n; e] = data z [b; e; n / 2; n mod 2].
Proof.
  pose proof (PatchEmbed_tokens (NR:=Z_Num) (2, 4) (1, 2) 1 1
                (fun _ => 1%Z) (fun _ => 0%Z) sum_embed) as Hw.
  split.
  - exact (proj1 (proj2 (Hw (index_image [1; 1; 4; 4]) eq_refl))
             1 1 4 4 eq_refl ltac:(discriminate)).
  - exact (proj2 (proj2 (Hw (index_image [1; 1; 2; 4]) eq_refl))
             1 eq_refl ltac:(cbn; lia) ltac:(cbn; lia)).
Defined.

(** ** Construction, continued *)

Lemma mapM_result_Ok {A B} (f : A -> result B) (l : list A) (ys : list B) :
  mapM f l = Ok ys <-> Forall2 (fun a b => f a = Ok b) l ys.
Proof.
  revert ys. induction l as [|a l IH]; intros ys; cbn.
  - split; [intros [= <-]; constructor|]. by inversion 1.
  - split.
    + intros Hm. apply bind_Ok in Hm as (y & Hy & Hm).
      apply bind_Ok in Hm as (k & Hk & [= <-]). constructor; [done|]. by apply IH.
    + inversion 1 as [|? b ? k Hy Hk]; subst. rewrite Hy. cbn.
      apply IH in Hk. by rewrite Hk.
Qed.

Section InitFacts.
Context {R : Type} {NR : Num R}.

Lemma Block_init_fields dim nb lam frac (p : Block.parts R) (blk : Block.t R) :
  Block.init dim nb lam frac p = Ok blk ->
  exists flt,
    AFNO2D_init dim nb lam frac 1 (Block.p_w1 p) (Block.p_b1 p) (Block.p_w2 p)
      (Block.p_b2 p) = Ok flt /\
    blk = Block.mk (Block.p_norm1 p) flt (Block.p_drop_path p) (Block.p_norm2 p)
            (Mlp.mk (Block.p_fc1 p) (Block.p_act p) (Block.p_fc2 p) (Block.p_drop p))
            true.
Proof.
  unfold Block.init. intros Hinit. apply bind_Ok in Hinit as (flt & Hflt & [= <-]).
  by exists flt.
Qed.

(** What a successful construction establishes, in the source's names *)
Lemma AFNONet_init_fields (a : AFNONet.args R) (m : AFNONet.t R) :
  AFNONet.init a = Ok m ->
  let patch_size :=
    (default (AFNONet.a_patch_size a).1 (AFNONet.a_params_patch_size a),
     default (AFNONet.a_patch_size a).2 (AFNONet.a_params_patch_size a)) in
  let output_time_dim :=
    match AFNONet.a_output_time_dim a with
    | Some o => Some o
    | None => AFNONet.a_input_time_dim a
    end in
  exists input_patch_embed_dim output_patch_embed_dim patch_embed blocks,
    match AFNONet.a_input_time_dim a, output_time_dim with
    | Some i, Some o =>
        0 < i /\ AFNONet.a_embed_dim a mod i = 0 /\
        0 < o /\ AFNONet.a_embed_dim a mod o = 0 /\
        input_patch_embed_dim = AFNONet.a_embed_dim a / i /\
        output_patch_embed_dim = AFNONet.a_embed_dim a / o
    | Some _, None => False
    | None, _ =>
        input_patch_embed_dim = AFNONet.a_embed_dim a /\
        output_patch_embed_dim = AFNONet.a_embed_dim a
    end /\
    PatchEmbed.init (AFNONet.a_img_size a) patch_size (AFNONet.a_proj a)
      = Ok patch_embed /\
    0 < patch_size.1 /\ 0 < patch_size.2 /\
    Forall2 (fun p b =>
               Block.init (AFNONet.a_embed_dim a) (AFNONet.a_num_blocks a)
                 (AFNONet.a_sparsity_threshold a)
                 (AFNONet.a_hard_thresholding_fraction a) p = Ok b)
            (AFNONet.a_blocks a) blocks /\
    m = AFNONet.mk (AFNONet.a_img_size a) patch_size
          (default (AFNONet.a_in_chans a) (AFNONet.a_params_N_in_channels a))
          (default (AFNONet.a_out_chans a) (AFNONet.a_params_N_out_channels a))
          (AFNONet.a_input_time_dim a) output_time_dim
          (bool_decide (AFNONet.a_input_time_dim a <> None))
          (AFNONet.a_embed_dim a) (AFNONet.a_num_blocks a)
          (AFNONet.a_use_dilated_conv_blocks a) (AFNONet.a_autoregressive_steps a)
          (AFNONet.a_output_only_last a) (AFNONet.a_target_variable_index a)
          output_patch_embed_dim patch_embed
          (mkTensor [1; PatchEmbed.num_patches patch_embed; input_patch_embed_dim]
             (AFNONet.a_pos_embed a))
          (AFNONet.a_pos_drop a)
          ((AFNONet.a_img_size a).1 / patch_size.1)
          ((AFNONet.a_img_size a).2 / patch_size.2)
          blocks (AFNONet.a_head a)
          (if AFNONet.a_use_dilated_conv_blocks a
           then Some (AFNONet.a_crop_layer a) else None).
Proof.
  intros Hinit ps otd. unfold AFNONet.init in Hinit.
  apply bind_Ok in Hinit as ([d1 d2] & Hd & Hinit).
  apply bind_Ok in Hinit as (pe & Hpe & Hinit).
  apply bind_Ok in Hinit as (h & Hh & Hinit).
  apply bind_Ok in Hinit as (w & Hw & Hinit).
  apply bind_Ok in Hinit as (blks & Hblks & [= <-]).
  apply floordiv_Ok in Hh as [Hp1 ->]. apply floordiv_Ok in Hw as [Hp2 ->].
  apply mapM_result_Ok in Hblks.
  exists d1, d2, pe, blks. split; [|done].
  subst otd. destruct (AFNONet.a_input_time_dim a) as [i|].
  - rewrite bool_decide_true in Hd by done.
    destruct (AFNONet.a_output_time_dim a) as [o|].
    + apply bind_Ok in Hd as (u1 & H1 & Hd). apply bind_Ok in Hd as (u2 & H2 & [= <- <-]).
      apply assert_divisible_Ok in H1, H2. destruct H1, H2. repeat split; done.
    + apply bind_Ok in Hd as (u1 & H1 & Hd). apply bind_Ok in Hd as (u2 & H2 & [= <- <-]).
      apply assert_divisible_Ok in H1. destruct H1. repeat split; done.
  - rewrite bool_decide_false in Hd by (intros Hn; by apply Hn). injection Hd as <- <-.
    by destruct (AFNONet.a_output_time_dim a).
Qed.

(** [AFNONet.__init__], when it returns, has built a consistent model:
    the patch size is positive in both directions and square when
    [params] carries a patch size; the token grid [h] x [w] has
    [num_patches] cells; [output_time_dim] falls back to
    [input_time_dim]; the width of the patch embedding times
    [input_time_dim], and the width of the head's input times
    [output_time_dim], give back [embed_dim]; an [output_time_dim] given
    without [input_time_dim] is stored but not checked; there is one
    block per entry of the depth, each with a filter over [embed_dim]
    channels; and the crop layer exists exactly when
    [use_dilated_conv_blocks] is set. *)
Theorem AFNONet_init_invariants (a : AFNONet.args R) (m : AFNONet.t R) :
  AFNONet.init a = Ok m ->
  (0 < (AFNONet.patch_size m).1 /\ 0 < (AFNONet.patch_size m).2) /\
  (forall k, AFNONet.a_params_patch_size a = Some k -> AFNONet.patch_size m = (k, k)) /\
  (AFNONet.h m = (AFNONet.img_size m).1 / (AFNONet.patch_size m).1 /\
   AFNONet.w m = (AFNONet.img_size m).2 / (AFNONet.patch_size m).2 /\
   PatchEmbed.num_patches (AFNONet.patch_embed m) = AFNONet.h m * AFNONet.w m) /\
  (forall i, AFNONet.input_time_dim m = Some i ->
     AFNONet.has_time_dim m = true /\
     exists o, AFNONet.output_time_dim m = Some o /\
       (AFNONet.a_output_time_dim a = None -> o = i) /\
       shape (AFNONet.pos_embed m)
       = [1; AFNONet.h m * AFNONet.w m; AFNONet.embed_dim m / i] /\
       AFNONet.embed_dim m / i * i = AFNONet.embed_dim m /\
       AFNONet.output_patch_embed_dim m * o = AFNONet.embed_dim m) /\
  (AFNONet.input_time_dim m = None ->
     AFNONet.has_time_dim m = false /\
     AFNONet.output_time_dim m = AFNONet.a_output_time_dim a /\
     shape (AFNONet.pos_embed m)
     = [1; AFNONet.h m * AFNONet.w m; AFNONet.embed_dim m] /\
     AFNONet.output_patch_embed_dim m = AFNONet.embed_dim m) /\
  (length (AFNONet.blocks m) = length (AFNONet.a_blocks a) /\
   Forall (fun b => hidden_size (Block.filter b) = AFNONet.embed_dim m /\
                    Block.double_skip b = true)
          (AFNONet.blocks m)) /\
  (AFNONet.crop_layer m = None <-> AFNONet.use_dilated_conv_blocks m = false).
Proof.
  intros Hinit.
  destruct (AFNONet_init_fields a m Hinit)
    as (ipe & ope & pe & blks & Htime & Hpe & Hp1 & Hp2 & Hblks & ->).
  destruct (PatchEmbed_init_fields _ _ _ _ Hpe) as (_ & _ & ->).
  cbn [AFNONet.patch_size AFNONet.h AFNONet.w AFNONet.img_size AFNONet.patch_embed
       AFNONet.input_time_dim AFNONet.output_time_dim AFNONet.has_time_dim
       AFNONet.pos_embed AFNONet.embed_dim AFNONet.output_patch_embed_dim
       AFNONet.blocks AFNONet.crop_layer AFNONet.use_dilated_conv_blocks
       PatchEmbed.num_patches shape].
  split; [done|]. split; [by intros k ->|]. split; [by rewrite Nat.mul_comm|].
  split; [|split; [|split]].
  - intros i Hi. rewrite Hi in Htime |- *. split; [by rewrite bool_decide_true|].
    destruct (AFNONet.a_output_time_dim a) as [o|].
    + destruct Htime as (? & Hmi & ? & Hmo & -> & ->). exists o.
      split; [done|]. split; [done|]. split; [by rewrite Nat.mul_comm|].
      split; symmetry; rewrite Nat.mul_comm; apply Nat.Div0.div_exact; done.
    + destruct Htime as (? & Hmi & ? & Hmo & -> & ->). exists i.
      split; [done|]. split; [done|]. split; [by rewrite Nat.mul_comm|].
      split; symmetry; rewrite Nat.mul_comm; apply Nat.Div0.div_exact; done.
  - intros Hi. rewrite Hi in Htime |- *. destruct Htime as [-> ->].
    split; [by rewrite bool_decide_false by (intros Hn; by apply Hn)|].
    split; [by destruct (AFNONet.a_output_time_dim a)|].
    split; [by rewrite Nat.mul_comm|done].
  - split; [symmetry; by eapply Forall2_length|].
    apply Forall_forall. intros b Hb.
    apply list_elem_of_lookup in Hb as [j Hj].
    destruct (Forall2_lookup_r _ _ _ _ _ Hblks Hj) as (p & _ & Hp).
    apply Block_init_fields in Hp as (flt & Hflt & ->). cbn. split; [|done].
    unfold AFNO2D_init in Hflt. apply bind_Ok in Hflt as (u & _ & [= <-]). done.
  - by destruct (AFNONet.a_use_dilated_conv_blocks a).
Qed.

(** Which error [AFNONet.__init__] raises: an [input_time_dim] of 0 is a
    division by zero, not a failed assertion; an [embed_dim] that
    [input_time_dim] does not divide fails the assertion; once the time
    dimensions are accepted, a patch size of 0 is a division by zero in the
    patch embedding. *)
Theorem AFNONet_init_errors (a : AFNONet.args R) :
  (AFNONet.a_input_time_dim a = Some 0 ->
     AFNONet.init a = Raise ZeroDivisionError) /\
  (forall i, AFNONet.a_input_time_dim a = Some i -> 0 < i ->
     AFNONet.a_embed_dim a mod i <> 0 ->
     AFNONet.init a = Raise AssertionError) /\
  (forall i, AFNONet.a_input_time_dim a = Some i -> 0 < i ->
     AFNONet.a_embed_dim a mod i = 0 ->
     (AFNONet.a_output_time_dim a = Some 0 ->
        AFNONet.init a = Raise ZeroDivisionError) /\
     (forall o, AFNONet.a_output_time_dim a = Some o -> 0 < o ->
        AFNONet.a_embed_dim a mod o <> 0 ->
        AFNONet.init a = Raise AssertionError)) /\
  (AFNONet.a_input_time_dim a = None ->
   default (AFNONet.a_patch_size a).1 (AFNONet.a_params_patch_size a) = 0 \/
   default (AFNONet.a_patch_size a).2 (AFNONet.a_params_patch_size a) = 0 ->
   AFNONet.init a = Raise ZeroDivisionError).
Proof.
  unfold AFNONet.init. split; [|split; [|split]].
  - intros ->. rewrite bool_decide_true by done.
    by destruct (AFNONet.a_output_time_dim a).
  - intros i -> Hi Hmod. rewrite bool_decide_true by done.
    assert (Ha : assert_divisible (AFNONet.a_embed_dim a) i = Raise AssertionError).
    { destruct i; [lia|]. cbn. by rewrite bool_decide_false. }
    destruct (AFNONet.a_output_time_dim a); by rewrite Ha.
  - intros i -> Hi Hmod. rewrite bool_decide_true by done.
    assert (Ha : assert_divisible (AFNONet.a_embed_dim a) i = Ok tt).
    { destruct i; [lia|]. cbn. by rewrite bool_decide_true. }
    split.
    + intros ->. by rewrite Ha.
    + intros o -> Ho Hmodo.
      assert (Hb : assert_divisible (AFNONet.a_embed_dim a) o = Raise AssertionError).
      { destruct o; [lia|]. cbn. by rewrite bool_decide_false. }
      by rewrite Ha, Hb.
  - intros -> Hp. rewrite bool_decide_false by (intros Hn; by apply Hn). cbn [mbind result_bind].
    unfold PatchEmbed.init. cbn [fst snd].
    destruct Hp as [Hp|Hp].
    + destruct (floordiv _ _) as [nw|[]] eqn:Hw; cbn;
        try (by destruct (default (AFNONet.a_patch_size a).2 _)).
      rewrite Hp. done.
    + rewrite Hp. done.
Qed.

End InitFacts.

(** The network on a 1x1 grid with [input_time_dim = 2],
    [output_time_dim = 1] and [embed_dim = 2] *)
Lemma AFNONet_init_invariants_witness :
  exists m, AFNONet.init (point_args 1 2 (Some 2) (Some 1) 2 false) = Ok m /\
    AFNONet.patch_size m = (1, 1) /\
    PatchEmbed.num_patches (AFNONet.patch_embed m) = AFNONet.h m * AFNONet.w m /\
    AFNONet.has_time_dim m = true /\
    shape (AFNONet.pos_embed m) = [1; AFNONet.h m * AFNONet.w m; 2 / 2] /\
    AFNONet.output_patch_embed_dim m * 1 = 2.
Proof.
  eexists. split; [reflexivity|].
  match goal with
  | |- AFNONet.patch_size ?m = _ /\ _ =>
      pose proof (AFNONet_init_invariants
                    (point_args 1 2 (Some 2) (Some 1) 2 false) m eq_refl)
        as (_ & _ & (_ & _ & Hn) & Htime & _)
  end.
  destruct (Htime 2 eq_refl) as (Ht & o & Ho & _ & Hpos & _ & Hout).
  injection Ho as <-. repeat split; done.
Defined.

(** An [input_time_dim] of 0, and an [embed_dim] of 3 with
    [input_time_dim = 2] *)
Lemma AFNONet_init_errors_witness :
  AFNONet.init (point_args 1 2 (Some 0) None 1 false) = Raise ZeroDivisionError /\
  AFNONet.init (point_args 1 3 (Some 2) None 1 false) = Raise AssertionError.
Proof.
  split.
  - exact (proj1 (AFNONet_init_errors
                    (point_args 1 2 (Some 0) None 1 false)) eq_refl).
  - exact (proj1 (proj2 (AFNONet_init_errors
                    (point_args 1 3 (Some 2) None 1 false)))
             2 eq_refl ltac:(lia) ltac:(discriminate)).
Defined.

(** ** Shapes through the network *)

Section EinopsShapes.
Context {R : Type} {NR : Num R}.

Lemma fuse_batch_time_shape (x : tensor R) (b c t h w : nat) :
  shape x = [b; c; t; h; w] ->
  exists y, fuse_batch_time x = Ok y /\ shape y = [b * t; c; h; w].
Proof.
  intros Hs. unfold fuse_batch_time. rewrite Hs. apply reshape_Ok.
  unfold permute, dim. cbn [shape]. rewrite Hs. cbn. lia.
Qed.

Lemma fold_time_shape (x : tensor R) (b t h w c : nat) :
  shape x = [b * t; h * w; c] -> 0 < t ->
  exists y, fold_time h w t x = Ok y /\ shape y = [b; h; w; c * t].
Proof.
  intros Hs Ht. unfold fold_time. rewrite Hs.
  rewrite bool_decide_false by (rewrite Nat.Div0.mod_mul; lia).
  rewrite Nat.div_mul by lia.
  destruct (reshape_Ok [b; t; h; w; c] x) as (y & -> & Hy).
  { rewrite Hs. cbn. lia. }
  cbn [mbind result_bind]. apply reshape_Ok.
  unfold permute, dim. cbn [shape]. rewrite Hy. cbn. lia.
Qed.

Lemma unfold_time_shape (x : tensor R) (b h w c t : nat) :
  shape x = [b; h; w; c * t] -> 0 < t ->
  exists y, unfold_time t x = Ok y /\ shape y = [b; t; h; w; c].
Proof.
  intros Hs Ht. unfold unfold_time. rewrite Hs.
  rewrite bool_decide_false by (rewrite Nat.Div0.mod_mul; lia).
  rewrite Nat.div_mul by lia.
  destruct (reshape_Ok [b; h; w; c; t] x) as (y & -> & Hy).
  { rewrite Hs. cbn. lia. }
  cbn [mbind result_bind]. eexists. split; [done|].
  unfold permute, dim. cbn [shape]. rewrite Hy. done.
Qed.

Lemma unpatch_shape (x : tensor R) (p1 p2 h w b c : nat) :
  shape x = [b; h; w; c * p1 * p2] -> 0 < p1 -> 0 < p2 ->
  exists y, unpatch false p1 p2 h w x = Ok y /\ shape y = [b; c; h * p1; w * p2].
Proof.
  intros Hs H1 H2. unfold unpatch. rewrite Hs.
  assert (Hd : c * p1 * p2 = c * (p1 * p2)) by lia.
  rewrite bool_decide_false
    by (rewrite Hd, Nat.Div0.mod_mul; nia).
  rewrite Hd, Nat.div_mul by nia.
  destruct (reshape_Ok [b; h; w; p1; p2; c] x) as (y & -> & Hy).
  { rewrite Hs. cbn. lia. }
  cbn [mbind result_bind]. apply reshape_Ok.
  unfold permute, dim. cbn [shape]. rewrite Hy. cbn. lia.
Qed.

Lemma unpatch_time_shape (x : tensor R) (p1 p2 h w b t c : nat) :
  shape x = [b; t; h; w; c * p1 * p2] -> 0 < p1 -> 0 < p2 ->
  exists y, unpatch true p1 p2 h w x = Ok y /\ shape y = [b; c; t; h * p1; w * p2].
Proof.
  intros Hs H1 H2. unfold unpatch. rewrite Hs.
  assert (Hd : c * p1 * p2 = c * (p1 * p2)) by lia.
  rewrite bool_decide_false
    by (rewrite Hd, Nat.Div0.mod_mul; nia).
  rewrite Hd, Nat.div_mul by nia.
  destruct (reshape_Ok [b; t; h; w; p1; p2; c] x) as (y & -> & Hy).
  { rewrite Hs. cbn. lia. }
  cbn [mbind result_bind]. apply reshape_Ok.
  unfold permute, dim. cbn [shape]. rewrite Hy. cbn. lia.
Qed.

Lemma unpatch_rank (time : bool) (p1 p2 h w : nat) (x y : tensor R) :
  unpatch time p1 p2 h w x = Ok y ->
  length (shape y) = if time then 5 else 4.
Proof.
  unfold unpatch. destruct time.
  - destruct (shape x) as [|? [|? [|? [|? [|? [|]]]]]]; try done.
    case_bool_decide; [done|]. intros Hy.
    apply bind_Ok in Hy as (z & _ & Hy). apply reshape_shape in Hy. by rewrite Hy.
  - destruct (shape x) as [|? [|? [|? [|? [|]]]]]; try done.
    case_bool_decide; [done|]. intros Hy.
    apply bind_Ok in Hy as (z & _ & Hy). apply reshape_shape in Hy. by rewrite Hy.
Qed.

End EinopsShapes.
Section StepShapes.
Context {R : Type} {NR : Num R}.
Variable rfft2_ortho : tensor R -> (list nat -> R) * (list nat -> R).
Variable irfft2_ortho : nat * nat -> ctensor R -> list nat -> R.

Lemma apply_blocks_shape dim nb lam frac (ps : list (Block.parts R))
    (blks : list (Block.t R)) (x : tensor R) (B H W : nat) :
  Forall2 (fun p b => Block.init dim nb lam frac p = Ok b) ps blks ->
  Forall block_parts_shapes ps ->
  (ps <> [] -> rltb lam rzero = false) ->
  shape x = [B; H; W; dim] -> 0 < H -> 0 < W ->
  exists y, AFNONet.apply_blocks rfft2_ortho irfft2_ortho blks x = Ok y /\
    shape y = [B; H; W; dim].
Proof.
  intros Hinit Hparts Hlam Hs HH HW. revert x Hs.
  induction Hinit as [|p blk ps blks Hp Hrest IH]; intros x Hs.
  - by exists x.
  - apply Forall_cons in Hparts as [Hp1 Hps].
    destruct (Block_forward_Ok rfft2_ortho irfft2_ortho dim nb lam frac p blk x B H W
                Hp (Hlam ltac:(done)) Hp1 Hs HH HW)
      as (_ & _ & _ & y & _ & _ & _ & Hy & Hsy & _).
    cbn [AFNONet.apply_blocks]. rewrite Hy. cbn [mbind result_bind].
    assert (Hlam' : rltb lam rzero = false) by (by apply Hlam).
    apply (IH Hps (fun _ => Hlam')). congruence.
Qed.

Lemma forward_features_shape (a : AFNONet.args R) (m : AFNONet.t R)
    (x : tensor R) (B : nat) :
  AFNONet.init a = Ok m ->
  args_layers_shapes a ->
  AFNONet.input_time_dim m = None ->
  (AFNONet.patch_size m).1 <= (AFNONet.img_size m).1 ->
  (AFNONet.patch_size m).2 <= (AFNONet.img_size m).2 ->
  shape x = [B; AFNONet.in_chans m; (AFNONet.img_size m).1; (AFNONet.img_size m).2] ->
  exists y, AFNONet.forward_features rfft2_ortho irfft2_ortho m x = Ok y /\
    shape y = [B; AFNONet.h m; AFNONet.w m; AFNONet.embed_dim m].
Proof.
  intros Hinit (Hconv & Hdrop & Hparts & Hlam & _) Hi H1 H2 Hs.
  destruct (AFNONet_init_fields a m Hinit)
    as (ipe & ope & pe & blks & Htime & Hpe & Hp1 & Hp2 & Hblks & ->).
  cbn [AFNONet.input_time_dim AFNONet.patch_size AFNONet.img_size AFNONet.in_chans
       AFNONet.h AFNONet.w AFNONet.embed_dim fst snd] in *.
  rewrite Hi in Htime, Hconv. destruct Htime as [-> _]. cbn [default] in Hconv.
  rewrite Nat.div_1_r in Hconv.
  unfold AFNONet.forward_features.
  cbn [AFNONet.has_time_dim AFNONet.patch_embed AFNONet.pos_embed AFNONet.pos_drop
       AFNONet.h AFNONet.w AFNONet.embed_dim AFNONet.blocks AFNONet.input_time_dim].
  rewrite Hi. rewrite bool_decide_false by (intros Hn; by apply Hn).
  rewrite Hs. cbn [Py.item lookup list_lookup mbind result_bind].
  destruct (PatchEmbed_forward_Ok _ _ _ pe _ _ B x Hpe Hconv Hs H1 H2)
    as (y1 & -> & Hy1).
  cbn [mbind result_bind].
  destruct (tadd_batch y1 (mkTensor [1; PatchEmbed.num_patches pe; AFNONet.a_embed_dim a]
                             (AFNONet.a_pos_embed a)) B _ Hy1 eq_refl)
    as (y2 & -> & Hy2).
  cbn [mbind result_bind]. destruct (Hdrop y2) as (y3 & -> & Hy3).
  cbn [mbind result_bind].
  destruct (PatchEmbed_init_fields _ _ _ _ Hpe) as (_ & _ & ->).
  cbn [PatchEmbed.num_patches] in *.
  destruct (reshape_Ok [B; (AFNONet.a_img_size a).1 / default (AFNONet.a_patch_size a).1
                              (AFNONet.a_params_patch_size a);
                        (AFNONet.a_img_size a).2 / default (AFNONet.a_patch_size a).2
                              (AFNONet.a_params_patch_size a);
                        AFNONet.a_embed_dim a] y3) as (y4 & -> & Hy4).
  { rewrite Hy3, Hy2. cbn. lia. }
  cbn [mbind result_bind].
  destruct (apply_blocks_shape _ _ _ _ _ blks y4 _ _ _ Hblks Hparts Hlam Hy4)
    as (y5 & -> & Hy5).
  - apply Nat.div_str_pos. lia.
  - apply Nat.div_str_pos. lia.
  - by exists y5.
Qed.

Lemma forward_features_shape_time (a : AFNONet.args R) (m : AFNONet.t R)
    (x : tensor R) (B i o : nat) :
  AFNONet.init a = Ok m ->
  args_layers_shapes a ->
  AFNONet.input_time_dim m = Some i ->
  AFNONet.output_time_dim m = Some o ->
  (AFNONet.patch_size m).1 <= (AFNONet.img_size m).1 ->
  (AFNONet.patch_size m).2 <= (AFNONet.img_size m).2 ->
  shape x = [B; AFNONet.in_chans m; i; (AFNONet.img_size m).1; (AFNONet.img_size m).2] ->
  exists y, AFNONet.forward_features rfft2_ortho irfft2_ortho m x = Ok y /\
    shape y = [B; o; AFNONet.h m; AFNONet.w m; AFNONet.output_patch_embed_dim m].
Proof.
  intros Hinit (Hconv & Hdrop & Hparts & Hlam & _) Hi Ho H1 H2 Hs.
  destruct (AFNONet_init_fields a m Hinit)
    as (ipe & ope & pe & blks & Htime & Hpe & Hp1 & Hp2 & Hblks & ->).
  cbn [AFNONet.input_time_dim AFNONet.output_time_dim AFNONet.patch_size
       AFNONet.img_size AFNONet.in_chans AFNONet.output_patch_embed_dim
       AFNONet.h AFNONet.w AFNONet.embed_dim fst snd] in *.
  rewrite Hi in Ho. rewrite Hi, Ho in Htime. rewrite Hi in Hconv.
  destruct Htime as (Hipos & Himod & Hopos & Homod & -> & ->).
  cbn [from_option id] in Hconv.
  unfold AFNONet.forward_features.
  cbn [AFNONet.has_time_dim AFNONet.patch_embed AFNONet.pos_embed AFNONet.pos_drop
       AFNONet.h AFNONet.w AFNONet.embed_dim AFNONet.blocks AFNONet.input_time_dim
       AFNONet.output_time_dim].
  rewrite Hi, Ho. rewrite bool_decide_true by done.
  rewrite Hs. cbn [Py.item lookup list_lookup mbind result_bind].
  destruct (fuse_batch_time_shape x _ _ _ _ _ Hs) as (y0 & -> & Hy0).
  cbn [mbind result_bind].
  destruct (PatchEmbed_forward_Ok _ _ _ pe _ _ (B * i) y0 Hpe Hconv Hy0 H1 H2)
    as (y1 & -> & Hy1).
  cbn [mbind result_bind].
  destruct (tadd_batch y1 (mkTensor [1; PatchEmbed.num_patches pe;
                                     AFNONet.a_embed_dim a / i]
                             (AFNONet.a_pos_embed a)) (B * i) _ Hy1 eq_refl)
    as (y2 & -> & Hy2).
  cbn [mbind result_bind]. destruct (Hdrop y2) as (y3 & -> & Hy3).
  cbn [mbind result_bind].
  destruct (PatchEmbed_init_fields _ _ _ _ Hpe) as (_ & _ & ->).
  cbn [PatchEmbed.num_patches fst snd] in *.
  rewrite Hy2, (Nat.mul_comm (_ / _) (_ / _)) in Hy3.
  destruct (fold_time_shape y3 _ _ _ _ _ Hy3 Hipos) as (y4 & -> & Hy4).
  cbn [mbind result_bind].
  assert (Hei : AFNONet.a_embed_dim a / i * i = AFNONet.a_embed_dim a).
  { symmetry. rewrite Nat.mul_comm. by apply Nat.Div0.div_exact. }
  assert (Heo : AFNONet.a_embed_dim a / o * o = AFNONet.a_embed_dim a).
  { symmetry. rewrite Nat.mul_comm. by apply Nat.Div0.div_exact. }
  rewrite Hei in Hy4.
  destruct (apply_blocks_shape _ _ _ _ _ blks y4 _ _ _ Hblks Hparts Hlam Hy4)
    as (y5 & -> & Hy5).
  - apply Nat.div_str_pos. lia.
  - apply Nat.div_str_pos. lia.
  - cbn [mbind result_bind]. rewrite <- Heo in Hy5.
    exact (unfold_time_shape y5 _ _ _ _ _ Hy5 Hopos).
Qed.

Lemma forward_head_shape (a : AFNONet.args R) (m : AFNONet.t R)
    (x : tensor R) (pre : list nat) (B : nat) :
  AFNONet.init a = Ok m ->
  args_layers_shapes a ->
  shape x = (B :: pre) ++ [AFNONet.h m; AFNONet.w m; AFNONet.output_patch_embed_dim m] ->
  pre = match AFNONet.input_time_dim m with
        | Some _ => [default 0 (AFNONet.output_time_dim m)]
        | None => []
        end ->
  exists y, AFNONet.forward_head m x = Ok y /\
    shape y = [B; AFNONet.out_chans m] ++ pre ++
              [AFNONet.h m * (AFNONet.patch_size m).1;
               AFNONet.w m * (AFNONet.patch_size m).2].
Proof.
  intros Hinit (_ & _ & _ & _ & Hhead) Hs Hpre.
  destruct (AFNONet_init_fields a m Hinit)
    as (ipe & ope & pe & blks & Htime & Hpe & Hp1 & Hp2 & Hblks & ->).
  cbn [AFNONet.input_time_dim AFNONet.output_time_dim AFNONet.patch_size
       AFNONet.img_size AFNONet.out_chans AFNONet.output_patch_embed_dim
       AFNONet.h AFNONet.w AFNONet.embed_dim fst snd] in *.
  unfold AFNONet.forward_head.
  cbn [AFNONet.head AFNONet.img_size AFNONet.patch_size AFNONet.has_time_dim fst snd].
  assert (Hope : ope = match AFNONet.a_input_time_dim a with
                       | Some _ =>
                           AFNONet.a_embed_dim a /
                           default 1 match AFNONet.a_output_time_dim a with
                                     | Some o => Some o
                                     | None => AFNONet.a_input_time_dim a
                                     end
                       | None => AFNONet.a_embed_dim a
                       end).
  { destruct (AFNONet.a_input_time_dim a) as [i|]; [|by destruct Htime].
    destruct (AFNONet.a_output_time_dim a) as [o|];
      by destruct Htime as (_ & _ & _ & _ & _ & ->). }
  rewrite <- Hope in Hhead.
  replace ((B :: pre) ++ [(AFNONet.a_img_size a).1 / _; (AFNONet.a_img_size a).2 / _; ope])
    with ((B :: pre ++ [(AFNONet.a_img_size a).1 /
                          default (AFNONet.a_patch_size a).1 (AFNONet.a_params_patch_size a);
                        (AFNONet.a_img_size a).2 /
                          default (AFNONet.a_patch_size a).2 (AFNONet.a_params_patch_size a)])
          ++ [ope]) in Hs
    by (cbn; rewrite <- app_assoc; done).
  destruct (Hhead x _ Hs) as (y & -> & Hy). cbn [mbind result_bind].
  destruct (default (AFNONet.a_patch_size a).1 (AFNONet.a_params_patch_size a))
    as [|p1] eqn:E1; [lia|].
  destruct (default (AFNONet.a_patch_size a).2 (AFNONet.a_params_patch_size a))
    as [|p2] eqn:E2; [lia|].
  cbn [floordiv mbind result_bind].
  destruct (AFNONet.a_input_time_dim a) as [i|].
  - rewrite bool_decide_true by done. subst pre. cbn [app] in Hy |- *.
    apply (unpatch_time_shape y); [done|lia|lia].
  - rewrite bool_decide_false by (intros Hn; by apply Hn). subst pre. cbn [app] in Hy |- *.
    apply (unpatch_shape y); [done|lia|lia].
Qed.

End StepShapes.
Section StepTheorems.
Context {R : Type} {NR : Num R}.
Variable rfft2_ortho : tensor R -> (list nat -> R) * (list nat -> R).
Variable irfft2_ortho : nat * nat -> ctensor R -> list nat -> R.

Lemma forward_step_Ok (a : AFNONet.args R) (m : AFNONet.t R) (x : tensor R) (B : nat) :
  AFNONet.init a = Ok m ->
  args_layers_shapes a ->
  (AFNONet.patch_size m).1 <= (AFNONet.img_size m).1 ->
  (AFNONet.patch_size m).2 <= (AFNONet.img_size m).2 ->
  shape x = [B; AFNONet.in_chans m] ++
            match AFNONet.input_time_dim m with Some i => [i] | None => [] end ++
            [(AFNONet.img_size m).1; (AFNONet.img_size m).2] ->
  exists y, AFNONet.forward_step rfft2_ortho irfft2_ortho m x = Ok y /\
    shape y = [B; AFNONet.out_chans m] ++
              match AFNONet.input_time_dim m with
              | Some _ => [default 0 (AFNONet.output_time_dim m)]
              | None => []
              end ++
              [AFNONet.h m * (AFNONet.patch_size m).1;
               AFNONet.w m * (AFNONet.patch_size m).2].
Proof.
  intros Hinit Hlayers H1 H2 Hs. unfold AFNONet.forward_step.
  destruct (AFNONet.input_time_dim m) as [i|] eqn:Hi.
  - destruct (AFNONet_init_time a m Hinit) as [_ Ho].
    destruct (Ho i Hi) as (_ & o & Ho' & _).
    destruct (forward_features_shape_time rfft2_ortho irfft2_ortho a m x B i o
                Hinit Hlayers Hi Ho' H1 H2 Hs) as (y & -> & Hy).
    cbn [mbind result_bind]. rewrite Ho'. cbn [default from_option id].
    apply (forward_head_shape a m y [o] B Hinit Hlayers Hy).
    rewrite Hi, Ho'. done.
  - destruct (forward_features_shape rfft2_ortho irfft2_ortho a m x B
                Hinit Hlayers Hi H1 H2 Hs) as (y & -> & Hy).
    cbn [mbind result_bind].
    assert (Hope : AFNONet.output_patch_embed_dim m = AFNONet.embed_dim m).
    { destruct (AFNONet_init_fields a m Hinit)
        as (ipe & ope & pe & blks & Htime & _ & _ & _ & _ & ->).
      cbn in Hi |- *. rewrite Hi in Htime. by destruct Htime. }
    rewrite <- Hope in Hy.
    apply (forward_head_shape a m y [] B Hinit Hlayers Hy).
    by rewrite Hi.
Qed.

(** [AFNONet.forward_step] on the configured image size, with library
    layers of the shapes the constructor asks for: a batch (B, C, H, W)
    gives (B, C_out, h * p1, w * p2), and with a time dimension a batch
    (B, C, T_in, H, W) gives (B, C_out, T_out, h * p1, w * p2), where
    [h = H // p1] and [w = W // p2].  The output has the size of the
    input image exactly when the patch size divides the image size. *)
Theorem forward_step_shape (a : AFNONet.args R) (m : AFNONet.t R)
    (x : tensor R) (B : nat) :
  AFNONet.init a = Ok m ->
  args_layers_shapes a ->
  (AFNONet.patch_size m).1 <= (AFNONet.img_size m).1 ->
  (AFNONet.patch_size m).2 <= (AFNONet.img_size m).2 ->
  (AFNONet.input_time_dim m = None ->
   shape x = [B; AFNONet.in_chans m; (AFNONet.img_size m).1; (AFNONet.img_size m).2] ->
   exists y, AFNONet.forward_step rfft2_ortho irfft2_ortho m x = Ok y /\
     shape y = [B; AFNONet.out_chans m;
                AFNONet.h m * (AFNONet.patch_size m).1;
                AFNONet.w m * (AFNONet.patch_size m).2]) /\
  (forall i o,
     AFNONet.input_time_dim m = Some i -> AFNONet.output_time_dim m = Some o ->
     shape x = [B; AFNONet.in_chans m; i;
                (AFNONet.img_size m).1; (AFNONet.img_size m).2] ->
     exists y, AFNONet.forward_step rfft2_ortho irfft2_ortho m x = Ok y /\
       shape y = [B; AFNONet.out_chans m; o;
                  AFNONet.h m * (AFNONet.patch_size m).1;
                  AFNONet.w m * (AFNONet.patch_size m).2]) /\
  (AFNONet.h m * (AFNONet.patch_size m).1 <= (AFNONet.img_size m).1 /\
   AFNONet.w m * (AFNONet.patch_size m).2 <= (AFNONet.img_size m).2 /\
   (AFNONet.h m * (AFNONet.patch_size m).1 = (AFNONet.img_size m).1 /\
    AFNONet.w m * (AFNONet.patch_size m).2 = (AFNONet.img_size m).2 <->
    (AFNONet.img_size m).1 mod (AFNONet.patch_size m).1 = 0 /\
    (AFNONet.img_size m).2 mod (AFNONet.patch_size m).2 = 0)).
Proof.
  intros Hinit Hlayers H1 H2. split; [|split].
  - intros Hi Hs.
    pose proof (forward_step_Ok a m x B Hinit Hlayers H1 H2) as Hstep.
    rewrite Hi in Hstep. by apply Hstep.
  - intros i o Hi Ho Hs.
    pose proof (forward_step_Ok a m x B Hinit Hlayers H1 H2) as Hstep.
    rewrite Hi, Ho in Hstep. by apply Hstep.
  - destruct (AFNONet_init_fields a m Hinit)
      as (ipe & ope & pe & blks & _ & _ & Hp1 & Hp2 & _ & ->).
    cbn [AFNONet.h AFNONet.w AFNONet.patch_size AFNONet.img_size fst snd] in *.
    remember (default (AFNONet.a_patch_size a).1 _) as p1 eqn:Ep1.
    remember (default (AFNONet.a_patch_size a).2 _) as p2 eqn:Ep2.
    pose proof (Nat.div_mod_eq (AFNONet.a_img_size a).1 p1) as E1.
    pose proof (Nat.div_mod_eq (AFNONet.a_img_size a).2 p2) as E2.
    rewrite (Nat.mul_comm p1) in E1. rewrite (Nat.mul_comm p2) in E2.
    repeat split; lia.
Qed.

End StepTheorems.
(** ** Shapes through a rollout *)

Section Rollout.
Context {R : Type} {NR : Num R}.
Variable rfft2_ortho : tensor R -> (list nat -> R) * (list nat -> R).
Variable irfft2_ortho : nat * nat -> ctensor R -> list nat -> R.

Lemma cat_same_shapes (ts : list (tensor R)) (s : list nat) (ax d : nat) :
  ts <> [] -> Forall (fun t => shape t = s) ts -> s !! ax = Some d ->
  exists y, cat ts ax = Ok y /\ shape y = <[ax := length ts * d]> s.
Proof.
  intros Hne Hall Hd. destruct ts as [|t0 ts]; [done|]. unfold cat.
  pose proof (Forall_inv Hall) as H0.
  rewrite H0. rewrite bool_decide_true by (by eapply lookup_lt_Some).
  assert (Hcompat : forallb (fun t => cat_compatible ax s (shape t)) (t0 :: ts) = true).
  { apply forallb_forall. intros t Ht. apply list_elem_of_In in Ht.
    rewrite Forall_forall in Hall. rewrite (Hall t Ht).
    unfold cat_compatible. by rewrite bool_decide_true. }
  rewrite Hcompat. eexists. split; [done|]. cbn [shape]. f_equal.
  clear Hne H0 Hcompat. induction Hall as [|t ts' Ht Hts IH]; [done|].
  cbn [map sum_list length]. rewrite IH. unfold dim. rewrite Ht, Hd. cbn. lia.
Qed.

Lemma get_next_input_shape (a : AFNONet.args R) (m : AFNONet.t R)
    (inputs out : tensor R) (outputs : list (tensor R)) (B C H W : nat) :
  AFNONet.init a = Ok m ->
  last outputs = Some out ->
  shape inputs = [B; C] ++
                 match AFNONet.input_time_dim m with Some i => [i] | None => [] end ++
                 [H; W] ->
  shape out = [B; C] ++
              match AFNONet.input_time_dim m with
              | Some _ => [default 0 (AFNONet.output_time_dim m)]
              | None => []
              end ++ [H; W] ->
  exists r, AFNONet.get_next_input m inputs outputs = Ok r /\ shape r = shape inputs.
Proof.
  intros Hinit Hlast Hsi Hso.
  destruct (AFNONet_init_time _ _ Hinit) as [Hhas Hpos].
  apply last_item_Some in Hlast. unfold AFNONet.get_next_input. rewrite Hhas.
  destruct (AFNONet.input_time_dim m) as [i|] eqn:Hi.
  - destruct (Hpos i eq_refl) as (Hi0 & o & Ho & Ho0). rewrite Ho in Hso |- *.
    rewrite bool_decide_true by done. cbn [negb default from_option id app] in *.
    destruct (decide (i <= o)) as [Hio|Hio].
    + rewrite (bool_decide_true (i <= o)) by done. rewrite Hlast. cbn [mbind result_bind]. unfold slice_axis. rewrite Hso.
      cbn [lookup list_lookup]. rewrite slice_tail by lia.
      eexists. split; [done|]. by rewrite Hsi.
    + rewrite (bool_decide_false (i <= o)) by done.
      unfold slice_axis. rewrite Hsi. cbn [lookup list_lookup].
      rewrite slice_from by lia. cbn [mbind result_bind]. rewrite Hlast.
      cbn [mbind result_bind]. unfold cat. cbn [shape length list_insert insert].
      rewrite bool_decide_true by lia. unfold cat_compatible.
      cbn [forallb shape list_insert insert]. rewrite Hso.
      cbn [list_insert insert]. rewrite !bool_decide_true by done.
      cbn [andb]. eexists. split; [done|]. cbn [shape map sum_list dim].
      unfold dim. cbn [shape]. rewrite Hso. cbn. do 3 f_equal. lia.
  - rewrite bool_decide_false by (intros Hn; by apply Hn). cbn [negb].
    exists out. split; [done|]. by rewrite Hso, Hsi.
Qed.

Lemma run_steps_shapes (a : AFNONet.args R) (m : AFNONet.t R) (B n : nat) :
  AFNONet.init a = Ok m ->
  args_layers_shapes a ->
  (AFNONet.patch_size m).1 <= (AFNONet.img_size m).1 ->
  (AFNONet.patch_size m).2 <= (AFNONet.img_size m).2 ->
  AFNONet.out_chans m = AFNONet.in_chans m ->
  AFNONet.h m * (AFNONet.patch_size m).1 = (AFNONet.img_size m).1 ->
  AFNONet.w m * (AFNONet.patch_size m).2 = (AFNONet.img_size m).2 ->
  forall step inputs acc,
    shape inputs = [B; AFNONet.in_chans m] ++
                   match AFNONet.input_time_dim m with Some i => [i] | None => [] end ++
                   [(AFNONet.img_size m).1; (AFNONet.img_size m).2] ->
    Forall (fun t => shape t =
                       [B; AFNONet.in_chans m] ++
                       match AFNONet.input_time_dim m with
                       | Some _ => [default 0 (AFNONet.output_time_dim m)]
                       | None => []
                       end ++ [(AFNONet.img_size m).1; (AFNONet.img_size m).2]) acc ->
    (0 < step -> acc <> []) ->
    exists outs,
      AFNONet.run_steps rfft2_ortho irfft2_ortho m n step inputs acc = Ok outs /\
      Forall (fun t => shape t =
                         [B; AFNONet.in_chans m] ++
                         match AFNONet.input_time_dim m with
                         | Some _ => [default 0 (AFNONet.output_time_dim m)]
                         | None => []
                         end ++ [(AFNONet.img_size m).1; (AFNONet.img_size m).2]) outs /\
      length outs = length acc + n.
Proof.
  intros Hinit Hlayers H1 H2 Hch Hh Hw.
  induction n as [|n IH]; intros step inputs acc Hsi Hacc Hne.
  - exists acc. cbn. split; [done|]. split; [done|lia].
  - cbn [AFNONet.run_steps].
    assert (Hnext : exists r,
              (if bool_decide (0 < step)
               then AFNONet.get_next_input m inputs acc else Ok inputs) = Ok r /\
              shape r = shape inputs).
    { case_bool_decide as Hstep; [|by exists inputs].
      destruct (last acc) as [out|] eqn:Hlast.
      - apply (get_next_input_shape a m inputs out acc B _ _ _ Hinit Hlast Hsi).
        rewrite Forall_forall in Hacc. apply Hacc. apply last_Some_elem_of. done.
      - apply last_None in Hlast. by destruct (Hne Hstep). }
    destruct Hnext as (r & -> & Hr). cbn [mbind result_bind].
    rewrite Hsi in Hr.
    destruct (forward_step_Ok rfft2_ortho irfft2_ortho a m r B Hinit Hlayers H1 H2 Hr)
      as (y & -> & Hy).
    cbn [mbind result_bind]. rewrite Hch, Hh, Hw in Hy.
    destruct (IH (S step) r (acc ++ [y]) Hr) as (outs & Houts & Hall & Hlen).
    + apply Forall_app. split; [done|]. by constructor.
    + intros _. by destruct acc.
    + exists outs. split; [done|]. split; [done|].
      rewrite Hlen, length_app. cbn. lia.
Qed.


(** [AFNONet.forward] over a rollout whose step returns what it accepts
    (as many output as input channels, a patch size that divides the
    image size), without crop and target selection: a model without time
    dimension returns (B, C, H, W) after any number of steps; a model
    with time dimension returns (B, C, T, H, W) with
    [T = autoregressive_steps * output_time_dim] frames, or
    [T = output_time_dim] with [output_only_last]. *)
Theorem forward_rollout_shape (a : AFNONet.args R) (m : AFNONet.t R)
    (x : tensor R) (B : nat) :
  AFNONet.init a = Ok m ->
  args_layers_shapes a ->
  (AFNONet.patch_size m).1 <= (AFNONet.img_size m).1 ->
  (AFNONet.patch_size m).2 <= (AFNONet.img_size m).2 ->
  AFNONet.out_chans m = AFNONet.in_chans m ->
  (AFNONet.img_size m).1 mod (AFNONet.patch_size m).1 = 0 ->
  (AFNONet.img_size m).2 mod (AFNONet.patch_size m).2 = 0 ->
  1 <= AFNONet.autoregressive_steps m ->
  AFNONet.use_dilated_conv_blocks m = false ->
  AFNONet.target_variable_index m = None ->
  shape x = [B; AFNONet.in_chans m] ++
            match AFNONet.input_time_dim m with Some i => [i] | None => [] end ++
            [(AFNONet.img_size m).1; (AFNONet.img_size m).2] ->
  exists y, AFNONet.forward rfft2_ortho irfft2_ortho m x = Ok y /\
    shape y = [B; AFNONet.in_chans m] ++
              match AFNONet.input_time_dim m with
              | Some _ =>
                  [if AFNONet.output_only_last m
                   then default 0 (AFNONet.output_time_dim m)
                   else AFNONet.autoregressive_steps m *
                        default 0 (AFNONet.output_time_dim m)]
              | None => []
              end ++ [(AFNONet.img_size m).1; (AFNONet.img_size m).2].
Proof.
  intros Hinit Hlayers H1 H2 Hch Hm1 Hm2 Hsteps Hcrop Htarget Hs.
  assert (Hhw : AFNONet.h m * (AFNONet.patch_size m).1 = (AFNONet.img_size m).1 /\
                AFNONet.w m * (AFNONet.patch_size m).2 = (AFNONet.img_size m).2).
  { destruct (AFNONet_init_fields a m Hinit)
      as (ipe & ope & pe & blks & _ & _ & Hp1 & Hp2 & _ & ->).
    cbn [AFNONet.h AFNONet.w AFNONet.patch_size AFNONet.img_size fst snd] in *.
    split; rewrite Nat.mul_comm; symmetry; by apply Nat.Div0.div_exact. }
  destruct Hhw as [Hh Hw].
  destruct (run_steps_shapes a m B (AFNONet.autoregressive_steps m)
              Hinit Hlayers H1 H2 Hch Hh Hw 0 x [] Hs ltac:(constructor) ltac:(lia))
    as (outs & Hrun & Hall & Hlen).
  unfold AFNONet.forward. rewrite Hrun. cbn [mbind result_bind length Nat.add] in *.
  assert (Hne : outs <> []) by (intros ->; cbn in Hlen; lia).
  destruct (AFNONet_init_time _ _ Hinit) as [Hhas _].
  unfold AFNONet.assemble, AFNONet.postprocess. rewrite Hcrop, Htarget, Hhas.
  destruct (AFNONet.input_time_dim m) as [i|] eqn:Hi.
  - rewrite bool_decide_true by done. destruct (AFNONet.output_only_last m).
    + cbn [negb andb]. destruct (last outs) as [y|] eqn:Hlast.
      * rewrite (last_item_Some _ _ Hlast). exists y. split; [done|].
        rewrite Forall_forall in Hall. apply Hall. by apply last_Some_elem_of.
      * by apply last_None in Hlast.
    + cbn [negb andb].
      destruct (cat_same_shapes outs _ 2 (default 0 (AFNONet.output_time_dim m))
                  Hne Hall eq_refl) as (y & -> & Hy).
      exists y. split; [done|]. rewrite Hy, Hlen. done.
  - rewrite bool_decide_false by (intros Hn; by apply Hn). cbn [andb].
    destruct (last outs) as [y|] eqn:Hlast.
    + rewrite (last_item_Some _ _ Hlast). exists y. split; [done|].
      rewrite Forall_forall in Hall. apply Hall. by apply last_Some_elem_of.
    + by apply last_None in Hlast.
Qed.

Lemma forward_features_wrong_size (m : AFNONet.t R) (r : tensor R)
    (B C H W : nat) :
  AFNONet.has_time_dim m = bool_decide (AFNONet.input_time_dim m <> None) ->
  AFNONet.img_size m = PatchEmbed.img_size (AFNONet.patch_embed m) ->
  shape r = [B; C] ++
            match AFNONet.input_time_dim m with Some i => [i] | None => [] end ++
            [H; W] ->
  (H, W) <> AFNONet.img_size m ->
  AFNONet.forward_features rfft2_ortho irfft2_ortho m r = Raise AssertionError.
Proof.
  intros Hhas Himg Hs Hne. unfold AFNONet.forward_features. rewrite Hhas, Hs.
  assert (Hpe : forall z B', shape z = [B'; C; H; W] ->
            PatchEmbed.forward (AFNONet.patch_embed m) z = Raise AssertionError).
  { intros z B' Hz. unfold PatchEmbed.forward. rewrite Hz, <- Himg.
    rewrite bool_decide_false; [done|]. intros [-> ->]. apply Hne.
    by destruct (AFNONet.img_size m). }
  destruct (AFNONet.input_time_dim m) as [i|].
  - rewrite bool_decide_true by done. cbn [app Py.item lookup list_lookup
      mbind result_bind].
    destruct (fuse_batch_time_shape r B C i H W Hs) as (z & -> & Hz).
    cbn [mbind result_bind]. by rewrite (Hpe z _ Hz).
  - rewrite bool_decide_false by (intros Hn; by apply Hn).
    cbn [app Py.item lookup list_lookup mbind result_bind].
    by rewrite (Hpe r _ Hs).
Qed.

(** A rollout needs a patch size that divides the image size.  When it
    does not, the first step returns an image smaller than the one it
    was given, and with two steps or more [AFNONet.forward] raises: the
    second step fails the size assertion of the patch embedding, or, when
    [input_time_dim > output_time_dim], the concatenation that builds its
    input fails on the sizes. *)
Theorem forward_rollout_needs_dividing_patch (a : AFNONet.args R)
    (m : AFNONet.t R) (x : tensor R) (B : nat) :
  AFNONet.init a = Ok m ->
  args_layers_shapes a ->
  (AFNONet.patch_size m).1 <= (AFNONet.img_size m).1 ->
  (AFNONet.patch_size m).2 <= (AFNONet.img_size m).2 ->
  ~ ((AFNONet.img_size m).1 mod (AFNONet.patch_size m).1 = 0 /\
     (AFNONet.img_size m).2 mod (AFNONet.patch_size m).2 = 0) ->
  2 <= AFNONet.autoregressive_steps m ->
  shape x = [B; AFNONet.in_chans m] ++
            match AFNONet.input_time_dim m with Some i => [i] | None => [] end ++
            [(AFNONet.img_size m).1; (AFNONet.img_size m).2] ->
  AFNONet.forward rfft2_ortho irfft2_ortho m x
  = Raise match AFNONet.input_time_dim m, AFNONet.output_time_dim m with
          | Some i, Some o => if bool_decide (i <= o) then AssertionError
                              else RuntimeError
          | _, _ => AssertionError
          end.
Proof.
  intros Hinit Hlayers H1 H2 Hndiv Hsteps Hs.
  destruct (forward_step_Ok rfft2_ortho irfft2_ortho a m x B Hinit Hlayers H1 H2 Hs)
    as (y & Hy & Hsy).
  assert (Hsize : (AFNONet.h m * (AFNONet.patch_size m).1,
                   AFNONet.w m * (AFNONet.patch_size m).2) <> AFNONet.img_size m).
  { intros Heq. apply Hndiv.
    destruct (AFNONet_init_fields a m Hinit)
      as (ipe & ope & pe & blks & _ & _ & Hp1 & Hp2 & _ & ->).
    cbn [AFNONet.h AFNONet.w AFNONet.patch_size AFNONet.img_size fst snd] in *.
    destruct (AFNONet.a_img_size a) as [H W]. injection Heq as E1 E2.
    cbn [fst snd] in *.
    split; apply Nat.Div0.div_exact; rewrite Nat.mul_comm; done. }
  assert (Himg : AFNONet.img_size m = PatchEmbed.img_size (AFNONet.patch_embed m)).
  { destruct (AFNONet_init_fields a m Hinit)
      as (ipe & ope & pe & blks & _ & Hpe & _ & _ & _ & ->).
    destruct (PatchEmbed_init_fields _ _ _ _ Hpe) as (_ & _ & ->). done. }
  destruct (AFNONet_init_time _ _ Hinit) as [Hhas Hpos].
  unfold AFNONet.forward.
  destruct (AFNONet.autoregressive_steps m) as [|[|n]] eqn:En; [lia|lia|].
  cbn [AFNONet.run_steps]. rewrite (bool_decide_false (0 < 0)) by lia.
  cbn [mbind result_bind]. rewrite Hy. cbn [mbind result_bind app].
  rewrite (bool_decide_true (0 < 1)) by lia.
  unfold AFNONet.get_next_input. rewrite Hhas.
  unfold Py.last_item. cbn [last].
  destruct (AFNONet.input_time_dim m) as [i|] eqn:Hi.
  - destruct (Hpos i eq_refl) as (Hi0 & o & Ho & Ho0). rewrite Ho in Hsy |- *.
    rewrite (bool_decide_true (Some i <> None)) by done.
    cbn [negb default from_option id app] in *.
    destruct (decide (i <= o)) as [Hio|Hio].
    + rewrite !(bool_decide_true (i <= o)) by done. cbn [mbind result_bind].
      unfold slice_axis. rewrite Hsy. cbn [lookup list_lookup].
      rewrite slice_tail by lia. cbn [mbind result_bind].
      unfold AFNONet.forward_step.
      erewrite forward_features_wrong_size; [done|by rewrite Hi|done| |exact Hsize].
      cbn [shape list_insert insert]. by rewrite Hi.
    + rewrite !(bool_decide_false (i <= o)) by done.
      unfold slice_axis. rewrite Hs. cbn [lookup list_lookup].
      rewrite slice_from by lia. cbn [mbind result_bind].
      unfold cat. cbn [shape length list_insert insert].
      rewrite bool_decide_true by lia. unfold cat_compatible.
      cbn [forallb shape list_insert insert]. rewrite Hsy.
      cbn [list_insert insert]. rewrite bool_decide_true by done.
      rewrite bool_decide_false; [done|].
      intros [= _ E1 E2]. apply Hsize. destruct (AFNONet.img_size m). cbn in *.
      congruence.
  - rewrite (bool_decide_false (None <> None)) by (intros Hn; by apply Hn).
    cbn [negb mbind result_bind]. unfold AFNONet.forward_step.
    erewrite forward_features_wrong_size; [done|by rewrite Hi|done| |exact Hsize].
    rewrite Hsy, Hi. done.
Qed.

End Rollout.
(** ** The concrete layers have the shapes the constructor asks for *)

Lemma linear_nobias_shapes {R} `{Num R} (n_in n_out : nat) (wt : list nat -> R) :
  linear_shapes (linear_nobias n_in n_out wt) n_in n_out.
Proof.
  intros x pre Hs. unfold linear_nobias. rewrite Hs, reverse_snoc.
  rewrite bool_decide_true by done. eexists. split; [done|].
  cbn [shape]. by rewrite reverse_cons, reverse_involutive.
Qed.

Lemma identity_shape_preserving {R} : shape_preserving (identity (R:=R)).
Proof. intros x. by exists x. Qed.

Lemma grid_args_layers (img patch : nat * nat) (chans embed_dim : nat)
    (itd otd : option nat) (steps : nat) (only_last : bool) :
  0 < patch.1 -> 0 < patch.2 ->
  args_layers_shapes (grid_args img patch chans embed_dim itd otd steps only_last).
Proof.
  intros Hp1 Hp2. unfold args_layers_shapes, grid_args. cbn.
  split; [by apply conv2d_patch_shapes|]. split; [apply identity_shape_preserving|].
  split; [constructor|]. split; [done|]. apply linear_nobias_shapes.
Qed.

(** Batches of 5 images of size 4x6 with 2 channels cut into 2x3
    patches, without time dimension, and with 2 input frames and 1
    output frame *)
Lemma forward_step_shape_witness :
  (exists y,
     AFNONet.forward_step rfft2_point irfft2_point
       (grid_net (4, 6) (2, 3) 2 4 None None 1 false None)
       (const_tensor [5; 2; 4; 6] 1) = Ok y /\
     shape y = [5; 2; 4; 6]) /\
  (exists y,
     AFNONet.forward_step rfft2_point irfft2_point
       (grid_net (4, 6) (2, 3) 2 4 (Some 2) (Some 1) 1 false None)
       (const_tensor [5; 2; 2; 4; 6] 1) = Ok y /\
     shape y = [5; 2; 1; 4; 6]).
Proof.
  split.
  - exact (proj1 (forward_step_shape (NR:=Z_Num) rfft2_point irfft2_point
                    (grid_args (4, 6) (2, 3) 2 4 None None 1 false)
                    (grid_net (4, 6) (2, 3) 2 4 None None 1 false None)
                    (const_tensor [5; 2; 4; 6] 1) 5 eq_refl
                    (grid_args_layers (4, 6) (2, 3) 2 4 None None 1 false
                       ltac:(cbn; lia) ltac:(cbn; lia))
                    ltac:(cbn; lia) ltac:(cbn; lia))
             eq_refl eq_refl).
  - exact (proj1 (proj2 (forward_step_shape (NR:=Z_Num) rfft2_point irfft2_point
                    (grid_args (4, 6) (2, 3) 2 4 (Some 2) (Some 1) 1 false)
                    (grid_net (4, 6) (2, 3) 2 4 (Some 2) (Some 1) 1 false None)
                    (const_tensor [5; 2; 2; 4; 6] 1) 5 eq_refl
                    (grid_args_layers (4, 6) (2, 3) 2 4 (Some 2) (Some 1) 1 false
                       ltac:(cbn; lia) ltac:(cbn; lia))
                    ltac:(cbn; lia) ltac:(cbn; lia)))
             2 1 eq_refl eq_refl eq_refl).
Defined.

(** Three steps with 2 input frames and 1 output frame per step *)
Lemma forward_rollout_shape_witness :
  exists y,
    AFNONet.forward rfft2_point irfft2_point
      (grid_net (4, 6) (2, 3) 2 4 (Some 2) (Some 1) 3 false None)
      (const_tensor [5; 2; 2; 4; 6] 1) = Ok y /\
    shape y = [5; 2; 3; 4; 6].
Proof.
  exact (forward_rollout_shape (NR:=Z_Num) rfft2_point irfft2_point
           (grid_args (4, 6) (2, 3) 2 4 (Some 2) (Some 1) 3 false)
           (grid_net (4, 6) (2, 3) 2 4 (Some 2) (Some 1) 3 false None)
           (const_tensor [5; 2; 2; 4; 6] 1) 5 eq_refl
           (grid_args_layers (4, 6) (2, 3) 2 4 (Some 2) (Some 1) 3 false
              ltac:(cbn; lia) ltac:(cbn; lia))
           ltac:(cbn; lia) ltac:(cbn; lia) eq_refl eq_refl eq_refl
           ltac:(cbn; lia) eq_refl eq_refl eq_refl).
Defined.

(** Two steps on 5x6 images cut into 2x3 patches: the first step returns
    4x6 images *)
Lemma forward_rollout_needs_dividing_patch_witness :
  AFNONet.forward rfft2_point irfft2_point
    (grid_net (5, 6) (2, 3) 2 4 None None 2 false None)
    (const_tensor [5; 2; 5; 6] 1)
  = Raise AssertionError.
Proof.
  exact (forward_rollout_needs_dividing_patch (NR:=Z_Num) rfft2_point irfft2_point
           (grid_args (5, 6) (2, 3) 2 4 None None 2 false)
           (grid_net (5, 6) (2, 3) 2 4 None None 2 false None)
           (const_tensor [5; 2; 5; 6] 1) 5 eq_refl
           (grid_args_layers (5, 6) (2, 3) 2 4 None None 2 false
              ltac:(cbn; lia) ltac:(cbn; lia))
           ltac:(cbn; lia) ltac:(cbn; lia)
           ltac:(cbn; intros [E _]; discriminate E)
           ltac:(cbn; lia) eq_refl).
Defined.
(** ** Edge cases of the driver *)

Section DriverEdges.
Context {R : Type} {NR : Num R}.
Variable rfft2_ortho : tensor R -> (list nat -> R) * (list nat -> R).
Variable irfft2_ortho : nat * nat -> ctensor R -> list nat -> R.
Variable activation : act_name -> R -> R.
Variable div6 : R -> R.


Lemma forward_step_rank (m : AFNONet.t R) (x y : tensor R) :
  AFNONet.forward_step rfft2_ortho irfft2_ortho m x = Ok y ->
  length (shape y) = if AFNONet.has_time_dim m then 5 else 4.
Proof.
  unfold AFNONet.forward_step, AFNONet.forward_head. intros Hy.
  apply bind_Ok in Hy as (f & _ & Hy). apply bind_Ok in Hy as (z & _ & Hy).
  apply bind_Ok in Hy as (h & _ & Hy). apply bind_Ok in Hy as (w & _ & Hy).
  by apply unpatch_rank in Hy.
Qed.

(** [AFNONetOneStep.forward] against [AFNONet.forward]: a model with one
    autoregressive step, without crop and target selection, returns
    from [forward] what the one-step class returns, and raises what it
    raises. *)
Theorem forward_one_step_agrees (m : AFNONet.t R) (x : tensor R) :
  AFNONet.autoregressive_steps m = 1 ->
  AFNONet.use_dilated_conv_blocks m = false ->
  AFNONet.target_variable_index m = None ->
  result_teq (AFNONet.forward rfft2_ortho irfft2_ortho m x)
             (AFNONetOneStep.forward rfft2_ortho irfft2_ortho m x).
Proof.
  intros Hsteps Hcrop Htarget.
  unfold AFNONet.forward, AFNONetOneStep.forward, AFNONet.postprocess.
  rewrite Hsteps, Hcrop, Htarget. cbn [AFNONet.run_steps].
  rewrite bool_decide_false by lia. cbn [mbind result_bind].
  destruct (AFNONet.forward_step rfft2_ortho irfft2_ortho m x) as [y|e] eqn:Hy;
    [|done].
  cbn [mbind result_bind app]. unfold AFNONet.assemble.
  apply forward_step_rank in Hy.
  destruct (AFNONet.has_time_dim m && negb (AFNONet.output_only_last m)) eqn:Hcat.
  - apply andb_prop in Hcat as [Ht _]. rewrite Ht in Hy.
    unfold cat. rewrite bool_decide_true by lia. cbn [forallb].
    unfold cat_compatible. rewrite bool_decide_true by done.
    cbn [andb mbind result_bind result_teq]. split.
    + cbn [shape map sum_list]. unfold dim.
      destruct (shape y !! 2) as [d|] eqn:Hd.
      * cbn. rewrite Nat.add_0_r. by apply list_insert_id.
      * apply lookup_ge_None in Hd. lia.
    + intros idx Hidx. cbn [data cat_data shape map sum_list] in *.
      rewrite bool_decide_true; [done|].
      unfold dim in *. destruct (shape y !! 2) as [d|] eqn:Hd.
      * cbn in Hidx |- *. rewrite Nat.add_0_r, list_insert_id in Hidx by done.
        unfold in_bounds in Hidx.
        destruct (Forall2_lookup_r _ _ _ _ _ Hidx Hd) as (j & -> & Hj). done.
      * apply lookup_ge_None in Hd. lia.
  - cbn. split; done.
Qed.

(** The target selection at the end of [forward], without crop, on a
    tensor (b, c, ...): an integer index inside [-c, c) removes the
    channel axis and keeps the channel it names, counting from the end
    when negative; an integer outside raises [IndexError]; a list of
    indices keeps the axis, with the length of the list. *)
Theorem postprocess_selects_target (m : AFNONet.t R) (x : tensor R)
    (b c : nat) (rest : list nat) :
  AFNONet.use_dilated_conv_blocks m = false ->
  shape x = b :: c :: rest ->
  (forall i, AFNONet.target_variable_index m = Some (TargetInt i) ->
     ((- Z.of_nat c <= i < Z.of_nat c)%Z ->
        exists y, AFNONet.postprocess m x = Ok y /\
          shape y = b :: rest /\
          forall ib irest,
            data y (ib :: irest)
            = data x (ib :: Z.to_nat (i mod Z.of_nat c) :: irest)) /\
     ((i < - Z.of_nat c \/ Z.of_nat c <= i)%Z ->
        AFNONet.postprocess m x = Raise IndexError)) /\
  (forall l js, AFNONet.target_variable_index m = Some (TargetList l) ->
     Forall2 (fun i j => (- Z.of_nat c <= i < Z.of_nat c)%Z /\
                         j = Z.to_nat (i mod Z.of_nat c)) l js ->
     exists y, AFNONet.postprocess m x = Ok y /\
       shape y = b :: length l :: rest /\
       forall ib k j irest, js !! k = Some j ->
         data y (ib :: k :: irest) = data x (ib :: j :: irest)) /\
  (AFNONet.target_variable_index m = None -> AFNONet.postprocess m x = Ok x).
Proof.
  intros Hcrop Hs. unfold AFNONet.postprocess. rewrite Hcrop.
  cbn [mbind result_bind].
  assert (Hnorm : forall i, (- Z.of_nat c <= i < Z.of_nat c)%Z ->
            norm_index c i = Ok (Z.to_nat (i mod Z.of_nat c))).
  { intros i Hi. unfold norm_index. destruct (Z.ltb_spec i 0).
    - destruct (Z.ltb_spec (i + Z.of_nat c) 0); [lia|]. do 2 f_equal.
      apply Z.mod_unique with (q := (-1)%Z); lia.
    - destruct (Z.ltb_spec i (Z.of_nat c)); [|lia]. do 2 f_equal.
      symmetry. apply Z.mod_small. lia. }
  split; [|split].
  - intros i ->. unfold select_axis1. rewrite Hs. split.
    + intros Hi. rewrite (Hnorm i Hi). cbn [mbind result_bind].
      eexists. split; [done|]. split; done.
    + intros Hi. unfold norm_index. destruct (Z.ltb_spec i 0).
      * destruct (Z.ltb_spec (i + Z.of_nat c) 0); [done|lia].
      * destruct (Z.ltb_spec i (Z.of_nat c)); [lia|done].
  - intros l js -> Hjs. unfold select_axis1. rewrite Hs.
    assert (Hmap : mapM (norm_index c) l = Ok js).
    { apply mapM_result_Ok. eapply Forall2_impl; [exact Hjs|].
      cbn. intros i j [Hi ->]. by apply Hnorm. }
    rewrite Hmap. cbn [mbind result_bind]. eexists. split; [done|].
    split; [cbn; by rewrite (Forall2_length _ _ _ Hjs)|].
    intros ib k j irest Hk. cbn. by rewrite Hk.
  - intros ->. done.
Qed.

End DriverEdges.


(** One step with 2 input frames and 1 output frame *)
Lemma forward_one_step_agrees_witness :
  result_teq
    (AFNONet.forward rfft2_point irfft2_point
       (grid_net (4, 6) (2, 3) 2 4 (Some 2) (Some 1) 1 false None)
       (const_tensor [5; 2; 2; 4; 6] 1))
    (AFNONetOneStep.forward rfft2_point irfft2_point
       (grid_net (4, 6) (2, 3) 2 4 (Some 2) (Some 1) 1 false None)
       (const_tensor [5; 2; 2; 4; 6] 1)).
Proof.
  exact (forward_one_step_agrees (NR:=Z_Num) rfft2_point irfft2_point
           (grid_net (4, 6) (2, 3) 2 4 (Some 2) (Some 1) 1 false None)
           (const_tensor [5; 2; 2; 4; 6] 1) eq_refl eq_refl eq_refl).
Defined.

(** The last of three channels, named by -1 *)
Lemma postprocess_selects_target_witness :
  exists y,
    AFNONet.postprocess
      (grid_net (2, 2) (1, 1) 3 1 None None 1 false (Some (TargetInt (-1))))
      (index_image [1; 3; 2; 2]) = Ok y /\
    shape y = [1; 2; 2] /\
    forall ib irest,
      data y (ib :: irest) = data (index_image [1; 3; 2; 2]) (ib :: 2 :: irest).
Proof.
  exact (proj1 (proj1 (postprocess_selects_target
                         (grid_net (2, 2) (1, 1) 3 1 None None 1 false
                            (Some (TargetInt (-1))))
                         (index_image [1; 3; 2; 2]) 1 3 [2; 2] eq_refl eq_refl)
                  (-1)%Z eq_refl) ltac:(lia)).
Defined.
(** ** In-place addition under aliasing *)

Section AddAliasing.
Context {R : Type} {NR : Num R}.

Lemma add_loop_self (l : loc) (xs : list loc) (k : nat) (t : tensor R) (s : store R) :
  s !! l = Some t ->
  add_loop (l :: xs) (replicate k l) s
  = (Ok tt, <[l := Nat.iter k (fun u => plus_broadcast u u) t]> s).
Proof.
  revert t s. induction k as [|k IH]; intros t s Hl.
  - cbn. unfold mret, M_ret. by rewrite list_insert_id.
  - cbn [replicate add_loop].
    rewrite (M_bind_Ok _ _ s s l) by done.
    rewrite (M_bind_Ok _ _ s _ tt
               (iadd_Ok l l t t s Hl Hl (broadcastable_to_refl (shape t)))).
    rewrite (IH (plus_broadcast t t)).
    + by rewrite list_insert_insert_eq, Nat.iter_succ_r.
    + apply list_lookup_insert_eq. by eapply lookup_lt_Some.
Qed.

(** [add] on lists that are empty, hold one tensor, or hold the same
    tensor object several times.  The empty list raises [IndexError]; a
    one-element list returns its element and changes nothing; and when
    the first tensor object occurs [k] more times in the list, each
    [+=] adds the current content of the object to itself: it ends up
    doubled [k] times, so that three references to a tensor [x] give
    [4 * x], not [3 * x]. *)
Theorem add_on_aliased_list (l : loc) (k : nat) (t : tensor R) (s : store R) :
  s !! l = Some t ->
  add [] s = (Raise IndexError, s) /\
  add [l] s = (Ok l, s) /\
  add (l :: replicate k l) s
  = (Ok l, <[l := Nat.iter k (fun u => plus_broadcast u u) t]> s) /\
  shape (Nat.iter k (fun u => plus_broadcast u u) t) = shape t /\
  forall idx, in_bounds (shape t) idx ->
    data (Nat.iter k (fun u => plus_broadcast u u) t) idx
    = Nat.iter k (fun v => radd v v) (data t idx).
Proof.
  intros Hl. split; [done|]. split; [done|]. split; [|split].
  - unfold add. cbn [drop].
    by rewrite (M_bind_Ok _ _ _ _ _ (add_loop_self l _ k t s Hl)).
  - induction k as [|k IH]; [done|]. by rewrite Nat.iter_succ.
  - intros idx Hidx. induction k as [|k IH]; [done|].
    assert (Hs : shape (Nat.iter k (fun u => plus_broadcast u u) t) = shape t).
    { clear. induction k as [|k IHk]; [done|]. by rewrite Nat.iter_succ. }
    rewrite !Nat.iter_succ. rewrite <- IH.
    remember (Nat.iter k (fun u => plus_broadcast u u) t) as u eqn:Eu.
    unfold plus_broadcast. cbn [data shape].
    by rewrite Hs, broadcast_index_same.
Qed.

End AddAliasing.

(** ** Fusion by concatenation, and by neither action *)

Section FusionMore.
Context {R : Type} {NR : Num R}.
Variable rfft2_ortho : tensor R -> (list nat -> R) * (list nat -> R).
Variable irfft2_ortho : nat * nat -> ctensor R -> list nat -> R.

Lemma mapM_read (ls : list loc) (ts : list (tensor R)) (s : store R) :
  Forall2 (fun l t => s !! l = Some t) ls ts ->
  mapM read ls s = (Ok ts, s).
Proof.
  induction 1 as [|l t ls ts Hl Hrest IH]; [done|].
  cbn [mapM]. rewrite (M_bind_Ok _ _ s s t) by (unfold read; by rewrite Hl).
  by rewrite (M_bind_Ok _ _ s s ts IH).
Qed.

Lemma fresh_outputs_all (s : store R) (ys : list (tensor R)) :
  Forall2 (fun l t => (s ++ ys) !! l = Some t) (seq (length s) (length ys)) ys.
Proof.
  apply Forall2_same_length_lookup. split; [by rewrite length_seq|].
  intros i l t Hl Ht. apply lookup_seq in Hl as [-> Hi].
  rewrite lookup_app_r by lia. by replace (length s + i - length s) with i by lia.
Qed.

(** A wrapper whose action is neither 'add' nor 'concat' does not fuse:
    the features handed to the head are those of the last encoder, the
    other encoders run and their result is dropped; with no encoder at
    all the variable is unbound. *)
Theorem fusion_other_action_keeps_last (m : MultiEncoder.t R) :
  MultiEncoder.action m <> "add" -> MultiEncoder.action m <> "concat" ->
  (forall ls s,
     MultiEncoder.fuse m ls s
     = (match last ls with Some x => Ok x | None => Raise UnboundLocalError end, s)) /\
  (forall input_list s ys y,
     MultiEncoder.encoder_outputs rfft2_ortho irfft2_ortho (MultiEncoder.encoders m)
       input_list s (ys ++ [y]) ->
     MultiEncoder.forward_step rfft2_ortho irfft2_ortho m input_list s
     = MultiEncoder.project m (length s + length ys) (s ++ ys ++ [y])).
Proof.
  intros Hadd Hcat.
  assert (Hfuse : forall ls s,
            MultiEncoder.fuse m ls s
            = (match last ls with Some x => Ok x | None => Raise UnboundLocalError end,
               s)).
  { intros ls s. unfold MultiEncoder.fuse. rewrite !bool_decide_false by done.
    by destruct (last ls). }
  split; [done|]. intros input_list s ys y Hout.
  rewrite (forward_step_runs_encoders rfft2_ortho irfft2_ortho m input_list s _ Hout).
  assert (Hlast : last (seq (length s) (length (ys ++ [y])))
                  = Some (length s + length ys)).
  { rewrite length_app. cbn [length]. rewrite seq_app. cbn [seq].
    by rewrite last_snoc. }
  erewrite M_bind_Ok; [done|]. by rewrite Hfuse, Hlast.
Qed.

(** Fusion by concatenation.  When the encoder outputs agree on every
    axis but the last, the fused features are a new tensor, their
    concatenation along the last axis, whose last extent is the sum of
    the encoders' last extents; the encoder outputs themselves are left
    as they are.  When some output disagrees with the first one on another
    axis, the step raises [RuntimeError]. *)
Theorem concat_fusion_step (m : MultiEncoder.t R) (input_list : list pyval)
    (s : store R) (y0 : tensor R) (ys : list (tensor R)) (r : nat) :
  MultiEncoder.action m = "concat" ->
  MultiEncoder.encoder_outputs rfft2_ortho irfft2_ortho (MultiEncoder.encoders m)
    input_list s (y0 :: ys) ->
  length (shape y0) = S r ->
  (Forall (fun y => <[r := 0]> (shape y) = <[r := 0]> (shape y0)) ys ->
     exists c, cat (y0 :: ys) r = Ok c /\
       shape c = <[r := sum_list (map (fun y => dim y r) (y0 :: ys))]> (shape y0) /\
       MultiEncoder.forward_step rfft2_ortho irfft2_ortho m input_list s
       = MultiEncoder.project m (length s + S (length ys)) (s ++ (y0 :: ys) ++ [c])) /\
  (Exists (fun y => <[r := 0]> (shape y) <> <[r := 0]> (shape y0)) ys ->
     MultiEncoder.forward_step rfft2_ortho irfft2_ortho m input_list s
     = (Raise RuntimeError, s ++ y0 :: ys)).
Proof.
  intros Hact Hout Hrank.
  rewrite (forward_step_runs_encoders rfft2_ortho irfft2_ortho m input_list s _ Hout).
  assert (Hfuse : MultiEncoder.fuse m (seq (length s) (length (y0 :: ys))) (s ++ y0 :: ys)
                  = (t ← lift (cat (y0 :: ys) r); alloc t) (s ++ y0 :: ys)).
  { unfold MultiEncoder.fuse, process_input. rewrite Hact.
    rewrite bool_decide_false by done. rewrite bool_decide_true by done.
    unfold concat_last.
    rewrite (M_bind_Ok _ _ _ _ _ (mapM_read _ _ _ (fresh_outputs_all s (y0 :: ys)))).
    by rewrite Hrank. }
  split.
  - intros Hall.
    assert (Hcat : exists c, cat (y0 :: ys) r = Ok c /\
              shape c = <[r := sum_list (map (fun y => dim y r) (y0 :: ys))]> (shape y0)).
    { unfold cat. rewrite bool_decide_true by lia.
      assert (Hc : forallb (fun t => cat_compatible r (shape y0) (shape t)) (y0 :: ys)
                   = true).
      { apply forallb_forall. intros t Ht. apply list_elem_of_In in Ht.
        unfold cat_compatible. apply bool_decide_eq_true.
        apply elem_of_cons in Ht as [->|Ht]; [done|].
        rewrite Forall_forall in Hall. by apply Hall. }
      rewrite Hc. by eexists. }
    destruct Hcat as (c & Hc & Hsc). exists c. split; [done|]. split; [done|].
    erewrite M_bind_Ok; [done|]. rewrite Hfuse, Hc.
    unfold mbind, M_bind, lift, alloc.
    rewrite length_app. cbn [length]. rewrite <- app_assoc. done.
  - intros Hex.
    assert (Hc : cat (y0 :: ys) r = Raise RuntimeError).
    { unfold cat. rewrite bool_decide_true by lia.
      assert (Hc : forallb (fun t => cat_compatible r (shape y0) (shape t)) (y0 :: ys)
                   = false).
      { apply not_true_is_false. intros Hall.
        rewrite forallb_forall in Hall. apply Exists_exists in Hex as (y & Hy & Hne).
        apply Hne. specialize (Hall y). unfold cat_compatible in Hall.
        apply bool_decide_eq_true in Hall; [done|].
        apply list_elem_of_In. by right. }
      by rewrite Hc. }
    erewrite M_bind_Raise; [done|]. by rewrite Hfuse, Hc.
Qed.

End FusionMore.

(** Three references to one tensor object holding 3 *)
Lemma add_on_aliased_list_witness :
  exists s',
    add [0; 0; 0] [const_tensor [2] 3] = (Ok 0, s') /\
    (fun t => data t [1]) <$> s' !! 0 = Some 12%Z.
Proof.
  destruct (add_on_aliased_list (NR:=Z_Num) 0 2 (const_tensor [2] 3)
              [const_tensor [2] 3] eq_refl) as (_ & _ & Hadd & _).
  eexists. split; [exact Hadd|]. reflexivity.
Defined.

(** Two encoders on grids holding 1 and 10, under an action that is
    neither 'add' nor 'concat': the output is computed from 10 alone *)
Lemma fusion_other_action_keeps_last_witness :
  exists s',
    MultiEncoder.forward_step rfft2_point irfft2_point (wrapper_with 2 "sum" 1)
      [VTensor 0; VTensor 1]
      [const_tensor [1; 1; 1; 1] 1; const_tensor [1; 1; 1; 1] 10] = (Ok 4, s') /\
    (fun t => data t [0; 0; 0; 0]) <$> s' !! 4 = Some 10%Z.
Proof.
  destruct (AFNONet.forward_features rfft2_point irfft2_point plain_encoder
              (const_tensor [1; 1; 1; 1] 1)) as [y0|e0] eqn:H0;
    [|vm_compute in H0; discriminate H0].
  destruct (AFNONet.forward_features rfft2_point irfft2_point plain_encoder
              (const_tensor [1; 1; 1; 1] 10)) as [y1|e1] eqn:H1;
    [|vm_compute in H1; discriminate H1].
  pose proof H0 as E0. pose proof H1 as E1.
  vm_compute in E0, E1. injection E0 as E0. injection E1 as E1.
  assert (Hout : MultiEncoder.encoder_outputs rfft2_point irfft2_point
                   (MultiEncoder.encoders (wrapper_with 2 "sum" 1))
                   [VTensor 0; VTensor 1]
                   [const_tensor [1; 1; 1; 1] 1; const_tensor [1; 1; 1; 1] 10]
                   ([y0] ++ [y1])).
  { constructor; [by eexists 0, _|]. constructor; [by eexists 1, _|]. constructor. }
  rewrite (proj2 (fusion_other_action_keeps_last (NR:=Z_Num) rfft2_point irfft2_point
                    (wrapper_with 2 "sum" 1) ltac:(discriminate) ltac:(discriminate))
             [VTensor 0; VTensor 1] _ [y0] y1 Hout).
  subst y0 y1. eexists. split; vm_compute; reflexivity.
Defined.

(** The same two encoders under 'concat', with a head over 2 channels:
    the output is computed from 1 and 10; and a second grid in a batch
    of 2, which cannot be concatenated with the first *)
Lemma concat_fusion_step_witness :
  (exists s',
     MultiEncoder.forward_step rfft2_point irfft2_point (wrapper_with 2 "concat" 2)
       [VTensor 0; VTensor 1]
       [const_tensor [1; 1; 1; 1] 1; const_tensor [1; 1; 1; 1] 10] = (Ok 5, s') /\
     (fun t => data t [0; 0; 0; 0]) <$> s' !! 5 = Some 11%Z /\
     (fun t => data t [0; 0; 0; 0]) <$> s' !! 2 = Some 1%Z) /\
  (exists s',
     MultiEncoder.forward_step rfft2_point irfft2_point (wrapper_with 2 "concat" 2)
       [VTensor 0; VTensor 1]
       [const_tensor [1; 1; 1; 1] 1; const_tensor [2; 1; 1; 1] 10]
     = (Raise RuntimeError, s')).
Proof.
  split.
  - destruct (AFNONet.forward_features rfft2_point irfft2_point plain_encoder
                (const_tensor [1; 1; 1; 1] 1)) as [y0|e0] eqn:H0;
      [|vm_compute in H0; discriminate H0].
    destruct (AFNONet.forward_features rfft2_point irfft2_point plain_encoder
                (const_tensor [1; 1; 1; 1] 10)) as [y1|e1] eqn:H1;
      [|vm_compute in H1; discriminate H1].
    pose proof H0 as E0. pose proof H1 as E1.
    vm_compute in E0, E1. injection E0 as E0. injection E1 as E1.
    assert (Hout : MultiEncoder.encoder_outputs rfft2_point irfft2_point
                     (MultiEncoder.encoders (wrapper_with 2 "concat" 2))
                     [VTensor 0; VTensor 1]
                     [const_tensor [1; 1; 1; 1] 1; const_tensor [1; 1; 1; 1] 10]
                     [y0; y1]).
    { constructor; [by eexists 0, _|]. constructor; [by eexists 1, _|]. constructor. }
    destruct (proj1 (concat_fusion_step (NR:=Z_Num) rfft2_point irfft2_point
                       (wrapper_with 2 "concat" 2) [VTensor 0; VTensor 1] _ y0 [y1] 3
                       eq_refl Hout ltac:(by subst y0)))
      as (c & Hc & _ & Hstep).
    { subst y0 y1. repeat constructor. }
    rewrite Hstep. subst y0 y1. vm_compute in Hc. injection Hc as <-.
    eexists. split; [vm_compute; reflexivity|]. split; vm_compute; reflexivity.
  - destruct (AFNONet.forward_features rfft2_point irfft2_point plain_encoder
                (const_tensor [1; 1; 1; 1] 1)) as [y0|e0] eqn:H0;
      [|vm_compute in H0; discriminate H0].
    destruct (AFNONet.forward_features rfft2_point irfft2_point plain_encoder
                (const_tensor [2; 1; 1; 1] 10)) as [y1|e1] eqn:H1;
      [|vm_compute in H1; discriminate H1].
    pose proof H0 as E0. pose proof H1 as E1.
    vm_compute in E0, E1. injection E0 as E0. injection E1 as E1.
    assert (Hout : MultiEncoder.encoder_outputs rfft2_point irfft2_point
                     (MultiEncoder.encoders (wrapper_with 2 "concat" 2))
                     [VTensor 0; VTensor 1]
                     [const_tensor [1; 1; 1; 1] 1; const_tensor [2; 1; 1; 1] 10]
                     [y0; y1]).
    { constructor; [by eexists 0, _|]. constructor; [by eexists 1, _|]. constructor. }
    eexists.
    apply (proj2 (concat_fusion_step (NR:=Z_Num) rfft2_point irfft2_point
                    (wrapper_with 2 "concat" 2) [VTensor 0; VTensor 1] _ y0 [y1] 3
                    eq_refl Hout ltac:(by subst y0))).
    apply Exists_cons_hd. subst y0 y1. discriminate.
Defined.
(** ** Construction of the fusion wrapper *)

Lemma mapM_result_Raise {A B} (f : A -> result B) (pre post : list A) (a : A)
    (ys : list B) (e : exn) :
  Forall2 (fun a b => f a = Ok b) pre ys -> f a = Raise e ->
  mapM f (pre ++ a :: post) = Raise e.
Proof.
  intros Hpre Ha. induction Hpre as [|a0 b pre ys H0 Hrest IH]; cbn.
  - by rewrite Ha.
  - rewrite H0. cbn. by rewrite IH.
Qed.

Section WrapperInit.
Context {R : Type} {NR : Num R}.
Variable linear : nat -> nat -> layer R.

(** [MultiEncoderAFNONet.__init__], when it returns: there is one encoder
    per entry of [multi_params], built from that entry; the sizes, the
    time dimensions and [output_only_last] of the wrapper are those of
    entry 0, whereas [autoregressive_steps], [target_variable_index] and
    the action are the wrapper's own keyword arguments, whatever the
    entries say; the crop layer is the one of encoder 0 when
    [use_dilated_conv_blocks] is passed, and none otherwise; and the head
    takes the sum of the encoders' output widths under 'concat' and the
    width of encoder 0 under every other action. *)
Theorem MultiEncoder_init_invariants (multi_params : list (MultiEncoder.params R))
    (kw_dilated : bool) (kw_steps : nat) (kw_target : option target_index)
    (kw_action : string) (kw_act_final : option string) (m : MultiEncoder.t R) :
  MultiEncoder.init linear multi_params kw_dilated kw_steps kw_target kw_action
    kw_act_final = Ok m ->
  Forall2 (fun p e => AFNONet.init (MultiEncoder.encoder_args p) = Ok e)
          multi_params (MultiEncoder.encoders m) /\
  MultiEncoder.output_patch_embed_list m
  = map AFNONet.output_patch_embed_dim (MultiEncoder.encoders m) /\
  (exists p0 e0,
     multi_params !! 0 = Some p0 /\ MultiEncoder.encoders m !! 0 = Some e0 /\
     MultiEncoder.patch_size m
     = (MultiEncoder.p_patch_size p0, MultiEncoder.p_patch_size p0) /\
     MultiEncoder.patch_size m = AFNONet.patch_size e0 /\
     MultiEncoder.img_size m = AFNONet.img_size e0 /\
     MultiEncoder.embed_dim m = AFNONet.embed_dim e0 /\
     MultiEncoder.input_time_dim m = AFNONet.input_time_dim e0 /\
     MultiEncoder.output_time_dim m = AFNONet.output_time_dim e0 /\
     MultiEncoder.has_time_dim m = AFNONet.has_time_dim e0 /\
     MultiEncoder.output_only_last m = AFNONet.output_only_last e0 /\
     MultiEncoder.out_chans m = AFNONet.out_chans e0 /\
     MultiEncoder.crop_layer m
     = (if kw_dilated then AFNONet.crop_layer e0 else None) /\
     (kw_dilated = true -> AFNONet.use_dilated_conv_blocks e0 = true) /\
     MultiEncoder.head m
     = linear (if bool_decide (kw_action = "concat")
               then sum_list (MultiEncoder.output_patch_embed_list m)
               else AFNONet.output_patch_embed_dim e0)
              (MultiEncoder.out_chans m * (MultiEncoder.patch_size m).1 *
               (MultiEncoder.patch_size m).2)) /\
  MultiEncoder.autoregressive_steps m = kw_steps /\
  MultiEncoder.target_variable_index m = kw_target /\
  MultiEncoder.action m = kw_action.
Proof.
  unfold MultiEncoder.init. intros Hinit.
  apply bind_Ok in Hinit as (encs & Hencs & Hinit).
  apply bind_Ok in Hinit as (crop & Hcrop & Hinit).
  apply bind_Ok in Hinit as (e0 & He0 & Hinit).
  apply bind_Ok in Hinit as (p0 & Hp0 & Hinit).
  apply bind_Ok in Hinit as (head & Hhead & Hinit).
  apply bind_Ok in Hinit as (act & _ & [= <-]).
  apply mapM_result_Ok in Hencs.
  unfold Py.item in He0, Hp0.
  destruct (encs !! 0) as [e0'|] eqn:Ee0; [|done]. injection He0 as ->.
  destruct (multi_params !! 0) as [p0'|] eqn:Ep0; [|done]. injection Hp0 as ->.
  destruct (AFNONet_init_fields _ _ (Forall2_lookup_lr _ _ _ _ _ _ Hencs Ep0 Ee0))
    as (ipe & ope & pe & blks & _ & _ & _ & _ & _ & Ee).
  cbn [MultiEncoder.encoders MultiEncoder.output_patch_embed_list
       MultiEncoder.patch_size MultiEncoder.img_size MultiEncoder.embed_dim
       MultiEncoder.input_time_dim MultiEncoder.output_time_dim
       MultiEncoder.has_time_dim MultiEncoder.output_only_last MultiEncoder.out_chans
       MultiEncoder.crop_layer MultiEncoder.head MultiEncoder.autoregressive_steps
       MultiEncoder.target_variable_index MultiEncoder.action].
  split; [done|]. split; [done|]. split; [|done].
  exists p0, e0. split; [done|]. split; [done|].
  assert (Hcrop' : crop = (if kw_dilated then AFNONet.crop_layer e0 else None) /\
                   (kw_dilated = true -> AFNONet.use_dilated_conv_blocks e0 = true)).
  { destruct kw_dilated; [|by injection Hcrop as <-].
    unfold Py.item in Hcrop. rewrite Ee0 in Hcrop. cbn in Hcrop.
    destruct (AFNONet.crop_layer e0) as [c|] eqn:Ec; [|done].
    injection Hcrop as <-. split; [done|]. intros _.
    rewrite Ee in Ec |- *. cbn in Ec |- *.
    by destruct (MultiEncoder.p_use_dilated_conv_blocks p0). }
  destruct Hcrop' as [-> Hdil].
  assert (Hh : head = linear (if bool_decide (kw_action = "concat")
                              then sum_list (map AFNONet.output_patch_embed_dim encs)
                              else AFNONet.output_patch_embed_dim e0)
                        (AFNONet.out_chans e0 * MultiEncoder.p_patch_size p0 *
                         MultiEncoder.p_patch_size p0)).
  { destruct (decide (kw_action = "concat")) as [Hk|Hk].
    - rewrite bool_decide_true in Hhead |- * by done. by injection Hhead as <-.
    - rewrite bool_decide_false in Hhead |- * by done.
      unfold Py.item in Hhead. rewrite list_lookup_fmap, Ee0 in Hhead.
      cbn in Hhead. by injection Hhead as <-. }
  rewrite Hh, Ee. cbn. repeat split; try done.
  intros Hk. specialize (Hdil Hk). rewrite Ee in Hdil. done.
Qed.

(** Which error [MultiEncoderAFNONet.__init__] raises: an empty
    [multi_params] is an [IndexError]; the error of the first encoder
    that cannot be built is passed on; asking the wrapper for
    [use_dilated_conv_blocks] when encoder 0 was built without it is an
    [AttributeError]; and a name of a final activation outside the five
    known ones is a [ValueError], raised after everything else was
    built. *)
Theorem MultiEncoder_init_errors (kw_dilated : bool) (kw_steps : nat)
    (kw_target : option target_index) (kw_action : string)
    (kw_act_final : option string) :
  MultiEncoder.init linear [] kw_dilated kw_steps kw_target kw_action kw_act_final
    = Raise IndexError /\
  (forall pre p post es e,
     Forall2 (fun p e => AFNONet.init (MultiEncoder.encoder_args p) = Ok e) pre es ->
     AFNONet.init (MultiEncoder.encoder_args p) = Raise e ->
     MultiEncoder.init linear (pre ++ p :: post) kw_dilated kw_steps kw_target
       kw_action kw_act_final = Raise e) /\
  (forall p0 ps e0 es,
     Forall2 (fun p e => AFNONet.init (MultiEncoder.encoder_args p) = Ok e)
             (p0 :: ps) (e0 :: es) ->
     (kw_dilated = true -> MultiEncoder.p_use_dilated_conv_blocks p0 = false ->
        MultiEncoder.init linear (p0 :: ps) kw_dilated kw_steps kw_target
          kw_action kw_act_final = Raise AttributeError) /\
     (forall name,
        (kw_dilated = true -> MultiEncoder.p_use_dilated_conv_blocks p0 = true) ->
        kw_act_final = Some name ->
        name ∉ ["Tanh"; "ReLU"; "LeakyReLU"; "ReLU6"; "Sigmoid"] ->
        MultiEncoder.init linear (p0 :: ps) kw_dilated kw_steps kw_target
          kw_action kw_act_final = Raise ValueError)).
Proof.
  split; [|split].
  - unfold MultiEncoder.init. cbn. by destruct kw_dilated.
  - intros pre p post es e Hpre Hp. unfold MultiEncoder.init.
    by rewrite (mapM_result_Raise _ pre post p es e Hpre Hp).
  - intros p0 ps e0 es Hencs.
    pose proof (proj2 (mapM_result_Ok _ _ _) Hencs) as Hmap.
    apply Forall2_cons in Hencs as [He0 _].
    destruct (AFNONet_init_fields _ _ He0)
      as (ipe & ope & pe & blks & _ & _ & _ & _ & _ & Ee).
    assert (Hcrop : AFNONet.crop_layer e0
                    = if MultiEncoder.p_use_dilated_conv_blocks p0
                      then Some (MultiEncoder.p_crop_layer p0) else None).
    { rewrite Ee. done. }
    unfold MultiEncoder.init. rewrite Hmap. cbn [mbind result_bind Py.item lookup
      list_lookup]. split.
    + intros -> Hp. rewrite Hcrop, Hp. done.
    + intros name Hdil -> Hname.
      assert (Hc : (if kw_dilated
                    then match AFNONet.crop_layer e0 with
                         | Some c => Ok (Some c)
                         | None => Raise AttributeError
                         end
                    else Ok None)
                   = Ok (if kw_dilated then AFNONet.crop_layer e0 else None)).
      { destruct kw_dilated; [|done]. by rewrite Hcrop, Hdil. }
      rewrite Hc. cbn [mbind result_bind].
      assert (Hparse : MultiEncoder.parse_act name = Raise ValueError).
      { unfold MultiEncoder.parse_act.
        rewrite !bool_decide_false; [done|..]; intros ->; apply Hname;
          repeat (constructor || apply elem_of_list_further). }
      destruct (bool_decide (kw_action = "concat"));
        cbn [mbind result_bind map list_fmap fmap Py.item lookup list_lookup];
        by rewrite Hparse.
Qed.

End WrapperInit.

(** The wrapper over two one-channel encoders *)
Lemma MultiEncoder_init_invariants_witness :
  Forall2 (fun p e => AFNONet.init (MultiEncoder.encoder_args p) = Ok e)
          [plain_params; plain_params] (MultiEncoder.encoders add_wrapper) /\
  MultiEncoder.autoregressive_steps add_wrapper = 1 /\
  MultiEncoder.action add_wrapper = "add".
Proof.
  destruct (MultiEncoder_init_invariants linear_ones [plain_params; plain_params]
              false 1 None "add" None add_wrapper eq_refl)
    as (Hencs & _ & _ & Hsteps & _ & Hact).
  exact (conj Hencs (conj Hsteps Hact)).
Defined.

(** No encoder; a crop asked from an encoder built without one; and an
    activation that is not known *)
Lemma MultiEncoder_init_errors_witness :
  MultiEncoder.init linear_ones [] false 1 None "add" None = Raise IndexError /\
  MultiEncoder.init linear_ones [plain_params] true 1 None "add" None
    = Raise AttributeError /\
  MultiEncoder.init linear_ones [plain_params] false 1 None "add" (Some "GELU")
    = Raise ValueError.
Proof.
  split; [|split].
  - exact (proj1 (MultiEncoder_init_errors linear_ones false 1 None "add" None)).
  - exact (proj1 (proj2 (proj2 (MultiEncoder_init_errors linear_ones true 1 None
                                  "add" None))
                    plain_params [] plain_encoder []
                    ltac:(repeat constructor))
             eq_refl eq_refl).
  - refine (proj2 (proj2 (proj2 (MultiEncoder_init_errors linear_ones false 1 None
                                   "add" (Some "GELU")))
                     plain_params [] plain_encoder []
                     ltac:(repeat constructor))
              "GELU" ltac:(discriminate) eq_refl _).
    intros Hin. repeat (apply elem_of_cons in Hin as [Hin|Hin]; [discriminate Hin|]).
    by apply elem_of_nil in Hin.
Defined.
(** ** The wrapper over one encoder *)

Section SingleEncoder.
Context {R : Type} {NR : Num R}.
Variable rfft2_ortho : tensor R -> (list nat -> R) * (list nat -> R).
Variable irfft2_ortho : nat * nat -> ctensor R -> list nat -> R.
Variable activation : act_name -> R -> R.
Variable div6 : R -> R.

(** With exactly one encoder the one-element list that [forward] builds
    is what [forward_step] needs.  Under an action other than 'concat'
    the step applies the wrapper's head to the features that
    [EncoderAFNONet.forward] returns, and passes on the error it raises;
    and [forward] with one step, without time dimension, crop, target
    selection and final activation, is this step. *)
Theorem single_encoder_wrapper (m : MultiEncoder.t R) (e : AFNONet.t R)
    (l : loc) (x : tensor R) (s : store R) :
  MultiEncoder.encoders m = [e] ->
  MultiEncoder.action m <> "concat" ->
  s !! l = Some x ->
  MultiEncoder.forward_step rfft2_ortho irfft2_ortho m [VTensor l] s
  = match EncoderAFNONet.forward rfft2_ortho irfft2_ortho e x with
    | Ok y => MultiEncoder.project m (length s) (s ++ [y])
    | Raise err => (Raise err, s)
    end /\
  (MultiEncoder.autoregressive_steps m = 1 ->
   MultiEncoder.has_time_dim m = false ->
   MultiEncoder.crop_layer m = None ->
   MultiEncoder.target_variable_index m = None ->
   MultiEncoder.act_final m = None ->
   MultiEncoder.forward rfft2_ortho irfft2_ortho activation div6 m (VTensor l) s
   = MultiEncoder.forward_step rfft2_ortho irfft2_ortho m [VTensor l] s).
Proof.
  intros Hencs Hact Hl. split.
  - unfold MultiEncoder.forward_step, EncoderAFNONet.forward. rewrite Hencs.
    cbn [MultiEncoder.run_encoders]. unfold MultiEncoder.call_encoder.
    unfold mbind at 1 2 3 4 5. unfold M_bind, lift, read, mret, M_ret.
    cbn [Py.item lookup list_lookup]. rewrite Hl.
    destruct (AFNONet.forward_features rfft2_ortho irfft2_ortho e x) as [y|err];
      [|done].
    unfold alloc. cbn [app].
    unfold MultiEncoder.fuse, process_input.
    rewrite (bool_decide_false (MultiEncoder.action m = "concat")) by done.
    unfold mbind, M_bind.
    by destruct (bool_decide (MultiEncoder.action m = "add")).
  - intros Hsteps Htime Hcrop Htarget Hfinal. unfold MultiEncoder.forward.
    rewrite Hsteps. cbn [MultiEncoder.run_steps].
    rewrite bool_decide_false by lia.
    destruct (MultiEncoder.forward_step rfft2_ortho irfft2_ortho m [VTensor l] s)
      as [[z|err] s'] eqn:Hstep.
    + unfold mbind, M_bind, mret, M_ret. rewrite Hstep. cbn [app].
      unfold MultiEncoder.assemble, MultiEncoder.postprocess, MultiEncoder.activate.
      rewrite Htime, Hcrop, Htarget, Hfinal. done.
    + unfold mbind, M_bind, mret, M_ret. by rewrite Hstep.
Qed.

End SingleEncoder.
(** ** The two copies of get_next_input *)

Section NextInputCopies.
Context {R : Type} {NR : Num R}.

Lemma last_Forall2 {A B} (P : A -> B -> Prop) (l : list A) (k : list B) :
  Forall2 P l k ->
  match last l, last k with
  | Some a, Some b => P a b
  | None, None => True
  | _, _ => False
  end.
Proof.
  induction 1 as [|a b l k Hab Hrest IH]; [done|].
  destruct Hrest as [|a' b' l' k' Hab' Hrest']; [done|].
  cbn [last] in IH |- *. exact IH.
Qed.

(** [MultiEncoderAFNONet.get_next_input] is a copy of
    [AFNONet.get_next_input]: on a tensor and a list of tensor objects
    it computes the same tensor and raises the same errors, for equal
    time dimensions.  Without time dimension it returns the last output
    object itself, not a copy; with one, the result is a new object. *)
Theorem wrapper_next_input_agrees (m : MultiEncoder.t R) (m' : AFNONet.t R)
    (li : loc) (x : tensor R) (outs : list loc) (ts : list (tensor R))
    (s : store R) :
  MultiEncoder.has_time_dim m = AFNONet.has_time_dim m' ->
  MultiEncoder.input_time_dim m = AFNONet.input_time_dim m' ->
  MultiEncoder.output_time_dim m = AFNONet.output_time_dim m' ->
  s !! li = Some x ->
  Forall2 (fun l t => s !! l = Some t) outs ts ->
  MultiEncoder.get_next_input m (VTensor li) outs s
  = match AFNONet.get_next_input m' x ts with
    | Ok r =>
        if MultiEncoder.has_time_dim m
        then (Ok (VTensor (length s)), s ++ [r])
        else (Ok (VTensor (default 0 (last outs))), s)
    | Raise e => (Raise e, s)
    end.
Proof.
  intros Htime Hi Ho Hli Houts.
  pose proof (last_Forall2 _ _ _ Houts) as Hlast.
  unfold MultiEncoder.get_next_input, AFNONet.get_next_input, Py.last_item.
  rewrite Hi, Ho, Htime.
  unfold mbind at 1 2 3 4 5 6 7 8 9 10. unfold M_bind, result_bind, lift, mret, M_ret,
    MultiEncoder.slice_time, read, alloc.
  destruct (AFNONet.has_time_dim m'); cbn [negb].
  - destruct (AFNONet.input_time_dim m') as [i|]; [|done].
    destruct (AFNONet.output_time_dim m') as [o|]; [|done].
    case_bool_decide.
    + destruct (last outs) as [lo|], (last ts) as [to|]; try done.
      unfold mbind, M_bind, lift. rewrite Hlast.
      by destruct (slice_axis 2 (Some (- Z.of_nat i)%Z) None to).
    + unfold mbind, M_bind, lift. rewrite Hli.
      destruct (slice_axis 2 (Some (Z.of_nat o)) None x) as [tail|]; [|done].
      destruct (last outs) as [lo|], (last ts) as [to|]; try done.
      rewrite Hlast. by destruct (cat [tail; to] 2).
  - by destruct (last outs) as [lo|], (last ts) as [to|].
Qed.

End NextInputCopies.

(** The wrapper over one encoder on a grid holding 7 *)
Lemma single_encoder_wrapper_witness :
  exists s',
    MultiEncoder.forward rfft2_point irfft2_point activation_id div6_Z
      (wrapper_with 1 "add" 1) (VTensor 0) [const_tensor [1; 1; 1; 1] 7]
    = (Ok 2, s') /\
    (fun t => data t [0; 0; 0; 0]) <$> s' !! 2 = Some 7%Z.
Proof.
  destruct (single_encoder_wrapper (NR:=Z_Num) rfft2_point irfft2_point
              activation_id div6_Z (wrapper_with 1 "add" 1) plain_encoder 0
              (const_tensor [1; 1; 1; 1] 7) [const_tensor [1; 1; 1; 1] 7]
              eq_refl ltac:(discriminate) eq_refl) as [Hstep Hfwd].
  rewrite (Hfwd eq_refl eq_refl eq_refl eq_refl eq_refl), Hstep.
  eexists. split; vm_compute; reflexivity.
Defined.

(** Without time dimension, and with [input_time_dim = 1] and
    [output_time_dim = 2] *)
Lemma wrapper_next_input_agrees_witness :
  MultiEncoder.get_next_input add_wrapper (VTensor 0) [1]
    [const_tensor [1; 1; 1; 1] 7; const_tensor [1; 1; 1; 1] 9]
  = (Ok (VTensor 1), [const_tensor [1; 1; 1; 1] 7; const_tensor [1; 1; 1; 1] 9]) /\
  exists r,
    AFNONet.get_next_input (grid_net (1, 1) (1, 1) 1 2 (Some 1) (Some 2) 2 false None)
      (time_ramp [1; 1; 1; 1; 1] 0) [time_ramp [1; 1; 2; 1; 1] 10] = Ok r /\
    MultiEncoder.get_next_input
      (MultiEncoder.mk [] [] None 1 2 (1, 1) 2 (Some 1) (Some 2) true false None
         (1, 1) "add" (linear_ones 1 1) None)
      (VTensor 0) [1] [time_ramp [1; 1; 1; 1; 1] 0; time_ramp [1; 1; 2; 1; 1] 10]
    = (Ok (VTensor 2),
       [time_ramp [1; 1; 1; 1; 1] 0; time_ramp [1; 1; 2; 1; 1] 10] ++ [r]).
Proof.
  split.
  - exact (wrapper_next_input_agrees (NR:=Z_Num) add_wrapper plain_encoder 0
             (const_tensor [1; 1; 1; 1] 7) [1] [const_tensor [1; 1; 1; 1] 9]
             [const_tensor [1; 1; 1; 1] 7; const_tensor [1; 1; 1; 1] 9]
             eq_refl eq_refl eq_refl eq_refl ltac:(repeat constructor)).
  - eexists. split; [reflexivity|].
    exact (wrapper_next_input_agrees (NR:=Z_Num)
             (MultiEncoder.mk [] [] None 1 2 (1, 1) 2 (Some 1) (Some 2) true false
                None (1, 1) "add" (linear_ones 1 1) None)
             (grid_net (1, 1) (1, 1) 1 2 (Some 1) (Some 2) 2 false None) 0
             (time_ramp [1; 1; 1; 1; 1] 0) [1] [time_ramp [1; 1; 2; 1; 1] 10]
             [time_ramp [1; 1; 1; 1; 1] 0; time_ramp [1; 1; 2; 1; 1] 10]
             eq_refl eq_refl eq_refl eq_refl ltac:(repeat constructor)).
Defined.
(** ** The band and the fraction *)

Section BandMonotone.
Context {R : Type} {NR : Num R}.



End BandMonotone.

